(** * ShootyEngine / Selas: path-tracing kernel contexts, scene baker,
      build context and model resource.

    A shallow embedding of
      - Source/Core/Shading/IntegratorContexts.cpp
      - Source/Core/BuildCommon/BakeScene.cpp
      - Source/Core/BuildCore/BuildContext.cpp
      - Source/Core/SceneLib/ModelResource.cpp
    and the properties of these functions. *)

From Stdlib Require Import ZArith Lia Bool.
From Stdlib Require Import Floats.SpecFloat.
From stdpp Require Import base option list strings gmap.

Local Open Scope Z_scope.

(** ** Machine integers *)

Module Machine.

(** [uint32] values are integers in [0, 2^32); arithmetic wraps. *)
Definition uint32_modulus : Z := 2 ^ 32.

Definition uint32_wrap (z : Z) : Z := z mod uint32_modulus.

Definition uint32_add (a b : Z) : Z := uint32_wrap (a + b).

Definition is_uint32 (z : Z) : Prop := 0 <= z < uint32_modulus.

(** [~x] on a 32-bit word. *)
Definition uint32_not (a : Z) : Z := uint32_modulus - 1 - a.

(** What a run of the C++ code can end in besides a result. *)
Inductive Fault : Type :=
| AssertionFailed
| OutOfBounds
| DivideByZero
| NullDereference.

Inductive Outcome (A : Type) : Type :=
| Done (a : A)
| Crash (f : Fault).

Arguments Done {A} a.
Arguments Crash {A} f.

Definition bind {A B : Type} (m : Outcome A) (k : A -> Outcome B) : Outcome B :=
  match m with
  | Done a => k a
  | Crash f => Crash f
  end.

(** The [Assert_] macro (SystemLib; its header is missing) takes the
    build configuration as a parameter: with [asserts = true] a failed
    condition stops the program, with [asserts = false] the check is
    compiled out. *)
Definition Assert_ (asserts : bool) (cond : bool) : Outcome unit :=
  if asserts && negb cond then Crash AssertionFailed else Done tt.

(** A store through a raw pointer: outside the allocation it is undefined
    behaviour, which the model reports as [OutOfBounds]. *)
Definition array_store {A : Type} (a : list A) (i : Z) (x : A) : Outcome (list A) :=
  if (0 <=? i) && (i <? Z.of_nat (length a))
  then Done (<[Z.to_nat i := x]> a)
  else Crash OutOfBounds.

Definition array_load {A : Type} (a : list A) (i : Z) : Outcome A :=
  if 0 <=? i then
    match a !! Z.to_nat i with
    | Some x => Done x
    | None => Crash OutOfBounds
    end
  else Crash OutOfBounds.

End Machine.

Import Machine.

#[global] Instance Outcome_ret : MRet Outcome := @Done.
#[global] Instance Outcome_bind : MBind Outcome := fun A B k m => Machine.bind m k.

(** ** Floating point (MathLib/FloatStructs.h) *)

Module Float.

(** A C++ [float] is an IEEE-754 binary32 number. *)
Definition float : Type := spec_float.

Definition prec : Z := 24.
Definition emax : Z := 128.

Definition fadd (a b : float) : float := SFadd prec emax a b.
Definition fmul (a b : float) : float := SFmul prec emax a b.
Definition fdiv (a b : float) : float := SFdiv prec emax a b.

Definition of_Z (z : Z) : float := binary_normalize prec emax z 0 false.

Definition fzero : float := S754_zero false.
Definition fone : float := of_Z 1.
Definition finfinity : float := S754_infinity false.

(** [a != 0]: true on NaN, false on both zeros. *)
Definition fnez (a : float) : bool := negb (SFeqb a fzero).

Definition is_finite (a : float) : bool :=
  match a with
  | S754_zero _ | S754_finite _ _ _ => true
  | S754_infinity _ | S754_nan => false
  end.

Record float3 : Type := mkFloat3 { fx : float; fy : float; fz : float }.

(** Modelled from the spec: MathLib/FloatFuncs.h is missing; the product of
    two [float3] is the componentwise product and [+=] adds
    componentwise. *)
Definition float3_mul (a b : float3) : float3 :=
  mkFloat3 (fmul (fx a) (fx b)) (fmul (fy a) (fy b)) (fmul (fz a) (fz b)).

Definition float3_add (a b : float3) : float3 :=
  mkFloat3 (fadd (fx a) (fx b)) (fadd (fy a) (fy b)) (fadd (fz a) (fz b)).

Definition float3_is_finite (a : float3) : bool :=
  is_finite (fx a) && is_finite (fy a) && is_finite (fz a).

Definition float3_zero : float3 := mkFloat3 fzero fzero fzero.

End Float.

Import Float.

(** ** Path-tracing kernel contexts (Shading/IntegratorContexts.cpp) *)

Module Kernel.

Record float2 : Type := mkFloat2 { f2x : float; f2y : float }.

(** Modelled from the spec: IntegratorContexts.h, SurfaceParameters.h and
    the ray header are missing; the records carry the fields the spec's
    data model lists, with the engine's [uint32] for indices and counts. *)
Record Ray : Type := mkRay {
  origin : float3;
  direction : float3;
  rxOrigin : float3;
  rxDirection : float3;
  ryOrigin : float3;
  ryDirection : float3;
  throughput : float3;
  pixelIndex : Z;
  bounceCount : Z
}.

Record HitParameters : Type := mkHit {
  hit_position : float3;
  hit_viewDirection : float3;
  hit_throughput : float3;
  hit_pixelIndex : Z;
  hit_bounceCount : Z;
  hit_geomId : Z;
  hit_primId : Z;
  hit_barys : float2
}.

Record SurfaceDifferentials : Type := mkDifferentials {
  dndu : float3;
  dndv : float3;
  duvdx : float2;
  duvdy : float2
}.

Record SurfaceParameters : Type := mkSurface {
  position : float3;
  geometricNormal : float3;
  perturbedNormal : float3;
  view : float3;
  surf_rxDirection : float3;
  surf_ryDirection : float3;
  materialFlags : Z;
  differentials : SurfaceDifferentials
}.

Record KernelContext : Type := mkContext {
  imageData : list float3;
  rayStack : list Ray;
  rayStackCount : Z;
  rayStackCapacity : Z;
  maxPathLength : Z
}.

(** The calls a bounce-ray builder can make.  [MakeRay],
    [MakeReflectionRay] and [MakeRefractionRay] are declared in a missing
    header; a call is kept with its arguments in the order of the C++
    call. *)
Inductive RayCall : Type :=
| CallMakeRay (origin direction throughput : float3) (pixelIndex bounceCount : Z)
| CallMakeReflectionRay (rxDirection ryDirection origin n wo wi : float3)
    (differentials : SurfaceDifferentials) (throughput : float3)
    (pixelIndex bounceCount : Z)
| CallMakeRefractionRay (rxDirection ryDirection origin n wo wi : float3)
    (differentials : SurfaceDifferentials) (iorRatio : float)
    (throughput : float3) (pixelIndex bounceCount : Z).

Definition transports_differentials (c : RayCall) : bool :=
  match c with
  | CallMakeRay _ _ _ _ _ => false
  | CallMakeReflectionRay _ _ _ _ _ _ _ _ _ _ => true
  | CallMakeRefractionRay _ _ _ _ _ _ _ _ _ _ _ => true
  end.

Definition call_throughput (c : RayCall) : float3 :=
  match c with
  | CallMakeRay _ _ t _ _ => t
  | CallMakeReflectionRay _ _ _ _ _ _ _ t _ _ => t
  | CallMakeRefractionRay _ _ _ _ _ _ _ _ t _ _ => t
  end.

Definition call_pixelIndex (c : RayCall) : Z :=
  match c with
  | CallMakeRay _ _ _ p _ => p
  | CallMakeReflectionRay _ _ _ _ _ _ _ _ p _ => p
  | CallMakeRefractionRay _ _ _ _ _ _ _ _ _ p _ => p
  end.

Definition call_bounceCount (c : RayCall) : Z :=
  match c with
  | CallMakeRay _ _ _ _ b => b
  | CallMakeReflectionRay _ _ _ _ _ _ _ _ _ b => b
  | CallMakeRefractionRay _ _ _ _ _ _ _ _ _ _ b => b
  end.

(** A [float3] with some component that compares unequal to zero. *)
Definition float3_nonzero (v : float3) : bool :=
  fnez (fx v) || fnez (fy v) || fnez (fz v).

(** The ray-building helpers of the missing headers. *)
Record RayBuilders : Type := mkBuilders {
  OffsetRayOrigin : SurfaceParameters -> float3 -> float -> float3;
  MakeRay : float3 -> float3 -> float3 -> Z -> Z -> Ray;
  MakeReflectionRay :
    float3 -> float3 -> float3 -> float3 -> float3 -> float3 ->
    SurfaceDifferentials -> float3 -> Z -> Z -> Ray;
  MakeRefractionRay :
    float3 -> float3 -> float3 -> float3 -> float3 -> float3 ->
    SurfaceDifferentials -> float -> float3 -> Z -> Z -> Ray
}.

Definition run_call (B : RayBuilders) (c : RayCall) : Ray :=
  match c with
  | CallMakeRay o d t p b => MakeRay B o d t p b
  | CallMakeReflectionRay rx ry o n wo wi ds t p b =>
      MakeReflectionRay B rx ry o n wo wi ds t p b
  | CallMakeRefractionRay rx ry o n wo wi ds ior t p b =>
      MakeRefractionRay B rx ry o n wo wi ds ior t p b
  end.

(** Modelled from the spec: the bodies of [MakeRay], [MakeReflectionRay]
    and [MakeRefractionRay] are missing; a ray carries the throughput, the
    pixel index and the bounce count it is built with, so the helpers
    store the path state they are handed. *)
Definition stores_path_state (B : RayBuilders) : Prop :=
  forall c : RayCall,
    throughput (run_call B c) = call_throughput c /\
    pixelIndex (run_call B c) = call_pixelIndex c /\
    bounceCount (run_call B c) = call_bounceCount c.

Section BounceRays.

(** The bit of [ePreserveRayDifferentials] in the material flags (the
    enumeration is in a missing header). *)
Variable ePreserveRayDifferentials : Z.
Variable B : RayBuilders.

Definition ReflectionBounceCall (surface : SurfaceParameters)
    (hit : HitParameters) (wi reflectance : float3) : RayCall :=
  let offsetOrigin := OffsetRayOrigin B surface wi fone in
  let throughput := float3_mul (hit_throughput hit) reflectance in
  let rayHasDifferentials :=
    fnez (fx (surf_rxDirection surface)) || fnez (fy (surf_rxDirection surface)) in
  if negb (Z.land (materialFlags surface) ePreserveRayDifferentials =? 0)
     && rayHasDifferentials
  then CallMakeReflectionRay (surf_rxDirection surface) (surf_ryDirection surface)
         offsetOrigin (perturbedNormal surface) (hit_viewDirection hit) wi
         (differentials surface) throughput (hit_pixelIndex hit)
         (uint32_add (hit_bounceCount hit) 1)
  else CallMakeRay offsetOrigin wi throughput (hit_pixelIndex hit)
         (uint32_add (hit_bounceCount hit) 1).

Definition CreateReflectionBounceRay (surface : SurfaceParameters)
    (hit : HitParameters) (wi reflectance : float3) : Ray :=
  run_call B (ReflectionBounceCall surface hit wi reflectance).

Definition RefractionBounceCall (surface : SurfaceParameters)
    (hit : HitParameters) (wi reflectance : float3) (iorRatio : float) : RayCall :=
  let offsetOrigin := OffsetRayOrigin B surface wi fone in
  let throughput := float3_mul (hit_throughput hit) reflectance in
  let rayHasDifferentials :=
    fnez (fx (surf_rxDirection surface)) || fnez (fy (surf_rxDirection surface)) in
  if negb (Z.land (materialFlags surface) ePreserveRayDifferentials =? 0)
     && rayHasDifferentials
  then CallMakeRefractionRay (surf_rxDirection surface) (surf_ryDirection surface)
         offsetOrigin (perturbedNormal surface) (hit_viewDirection hit) wi
         (differentials surface) iorRatio throughput (hit_pixelIndex hit)
         (uint32_add (hit_bounceCount hit) 1)
  else CallMakeRay offsetOrigin wi throughput (hit_pixelIndex hit)
         (uint32_add (hit_bounceCount hit) 1).

Definition CreateRefractionBounceRay (surface : SurfaceParameters)
    (hit : HitParameters) (wi reflectance : float3) (iorRatio : float) : Ray :=
  run_call B (RefractionBounceCall surface hit wi reflectance iorRatio).

End BounceRays.

Definition set_rayStack (ctx : KernelContext) (stack : list Ray) (count : Z)
    : KernelContext :=
  mkContext (imageData ctx) stack count (rayStackCapacity ctx) (maxPathLength ctx).

Definition set_imageData (ctx : KernelContext) (image : list float3)
    : KernelContext :=
  mkContext image (rayStack ctx) (rayStackCount ctx) (rayStackCapacity ctx)
    (maxPathLength ctx).

Definition InsertRay (asserts : bool) (context : KernelContext) (ray : Ray)
    : Outcome KernelContext :=
  if bounceCount ray =? maxPathLength context then mret context
  else
    _ ← Assert_ asserts
          (negb (uint32_add (rayStackCount context) 1 =? rayStackCapacity context));
    stack ← array_store (rayStack context) (rayStackCount context) ray;
    mret (set_rayStack context stack (uint32_add (rayStackCount context) 1)).

(** [imageData[index] += contribution]. *)
Definition accumulate (context : KernelContext) (index : Z) (contribution : float3)
    : Outcome KernelContext :=
  cell ← array_load (imageData context) index;
  image ← array_store (imageData context) index (float3_add cell contribution);
  mret (set_imageData context image).

(** The overload taking a [Ray]. *)
Definition AccumulatePixelEnergy_ray (context : KernelContext) (ray : Ray)
    (value : float3) : Outcome KernelContext :=
  accumulate context (pixelIndex ray) (float3_mul (throughput ray) value).

(** The overload taking a [HitParameters]. *)
Definition AccumulatePixelEnergy_hit (context : KernelContext)
    (hit : HitParameters) (value : float3) : Outcome KernelContext :=
  accumulate context (hit_pixelIndex hit) (float3_mul (hit_throughput hit) value).

(** The rays on the stack: the first [rayStackCount] entries of the buffer. *)
Definition stacked_rays (context : KernelContext) : list Ray :=
  take (Z.to_nat (rayStackCount context)) (rayStack context).

(** A context as the driver allocates it: a buffer of [rayStackCapacity]
    entries and counters in [uint32] range. *)
Definition context_wf (context : KernelContext) : Prop :=
  Z.of_nat (length (rayStack context)) = rayStackCapacity context /\
  is_uint32 (rayStackCount context) /\
  is_uint32 (rayStackCapacity context).

End Kernel.

(** ** Errors (SystemLib/Error.h) *)

Module Errors.

(** Modelled from the spec: SystemLib/Error.h is missing; an [Error] is
    either success or a failure with its message, and [ReturnError_]
    leaves the calling function with the failure. *)
Inductive Error : Type :=
| Success_
| Error_ (message : string).

Definition is_success (e : Error) : bool :=
  match e with
  | Success_ => true
  | Error_ _ => false
  end.

End Errors.

Import Errors.

(** ** Binary writer (IoLib/BinarySerializer) *)

Module Serializer.

Definition byte : Type := Byte.byte.

Record PointerDesc : Type := mkPointerDesc {
  pointerOffset : Z;
  pointerDataOffset : Z
}.

(** Modelled from the spec: IoLib/BinarySerializer is missing.  The writer
    has the two operations of the blob layout: raw bytes are written at
    the cursor; a promised pointer records the cursor as a relocation
    site (eight bytes are left there for the offset) and its pointee
    bytes are appended later, behind everything written at the cursor.
    Offsets are 64-bit, little-endian and relative to the start of the
    blob. *)
Record BinaryWriter : Type := mkWriter {
  rawData : list byte;
  pointerData : list byte;
  pointers : list PointerDesc
}.

Definition SerializerStart (rawReserve pointerReserve : Z) : BinaryWriter :=
  mkWriter [] [] [].

Definition SerializerWrite (w : BinaryWriter) (data : list byte) (size : Z)
    : BinaryWriter :=
  mkWriter (rawData w ++ take (Z.to_nat size) data) (pointerData w) (pointers w).

Definition SerializerWritePointerOffsetX64 (w : BinaryWriter) : BinaryWriter :=
  mkWriter (rawData w ++ replicate 8 Byte.x00) (pointerData w)
    (pointers w ++
       [mkPointerDesc (Z.of_nat (length (rawData w)))
                      (Z.of_nat (length (pointerData w)))]).

Definition SerializerWritePointerData (w : BinaryWriter) (data : list byte)
    (size : Z) : BinaryWriter :=
  mkWriter (rawData w) (pointerData w ++ take (Z.to_nat size) data) (pointers w).

(** Where the pointee of a promised pointer begins, from the blob origin. *)
Definition pointee_offset (w : BinaryWriter) (d : PointerDesc) : Z :=
  Z.of_nat (length (rawData w)) + pointerDataOffset d.

Definition byte_of_Z (z : Z) : byte :=
  match Byte.of_N (Z.to_N (z mod 256)) with
  | Some b => b
  | None => Byte.x00
  end.

Definition Z_of_byte (b : byte) : Z := Z.of_N (Byte.to_N b).

(** Little-endian encoding of an unsigned integer on [n] bytes. *)
Fixpoint encode_le (n : nat) (z : Z) : list byte :=
  match n with
  | O => []
  | S n' => byte_of_Z z :: encode_le n' (z / 256)
  end.

Fixpoint decode_le (bs : list byte) : Z :=
  match bs with
  | [] => 0
  | b :: bs' => Z_of_byte b + 256 * decode_le bs'
  end.

(** Overwrite [blob] from position [at_] on with [bs]. *)
Definition overwrite (blob : list byte) (at_ : nat) (bs : list byte) : list byte :=
  take at_ blob ++ bs ++ drop (at_ + length bs) blob.

Definition patch_pointer (w : BinaryWriter) (blob : list byte) (d : PointerDesc)
    : list byte :=
  overwrite blob (Z.to_nat (pointerOffset d)) (encode_le 8 (pointee_offset w d)).

(** The finished blob: the raw part with every relocation site filled in,
    followed by the pointee bytes. *)
Definition SerializerEnd (w : BinaryWriter) : Error * list byte :=
  (Success_, foldl (patch_pointer w) (rawData w ++ pointerData w) (pointers w)).

(** The 64-bit offset stored in [blob] at a relocation site. *)
Definition read_pointer (blob : list byte) (site : Z) : Z :=
  decode_le (take 8 (drop (Z.to_nat site) blob)).

End Serializer.

Import Serializer.

(** ** Scene baker (BuildCommon/BakeScene.cpp) *)

Module Baker.

(** A [CArray]: its elements as the bytes [GetData] points to. *)
Record CArray : Type := mkCArray {
  elementSize : Z;
  bytes : list byte
}.

Definition DataSize (a : CArray) : Z := uint32_wrap (Z.of_nat (length (bytes a))).
Definition Length (a : CArray) : Z :=
  uint32_wrap (Z.of_nat (length (bytes a)) / elementSize a).
Definition GetData (a : CArray) : list byte := bytes a.

(** [SceneResource::kSceneDataAlignment]. *)
Definition kSceneDataAlignment : Z := 16.

(** Modelled from the spec: the header of [BuiltScene] is missing; the
    scene holds the header values (as their bytes) and the buffers the
    baker writes.  The array [indices] has one entry per mesh index
    type, so [eMeshIndexTypeCount] is its length. *)
Record BuiltScene : Type := mkBuiltScene {
  camera : list byte;
  aaBox : list byte;
  boundingSphere : list byte;
  textures : CArray;
  materials : CArray;
  meshes : CArray;
  indices : list CArray;
  faceIndexCounts : CArray;
  positions : CArray;
  normals : CArray;
  tangents : CArray;
  uvs : CArray;
  materialIndices : CArray
}.

Definition eMeshIndexTypeCount (sceneData : BuiltScene) : Z :=
  Z.of_nat (length (indices sceneData)).

Definition SerializeMaterials (writer : BinaryWriter) (sceneData : BuiltScene)
    : BinaryWriter :=
  let materialCount := Length (materials sceneData) in
  let textureCount := Length (textures sceneData) in
  let w := SerializerWrite writer (encode_le 4 textureCount) 4 in
  let w := SerializerWrite w (encode_le 4 materialCount) 4 in
  let w := SerializerWritePointerOffsetX64 w in
  let w := SerializerWritePointerData w (GetData (textures sceneData))
             (DataSize (textures sceneData)) in
  let w := SerializerWritePointerOffsetX64 w in
  SerializerWritePointerData w (GetData (materials sceneData))
    (DataSize (materials sceneData)).

(** [(dataSize + pw2alignment - 1) & ~(pw2alignment - 1)] on [uint32]. *)
Definition alignedSize (dataSize pw2alignment : Z) : Z :=
  Z.land (uint32_wrap (dataSize + pw2alignment - 1))
         (uint32_not (uint32_wrap (pw2alignment - 1))).

(** The padding loop: one zero byte for each [scan] from [dataSize] up to
    [alignedSize]. *)
Definition write_padding (writer : BinaryWriter) (count : nat) : BinaryWriter :=
  Nat.iter count (fun w => SerializerWritePointerData w [Byte.x00] 1) writer.

Definition SerializeBufferAligned (writer : BinaryWriter) (data : list byte)
    (dataSize pw2alignment : Z) : BinaryWriter :=
  let w := SerializerWritePointerOffsetX64 writer in
  let w := SerializerWritePointerData w data dataSize in
  write_padding w (Z.to_nat (alignedSize dataSize pw2alignment - dataSize)).

Definition SerializeArrayAligned (writer : BinaryWriter) (a : CArray) : BinaryWriter :=
  SerializeBufferAligned writer (GetData a) (DataSize a) kSceneDataAlignment.

Definition SerializeGeometry (writer : BinaryWriter) (sceneData : BuiltScene)
    : BinaryWriter :=
  let w := foldl SerializeArrayAligned writer (indices sceneData) in
  let w := SerializeArrayAligned w (faceIndexCounts sceneData) in
  let w := SerializeArrayAligned w (positions sceneData) in
  let w := SerializeArrayAligned w (normals sceneData) in
  let w := SerializeArrayAligned w (tangents sceneData) in
  let w := SerializeArrayAligned w (uvs sceneData) in
  SerializeArrayAligned w (materialIndices sceneData).

(** The writer of the geometry blob when [BakeSceneGeometryData] ends it. *)
Definition geometry_writer (sceneData : BuiltScene) : BinaryWriter :=
  let indexSize :=
    foldl (fun acc a => uint32_add acc (DataSize a)) 0 (indices sceneData) in
  let geometryDataSize :=
    uint32_wrap (indexSize + 1024
                 + DataSize (faceIndexCounts sceneData)
                 + DataSize (positions sceneData)
                 + DataSize (normals sceneData)
                 + DataSize (tangents sceneData)
                 + DataSize (uvs sceneData)
                 + DataSize (materialIndices sceneData)) in
  SerializeGeometry (SerializerStart 0 geometryDataSize) sceneData.

(** The writer of the meta blob when [BakeSceneMetaData] ends it. *)
Definition meta_writer (sceneData : BuiltScene) : BinaryWriter :=
  let presize :=
    uint32_add (DataSize (textures sceneData)) (DataSize (materials sceneData)) in
  let w := SerializerStart 0 presize in
  let w := SerializerWrite w (camera sceneData) (Z.of_nat (length (camera sceneData))) in
  let w := SerializerWrite w (aaBox sceneData) (Z.of_nat (length (aaBox sceneData))) in
  let w := SerializerWrite w (boundingSphere sceneData)
             (Z.of_nat (length (boundingSphere sceneData))) in
  let w := SerializeMaterials w sceneData in
  let meshCount := Length (meshes sceneData) in
  let vertexCount := Length (positions sceneData) in
  let indexCounts := flat_map (fun a => encode_le 4 (Length a)) (indices sceneData) in
  let w := SerializerWrite w (encode_le 4 meshCount) 4 in
  let w := SerializerWrite w (encode_le 4 vertexCount) 4 in
  SerializerWrite w indexCounts (Z.of_nat (length indexCounts)).

End Baker.

(** ** Files (IoLib/File) *)

Module File.

(** How a write to disk can go wrong. *)
Inductive IoFault : Type :=
| NoFault
| OpenFails
| WriteFailsAfter (written : nat)
| RenameFails.

(** The files on disk, and what the disk will do on the coming writes
    (one entry per write; none left means no fault). *)
Record World : Type := mkWorld {
  files : gmap string (list byte);
  faults : list IoFault
}.

Definition next_fault (w : World) : IoFault := default NoFault (head (faults w)).

Definition temp_path (path : string) : string := String.append path ".tmp".

Definition fs_store (path : string) (content : list byte) (w : World) : World :=
  mkWorld (<[path := content]> (files w)) (faults w).

Definition fs_remove (path : string) (w : World) : World :=
  mkWorld (delete path (files w)) (faults w).

Definition fs_rename (from to : string) (w : World) : World :=
  match files w !! from with
  | Some content => mkWorld (<[to := content]> (delete from (files w))) (faults w)
  | None => w
  end.

Definition consume_fault (w : World) : World :=
  mkWorld (files w) (tail (faults w)).

(** Modelled from the spec: IoLib/File is missing; [WriteWholeFile] writes
    the bytes to a temporary file next to the target and renames it over
    the target once it is complete; when a step fails the temporary file
    is removed and the failure is returned. *)
Definition WriteWholeFile (w : World) (path : string) (data : list byte)
    (size : Z) : Error * World :=
  let content := take (Z.to_nat size) data in
  let tmp := temp_path path in
  let w' := consume_fault w in
  match next_fault w with
  | OpenFails => (Error_ "Failed to open file", w')
  | WriteFailsAfter n =>
      (Error_ "Failed to write file",
       fs_remove tmp (fs_store tmp (take n content) w'))
  | RenameFails =>
      (Error_ "Failed to rename file", fs_remove tmp (fs_store tmp content w'))
  | NoFault => (Success_, fs_rename tmp path (fs_store tmp content w'))
  end.

End File.

Import File.

(** ** Build processor context (BuildCore/BuildContext.cpp) *)

Module Build.

Record ContentId : Type := mkContentId {
  cid_type : string;
  cid_name : string
}.

Record AssetId : Type := mkAssetId {
  aid_type : Z;
  aid_name : Z
}.

Record ProcessorOutput : Type := mkOutput {
  out_source : ContentId;
  out_id : AssetId;
  out_version : Z
}.

Record BuildProcessorContext : Type := mkBuildContext {
  source : ContentId;
  id : AssetId;
  outputs : list ProcessorOutput
}.

Definition add_output (context : BuildProcessorContext) (output : ProcessorOutput)
    : BuildProcessorContext :=
  mkBuildContext (source context) (id context) (outputs context ++ [output]).

Section Assets.

(** The asset helpers (Assets/AssetFileUtils, a missing header):
    the hash of a type and name, and the path of an asset file. *)
Variable MakeAssetId : string -> string -> AssetId.
Variable AssetFilePath : AssetId -> Z -> string.

Definition output_path (type : string) (version : Z) (name : string) : string :=
  AssetFilePath (MakeAssetId type name) version.

Definition CreateOutput (world : World) (context : BuildProcessorContext)
    (type : string) (version : Z) (name : string) (data : list byte)
    (dataSize : Z) : Error * World * BuildProcessorContext :=
  let output := mkOutput (mkContentId type name) (MakeAssetId type name) version in
  let filepath := AssetFilePath (out_id output) version in
  match WriteWholeFile world filepath data (uint32_wrap dataSize) with
  | (Error_ message, world') => (Error_ message, world', context)
  | (Success_, world') => (Success_, world', add_output context output)
  end.

(** [SceneResource::kDataType], [kGeometryDataType] and [kDataVersion]
    (declared in a missing header). *)
Variable kDataType : string.
Variable kGeometryDataType : string.
Variable kDataVersion : Z.

Definition BakeSceneMetaData (world : World) (context : BuildProcessorContext)
    (sceneData : Baker.BuiltScene) : Error * World * BuildProcessorContext :=
  match SerializerEnd (Baker.meta_writer sceneData) with
  | (Error_ message, _) => (Error_ message, world, context)
  | (Success_, assetData) =>
      let assetSize := uint32_wrap (Z.of_nat (length assetData)) in
      CreateOutput world context kDataType kDataVersion
        (cid_name (source context)) assetData assetSize
  end.

Definition BakeSceneGeometryData (world : World) (context : BuildProcessorContext)
    (sceneData : Baker.BuiltScene) : Error * World * BuildProcessorContext :=
  match SerializerEnd (Baker.geometry_writer sceneData) with
  | (Error_ message, _) => (Error_ message, world, context)
  | (Success_, assetData) =>
      let assetSize := uint32_wrap (Z.of_nat (length assetData)) in
      CreateOutput world context kGeometryDataType kDataVersion
        (cid_name (source context)) assetData assetSize
  end.

Definition BakeScene (world : World) (context : BuildProcessorContext)
    (sceneData : Baker.BuiltScene) : Error * World * BuildProcessorContext :=
  match BakeSceneMetaData world context sceneData with
  | (Error_ message, world', context') => (Error_ message, world', context')
  | (Success_, world', context') => BakeSceneGeometryData world' context' sceneData
  end.

End Assets.

End Build.

(** ** Model resource (SceneLib/ModelResource.cpp) *)

Module Model.

(** [#define EnableDisplacement_ 0] and [#define TessellationRate_ 64.0f]. *)
Definition EnableDisplacement_ : Z := 0.
Definition TessellationRate_ : float := of_Z 64.

(** [ModelResource::kGeometryDataAlignment]. *)
Definition kGeometryDataAlignment : Z := 16.

(** [(uint)-1], with [uint] the engine's pointer-sized unsigned integer. *)
Definition uint_minus_one : Z := 2 ^ 64 - 1.

(** [RTC_INVALID_GEOMETRY_ID] of the traversal backend. *)
Definition RTC_INVALID_GEOMETRY_ID : Z := 2 ^ 32 - 1.

Inductive ShaderType : Type :=
| eDisneyThin
| eDisneySolid
| eTransparentGgx.

Inductive ScalarAttribute : Type :=
| eRoughness | eMetallic | eSpecularTint | eAnisotropic | eSheen | eSheenTint
| eClearcoat | eClearcoatGloss | eIor | eTransmission | eSpecular | eFlatness.

#[global] Instance ScalarAttribute_eq_dec : EqDecision ScalarAttribute.
Proof. solve_decision. Defined.

(** Modelled from the spec: the material header is missing; a material
    has a base colour, a shader tag, a table of scalar attributes indexed
    by the attribute enumeration, flag bits and texture handles. *)
Record Material : Type := mkMaterial {
  baseColor : float3;
  shader : ShaderType;
  scalarAttributeValues : ScalarAttribute -> float;
  flags : Z;
  textureSlots : list Z
}.

Definition set_scalar (table : ScalarAttribute -> float) (a : ScalarAttribute)
    (v : float) : ScalarAttribute -> float :=
  fun b => if decide (b = a) then v else table b.

Record MeshMetaData : Type := mkMeshMeta {
  indexCount : Z;
  indexOffset : Z;
  vertexCount : Z;
  vertexOffset : Z;
  materialHash : Z;
  indicesPerFace : Z;
  meshNameHash : Z
}.

Record ModelResourceData : Type := mkModelData {
  totalVertexCount : Z;
  totalCurveVertexCount : Z;
  textureResourceNames : list string;
  materials : list Material;
  materialHashes : list Z;
  meshes : list MeshMetaData
}.

(** The geometry blob after attach: buffer sizes and the addresses the
    embedded pointers were turned into. *)
Record ModelGeometryData : Type := mkGeometryData {
  indexSize : Z;
  faceIndexSize : Z;
  positionSize : Z;
  normalsSize : Z;
  tangentsSize : Z;
  uvsSize : Z;
  indices : Z;
  faceIndexCounts : Z;
  positions : Z;
  normals : Z;
  tangents : Z;
  uvs : Z
}.

(** A [const Material*]: the model's default material or an entry of the
    material array. *)
Inductive MaterialRef : Type :=
| DefaultMaterialRef
| MaterialAt (index : Z).

Inductive Transform : Type := MatrixIdentity.
Inductive Bounds : Type := InvalidBox.

Record GeometryUserData : Type := mkUserData {
  ud_flags : Z;
  ud_material : MaterialRef;
  ud_instanceID : Z;
  ud_rtcScene : Z;
  ud_rtcGeometry : Z;
  ud_worldToLocal : Transform;
  ud_aaBox : Bounds
}.

(** *** The traversal backend, as the calls made to it *)

Inductive RTCGeometryType : Type :=
| RTC_GEOMETRY_TYPE_TRIANGLE
| RTC_GEOMETRY_TYPE_QUAD
| RTC_GEOMETRY_TYPE_SUBDIVISION
| RTC_GEOMETRY_TYPE_ROUND_BSPLINE_CURVE.

Inductive RTCBufferType : Type :=
| RTC_BUFFER_TYPE_INDEX
| RTC_BUFFER_TYPE_VERTEX
| RTC_BUFFER_TYPE_VERTEX_ATTRIBUTE
| RTC_BUFFER_TYPE_FACE.

Inductive RTCFormat : Type :=
| RTC_FORMAT_UINT | RTC_FORMAT_UINT3 | RTC_FORMAT_UINT4
| RTC_FORMAT_FLOAT2 | RTC_FORMAT_FLOAT3 | RTC_FORMAT_FLOAT4.

Inductive RTCSubdivisionMode : Type := RTC_SUBDIVISION_MODE_PIN_BOUNDARY.

(** The two callbacks of this file. *)
Inductive Callback : Type := IntersectionFilter | DisplacementFunction.

Inductive RtcCall : Type :=
| rtcNewGeometry (device : Z) (type : RTCGeometryType) (result : Z)
| rtcSetSharedGeometryBuffer (geom : Z) (type : RTCBufferType) (slot : Z)
    (format : RTCFormat) (ptr byteOffset byteStride itemCount : Z)
| rtcSetGeometryVertexAttributeCount (geom : Z) (count : Z)
| rtcSetGeometryDisplacementFunction (geom : Z) (f : Callback)
| rtcSetGeometryTessellationRate (geom : Z) (rate : float)
| rtcSetGeometrySubdivisionMode (geom : Z) (topology : Z) (mode : RTCSubdivisionMode)
| rtcSetGeometryIntersectFilterFunction (geom : Z) (f : Callback)
| rtcSetGeometryUserData (geom : Z) (userData : Z)
| rtcCommitGeometry (geom : Z)
| rtcAttachGeometryByID (scene geom geomID : Z)
| rtcReleaseGeometry (geom : Z).

(** The backend hands out geometry handles in turn and sees the calls in
    program order. *)
Record Embree : Type := mkEmbree {
  nextGeometry : Z;
  calls : list RtcCall
}.

Definition call (e : Embree) (c : RtcCall) : Embree :=
  mkEmbree (nextGeometry e) (calls e ++ [c]).

Definition newGeometry (e : Embree) (device : Z) (type : RTCGeometryType)
    : Z * Embree :=
  (nextGeometry e,
   mkEmbree (nextGeometry e + 1)
     (calls e ++ [rtcNewGeometry device type (nextGeometry e)])).

(** Modelled from the spec: TextureLib is missing; a texture resource is
    taken as the bytes loaded for it.  A slot of a texture array is [None]
    as [AllocArray_] leaves it. *)
Record TextureResource : Type := mkTextureResource {
  texture_bytes : list byte
}.

(** [textures] is [None] for the null pointer and holds the slots of the
    array otherwise. *)
Record ModelResource : Type := mkModel {
  data : ModelResourceData;
  geometry : ModelGeometryData;
  textures : option (list (option TextureResource));
  defaultMaterial : option Material;
  rtcGeometries : list Z;
  userDatas : list GeometryUserData
}.

Definition add_geometry (model : ModelResource) (geom : Z) (ud : GeometryUserData)
    : ModelResource :=
  mkModel (data model) (geometry model) (textures model) (defaultMaterial model)
    (rtcGeometries model ++ [geom]) (userDatas model ++ [ud]).

Definition set_textures (model : ModelResource)
    (slots : option (list (option TextureResource))) : ModelResource :=
  mkModel (data model) (geometry model) slots (defaultMaterial model)
    (rtcGeometries model) (userDatas model).

Definition set_defaultMaterial (model : ModelResource) (m : option Material)
    : ModelResource :=
  mkModel (data model) (geometry model) (textures model) m (rtcGeometries model)
    (userDatas model).

(** Modelled from the spec: UtilityLib/BinarySearch.h is missing; the
    lookup is a binary search over the first [count] entries of an array
    sorted by hash, giving the index of a match and [(uint)-1] when there
    is none. *)
Fixpoint BinarySearch_loop (fuel : nat) (data : list Z) (low high value : Z) : Z :=
  match fuel with
  | O => uint_minus_one
  | S fuel' =>
      if high <? low then uint_minus_one
      else
        let mid := (low + high) / 2 in
        match data !! Z.to_nat mid with
        | None => uint_minus_one
        | Some x =>
            if x <? value then BinarySearch_loop fuel' data (mid + 1) high value
            else if value <? x then BinarySearch_loop fuel' data low (mid - 1) value
            else mid
        end
  end.

Definition BinarySearch (data : list Z) (count : Z) (value : Z) : Z :=
  BinarySearch_loop (Z.to_nat count) data 0 (count - 1) value.

Section Resource.

(** [New_(Material)]: the material as its constructor leaves it. *)
Variable Material_new : Material.

(** Flag bits of [MaterialFlags] and [EmbreeGeometryFlags] (declared in
    missing headers). *)
Variable eDisplacementEnabled : Z.
Variable eAlphaTested : Z.
Variable HasNormals : Z.
Variable HasTangents : Z.
Variable HasUvs : Z.

Definition CreateDefaultMaterial : Material :=
  mkMaterial (mkFloat3 (fdiv (of_Z 6) (of_Z 10)) (fdiv (of_Z 6) (of_Z 10))
                       (fdiv (of_Z 6) (of_Z 10)))
             eDisneySolid
             (set_scalar (scalarAttributeValues Material_new) eIor
                (fdiv (of_Z 3) (of_Z 2)))
             (flags Material_new)
             (textureSlots Material_new).

Definition FindMeshMaterial (model : ModelResource) (materialHash : Z)
    : MaterialRef :=
  let materialCount := Z.of_nat (length (materials (data model))) in
  if materialCount =? 0 then DefaultMaterialRef
  else
    let materialIndex :=
      BinarySearch (materialHashes (data model)) materialCount materialHash in
    if materialIndex =? uint_minus_one then DefaultMaterialRef
    else MaterialAt materialIndex.

(** Reading through a [const Material*]. *)
Definition deref (model : ModelResource) (r : MaterialRef) : Outcome Material :=
  match r with
  | DefaultMaterialRef =>
      match defaultMaterial model with
      | Some m => Done m
      | None => Crash NullDereference
      end
  | MaterialAt i => array_load (materials (data model)) i
  end.

(** Texture reading (TextureLib, a missing header): the error of reading
    the named texture, and what the read leaves in the slot it is handed. *)
Variable ReadTextureResource : string -> Error * option TextureResource.

(** The loop over the texture names, from slot [scan] on: every read
    writes to its slot, the one that fails too, and the first failure
    ends the loop. *)
Fixpoint read_textures (names : list string) (scan : nat)
    (slots : list (option TextureResource))
    : Error * list (option TextureResource) :=
  match names with
  | [] => (Success_, slots)
  | name :: rest =>
      let '(error, slot) := ReadTextureResource name in
      let slots := <[scan := slot]> slots in
      match error with
      | Error_ message => (Error_ message, slots)
      | Success_ => read_textures rest (S scan) slots
      end
  end.

Definition InitializeModelResource (model : ModelResource)
    : Error * ModelResource :=
  let names := textureResourceNames (data model) in
  let textureCount := length names in
  match read_textures names 0 (replicate textureCount None) with
  | (Error_ message, slots) => (Error_ message, set_textures model (Some slots))
  | (Success_, slots) =>
      (Success_,
       set_defaultMaterial (set_textures model (Some slots)) (Some CreateDefaultMaterial))
  end.

Definition aligned (address : Z) : bool :=
  Z.land address (kGeometryDataAlignment - 1) =? 0.

Definition SetMeshVertexAttributes (asserts : bool) (e : Embree) (geom : Z)
    (model : ModelResource) : Outcome Embree :=
  let resourceData := data model in
  let geometry := geometry model in
  _ ← Assert_ asserts (aligned (positions geometry));
  _ ← Assert_ asserts (aligned (normals geometry));
  _ ← Assert_ asserts (aligned (tangents geometry));
  _ ← Assert_ asserts (aligned (uvs geometry));
  let e := call e (rtcSetSharedGeometryBuffer geom RTC_BUFFER_TYPE_VERTEX 0
                     RTC_FORMAT_FLOAT3 (positions geometry) 0 12
                     (totalVertexCount resourceData)) in
  let hasNormals := 0 <? normalsSize geometry in
  let hasTangents := 0 <? tangentsSize geometry in
  let hasUVs := 0 <? uvsSize geometry in
  let attributeCount :=
    uint32_wrap ((if hasNormals then 1 else 0) + (if hasUVs then 1 else 0)
                 + (if hasTangents then 1 else 0)) in
  if 0 <? attributeCount then
    let e := call e (rtcSetGeometryVertexAttributeCount geom attributeCount) in
    let e :=
      if hasNormals
      then call e (rtcSetSharedGeometryBuffer geom RTC_BUFFER_TYPE_VERTEX_ATTRIBUTE 0
                     RTC_FORMAT_FLOAT3 (normals geometry) 0 12
                     (totalVertexCount resourceData))
      else e in
    e ← (if hasTangents
         then _ ← Assert_ asserts hasNormals;
              mret (call e (rtcSetSharedGeometryBuffer geom
                              RTC_BUFFER_TYPE_VERTEX_ATTRIBUTE 1 RTC_FORMAT_FLOAT4
                              (tangents geometry) 0 16
                              (totalVertexCount resourceData)))
         else mret e);
    (if hasUVs
     then _ ← Assert_ asserts (hasNormals && hasTangents);
          mret (call e (rtcSetSharedGeometryBuffer geom
                          RTC_BUFFER_TYPE_VERTEX_ATTRIBUTE 2 RTC_FORMAT_FLOAT2
                          (uvs geometry) 0 8
                          (totalVertexCount resourceData)))
     else mret e)
  else mret e.

(** Unsigned division; by zero it is undefined behaviour. *)
Definition udiv (a b : Z) : Outcome Z :=
  if b =? 0 then Crash DivideByZero else Done (a / b).

(** The material's displacement flag together with the build-time gate. *)
Definition hasDisplacement (gate : Z) (material : Material) : bool :=
  negb (Z.land (flags material) eDisplacementEnabled =? 0) && negb (gate =? 0).

(** One turn of the loop of [InitializeMeshes]; [gate] is the value of
    [EnableDisplacement_] the file is built with. *)
Definition register_mesh (asserts : bool) (gate : Z) (offset rtcDevice rtcScene : Z)
    (st : ModelResource * Embree) (scan : Z) (meshData : MeshMetaData)
    : Outcome (ModelResource * Embree) :=
  let '(model, e) := st in
  let geometry := geometry model in
  let materialRef := FindMeshMaterial model (materialHash meshData) in
  material ← deref model materialRef;
  let hasDisplacement := hasDisplacement gate material in
  let hasAlphaTesting := negb (Z.land (flags material) eAlphaTested =? 0) in
  let indicesPerFace := indicesPerFace meshData in
  let indexByteOffset := uint32_wrap (indexOffset meshData * 4) in
  '(rtcGeometry, e) ←
    (if hasDisplacement then
       let '(rtcGeometry, e) := newGeometry e rtcDevice RTC_GEOMETRY_TYPE_SUBDIVISION in
       e ← SetMeshVertexAttributes asserts e rtcGeometry model;
       let e := call e (rtcSetSharedGeometryBuffer rtcGeometry RTC_BUFFER_TYPE_INDEX 0
                          RTC_FORMAT_UINT (indices geometry) indexByteOffset 4
                          (indexCount meshData)) in
       faces ← udiv (indexCount meshData) indicesPerFace;
       let e := call e (rtcSetSharedGeometryBuffer rtcGeometry RTC_BUFFER_TYPE_FACE 0
                          RTC_FORMAT_UINT (faceIndexCounts geometry) 0 4 faces) in
       let e := call e (rtcSetGeometryDisplacementFunction rtcGeometry
                          DisplacementFunction) in
       let e := call e (rtcSetGeometryTessellationRate rtcGeometry TessellationRate_) in
       let e := call e (rtcSetGeometrySubdivisionMode rtcGeometry 0
                          RTC_SUBDIVISION_MODE_PIN_BOUNDARY) in
       mret (rtcGeometry, e)
     else
       let type := if indicesPerFace =? 3 then RTC_GEOMETRY_TYPE_TRIANGLE
                   else RTC_GEOMETRY_TYPE_QUAD in
       let format := if indicesPerFace =? 3 then RTC_FORMAT_UINT3
                     else RTC_FORMAT_UINT4 in
       let '(rtcGeometry, e) := newGeometry e rtcDevice type in
       e ← SetMeshVertexAttributes asserts e rtcGeometry model;
       faces ← udiv (indexCount meshData) indicesPerFace;
       let e := call e (rtcSetSharedGeometryBuffer rtcGeometry RTC_BUFFER_TYPE_INDEX 0
                          format (indices geometry) indexByteOffset
                          (indicesPerFace * 4) faces) in
       mret (rtcGeometry, e));
  let e := if hasAlphaTesting
           then call e (rtcSetGeometryIntersectFilterFunction rtcGeometry
                          IntersectionFilter)
           else e in
  let userData :=
    mkUserData
      (Z.lor (Z.lor (if 0 <? normalsSize geometry then HasNormals else 0)
                    (if 0 <? tangentsSize geometry then HasTangents else 0))
             (if 0 <? uvsSize geometry then HasUvs else 0))
      materialRef RTC_INVALID_GEOMETRY_ID rtcScene rtcGeometry
      MatrixIdentity InvalidBox in
  let userDataIndex := Z.of_nat (length (userDatas model)) in
  let model := add_geometry model rtcGeometry userData in
  let e := call e (rtcSetGeometryUserData rtcGeometry userDataIndex) in
  let e := call e (rtcCommitGeometry rtcGeometry) in
  let e := call e (rtcAttachGeometryByID rtcScene rtcGeometry (uint32_add offset scan)) in
  let e := call e (rtcReleaseGeometry rtcGeometry) in
  mret (model, e).

(** The loop [for scan = 0 .. count) ] over the meshes still to do. *)
Fixpoint register_meshes (asserts : bool) (gate : Z) (offset rtcDevice rtcScene : Z)
    (st : ModelResource * Embree) (scan : Z) (todo : list MeshMetaData)
    : Outcome (ModelResource * Embree) :=
  match todo with
  | [] => mret st
  | meshData :: rest =>
      st ← register_mesh asserts gate offset rtcDevice rtcScene st scan meshData;
      register_meshes asserts gate offset rtcDevice rtcScene st (scan + 1) rest
  end.

Definition InitializeMeshes (asserts : bool) (gate : Z) (model : ModelResource)
    (e : Embree) (offset rtcDevice rtcScene : Z)
    : Outcome (Z * ModelResource * Embree) :=
  let geometry := geometry model in
  _ ← Assert_ asserts (aligned (indices geometry));
  _ ← Assert_ asserts (aligned (faceIndexCounts geometry));
  let count := uint32_wrap (Z.of_nat (length (meshes (data model)))) in
  '(model', e') ← register_meshes asserts gate offset rtcDevice rtcScene (model, e) 0
                    (take (Z.to_nat count) (meshes (data model)));
  mret (uint32_add offset (uint32_wrap (Z.of_nat (length (meshes (data model))))),
        model', e').

End Resource.

End Model.

(** ** Dependencies of a build (BuildCore/BuildContext.cpp) *)

Module BuildDependencies.

Import Build.

Record ContentDependency : Type := mkContentDependency {
  dep_path : string;
  dep_timestamp : Z
}.

Record ProcessDependency : Type := mkProcessDependency {
  dep_source : ContentId;
  dep_id : AssetId
}.

(** The two dependency arrays of the processor context, beside the members
    held in [BuildProcessorContext]. *)
Record Dependencies : Type := mkDependencies {
  contentDependencies : list ContentDependency;
  processDependencies : list ProcessDependency
}.

Section Dependencies.

(** [AssetFileUtils::SanitizeContentPath], [FileTime] (the modification
    time of a file, none when the file is not found) and the asset hash,
    all from missing headers. *)
Variable SanitizeContentPath : string -> string.
Variable FileTime : string -> option Z.
Variable MakeAssetId : string -> string -> AssetId.

Definition AddFileDependency (deps : Dependencies) (file : string)
    : Error * Dependencies :=
  let path := SanitizeContentPath file in
  match FileTime file with
  | None => (Error_ (String.append "Failed to find file: " file), deps)
  | Some timestamp =>
      (Success_,
       mkDependencies (contentDependencies deps ++ [mkContentDependency path timestamp])
                      (processDependencies deps))
  end.

(** The overload taking a [ContentId]. *)
Definition AddProcessDependency (deps : Dependencies) (source : ContentId)
    : Error * Dependencies :=
  let dep := mkProcessDependency source
               (MakeAssetId (cid_type source) (cid_name source)) in
  (Success_,
   mkDependencies (contentDependencies deps) (processDependencies deps ++ [dep])).

(** The overload taking a type and a name. *)
Definition AddProcessDependency_name (deps : Dependencies) (type name : string)
    : Error * Dependencies :=
  AddProcessDependency deps (mkContentId type name).

Definition Initialize (asserts : bool) (context : BuildProcessorContext)
    (deps : Dependencies) (source_ : ContentId) (id_ : AssetId)
    : Outcome BuildProcessorContext :=
  let context := mkBuildContext source_ id_ (outputs context) in
  _ ← Assert_ asserts (Z.of_nat (length (contentDependencies deps)) =? 0);
  _ ← Assert_ asserts (Z.of_nat (length (processDependencies deps)) =? 0);
  _ ← Assert_ asserts (Z.of_nat (length (outputs context)) =? 0);
  mret context.

End Dependencies.

End BuildDependencies.

(** ** Curves and the traversal scene (SceneLib/ModelResource.cpp) *)

Module Curves.

Import Model.

Record CurveMetaData : Type := mkCurveMeta {
  curve_indexOffset : Z;
  curve_indexCount : Z;
  curve_nameHash : Z
}.

(** The curve members of [ModelResourceData] and [ModelGeometryData]: the
    curve array, the sizes and the addresses of the two curve buffers. *)
Record CurveData : Type := mkCurveData {
  curves : list CurveMetaData;
  curveIndexSize : Z;
  curveVertexSize : Z;
  curveIndices : Z;
  curveVertices : Z
}.

(** The calls of the set-up of a scene, in program order: the calls on
    geometries and the one call made on the scene itself. *)
Inductive SceneCall : Type :=
| geometryCall (c : RtcCall)
| rtcCommitScene (scene : Z).

(** The backend with the scene: the next geometry handle, and every call
    it has seen so far. *)
Record SceneBackend : Type := mkSceneBackend {
  scene_nextGeometry : Z;
  scene_calls : list SceneCall
}.

(** A call on the scene, made after the geometry calls seen so far. *)
Definition scene_call (e : Embree) (c : SceneCall) : SceneBackend :=
  mkSceneBackend (nextGeometry e) ((geometryCall <$> calls e) ++ [c]).

Section Scene.

Variable eDisplacementEnabled : Z.
Variable eAlphaTested : Z.
Variable HasNormals : Z.
Variable HasTangents : Z.
Variable HasUvs : Z.

(** One turn of the loop of [InitializeCurves]. *)
Definition register_curve (curveData : CurveData) (offset rtcDevice rtcScene : Z)
    (st : ModelResource * Embree) (scan : Z) (curve : CurveMetaData)
    : Outcome (ModelResource * Embree) :=
  let '(model, e) := st in
  let geometry := geometry model in
  let materialRef := FindMeshMaterial model (curve_nameHash curve) in
  let indexByteOffset := uint32_wrap (curve_indexOffset curve * 4) in
  let '(rtcGeometry, e) :=
    newGeometry e rtcDevice RTC_GEOMETRY_TYPE_ROUND_BSPLINE_CURVE in
  let e := call e (rtcSetSharedGeometryBuffer rtcGeometry RTC_BUFFER_TYPE_INDEX 0
                     RTC_FORMAT_UINT (curveIndices curveData) indexByteOffset 4
                     (curve_indexCount curve)) in
  let e := call e (rtcSetSharedGeometryBuffer rtcGeometry RTC_BUFFER_TYPE_VERTEX 0
                     RTC_FORMAT_FLOAT4 (curveVertices curveData) 0 16
                     (totalCurveVertexCount (data model))) in
  let userData :=
    mkUserData
      (Z.lor (Z.lor (if 0 <? normalsSize geometry then HasNormals else 0)
                    (if 0 <? tangentsSize geometry then HasTangents else 0))
             (if 0 <? uvsSize geometry then HasUvs else 0))
      materialRef RTC_INVALID_GEOMETRY_ID rtcScene rtcGeometry
      MatrixIdentity InvalidBox in
  let userDataIndex := Z.of_nat (length (userDatas model)) in
  let model := add_geometry model rtcGeometry userData in
  let e := call e (rtcSetGeometryUserData rtcGeometry userDataIndex) in
  let e := call e (rtcCommitGeometry rtcGeometry) in
  let e := call e (rtcAttachGeometryByID rtcScene rtcGeometry (uint32_add offset scan)) in
  let e := call e (rtcReleaseGeometry rtcGeometry) in
  mret (model, e).

Fixpoint register_curves (curveData : CurveData) (offset rtcDevice rtcScene : Z)
    (st : ModelResource * Embree) (scan : Z) (todo : list CurveMetaData)
    : Outcome (ModelResource * Embree) :=
  match todo with
  | [] => mret st
  | curve :: rest =>
      st ← register_curve curveData offset rtcDevice rtcScene st scan curve;
      register_curves curveData offset rtcDevice rtcScene st (scan + 1) rest
  end.

Definition InitializeCurves (asserts : bool) (model : ModelResource)
    (curveData : CurveData) (e : Embree) (offset rtcDevice rtcScene : Z)
    : Outcome (Z * ModelResource * Embree) :=
  _ ← Assert_ asserts (aligned (curveIndices curveData));
  _ ← Assert_ asserts (aligned (curveVertices curveData));
  let count := uint32_wrap (Z.of_nat (length (curves curveData))) in
  '(model', e') ← register_curves curveData offset rtcDevice rtcScene (model, e) 0
                    (take (Z.to_nat count) (curves curveData));
  mret (uint32_add offset (uint32_wrap (Z.of_nat (length (curves curveData)))),
        model', e').

(** [gate] is the value of [EnableDisplacement_] the file is built with;
    the two [Reserve] calls leave the arrays' contents as they are. *)
Definition PopulateEmbreeScene (asserts : bool) (gate : Z) (model : ModelResource)
    (curveData : CurveData) (e : Embree) (rtcDevice rtcScene : Z)
    : Outcome (ModelResource * SceneBackend) :=
  let offset := 0 in
  '(offset, model, e) ←
    InitializeMeshes eDisplacementEnabled eAlphaTested HasNormals HasTangents HasUvs
      asserts gate model e offset rtcDevice rtcScene;
  '(offset, model, e) ←
    InitializeCurves asserts model curveData e offset rtcDevice rtcScene;
  mret (model, scene_call e (rtcCommitScene rtcScene)).

End Scene.

End Curves.

(** ** The intersection filter (SceneLib/ModelResource.cpp) *)

Module Filter.

Import Model.

(** A hit of one lane, as [rtcGetHitFromHitN] hands it out. *)
Record RTCHit : Type := mkRTCHit {
  geomID : Z;
  primID : Z;
  hit_u : float;
  hit_v : float
}.

Section AlphaTest.

(** [CalculatePassesAlphaTest] (Shading/SurfaceParameters.h, missing): the
    value it gives, as stored in the [int] of the lane. *)
Variable CalculatePassesAlphaTest : GeometryUserData -> Z -> Z -> float * float -> Z.

(** The body of the loop for lane [scan]. *)
Definition filter_lane (geomData : GeometryUserData) (hits : list RTCHit)
    (valid : list Z) (scan : Z) : Outcome (list Z) :=
  v ← array_load valid scan;
  if negb (v =? -1) then mret valid
  else
    hit ← array_load hits scan;
    array_store valid scan
      (CalculatePassesAlphaTest geomData (geomID hit) (primID hit) (hit_u hit, hit_v hit)).

(** The lanes [scan, scan + todo). *)
Fixpoint filter_lanes (geomData : GeometryUserData) (hits : list RTCHit)
    (valid : list Z) (scan : Z) (todo : nat) : Outcome (list Z) :=
  match todo with
  | O => mret valid
  | S todo' =>
      valid ← filter_lane geomData hits valid scan;
      filter_lanes geomData hits valid (scan + 1) todo'
  end.

(** [args->valid], [args->geometryUserPtr], [args->N] and [args->hit]. *)
Definition IntersectionFilter (valid : list Z) (geomData : GeometryUserData)
    (N : Z) (hits : list RTCHit) : Outcome (list Z) :=
  filter_lanes geomData hits valid 0 (Z.to_nat N).

End AlphaTest.

End Filter.

(** * Properties *)

Import Kernel.

(** ** Machine arithmetic and arrays *)

Lemma uint32_wrap_small z : is_uint32 z -> uint32_wrap z = z.
Proof. unfold is_uint32, uint32_wrap. intros H. by apply Z.mod_small. Qed.

Lemma uint32_wrap_range z : is_uint32 (uint32_wrap z).
Proof. unfold is_uint32, uint32_wrap, uint32_modulus. apply Z.mod_pos_bound. lia. Qed.

Lemma uint32_add_succ z :
  0 <= z -> z + 1 < uint32_modulus -> uint32_add z 1 = z + 1.
Proof. intros H1 H2. unfold uint32_add. apply uint32_wrap_small. split; lia. Qed.

Lemma Assert_true_inv (c : bool) : Assert_ true c = Done tt -> c = true.
Proof. unfold Assert_. destruct c; simpl; [done | discriminate]. Qed.

Lemma Assert_holds asserts : Assert_ asserts true = Done tt.
Proof. unfold Assert_. by rewrite andb_false_r. Qed.

Lemma array_store_Done {A} (a : list A) i x a' :
  array_store a i x = Done a' ->
  0 <= i < Z.of_nat (length a) /\ a' = <[Z.to_nat i := x]> a.
Proof.
  unfold array_store. destruct (0 <=? i) eqn:E1; simpl; [| discriminate].
  destruct (i <? Z.of_nat (length a)) eqn:E2; [| discriminate].
  intros [= <-]. split; [lia | done].
Qed.

Lemma array_store_in_range {A} (a : list A) i x :
  0 <= i < Z.of_nat (length a) -> array_store a i x = Done (<[Z.to_nat i := x]> a).
Proof.
  intros [H1 H2]. unfold array_store.
  destruct (Z.leb_spec 0 i); [| lia].
  destruct (Z.ltb_spec i (Z.of_nat (length a))); [| lia]. done.
Qed.

Lemma array_load_in_range {A} (a : list A) i x :
  0 <= i -> a !! Z.to_nat i = Some x -> array_load a i = Done x.
Proof.
  intros H1 H2. unfold array_load. destruct (Z.leb_spec 0 i); [| lia]. by rewrite H2.
Qed.

Lemma array_load_Done {A} (a : list A) i x :
  array_load a i = Done x -> 0 <= i /\ a !! Z.to_nat i = Some x.
Proof.
  unfold array_load. destruct (Z.leb_spec 0 i); [| discriminate].
  destruct (a !! Z.to_nat i); [| discriminate]. intros [= ->]. done.
Qed.

(** ** Floats: a sum with a non-finite term is not finite *)

Lemma fadd_finite_r a b : is_finite (fadd a b) = true -> is_finite b = true.
Proof.
  destruct a as [sa|sa| |sa ma ea], b as [sb|sb| |sb mb eb]; simpl; try done.
  unfold fadd; simpl. by destruct sa, sb.
Qed.

Lemma float3_add_finite_r a b :
  float3_is_finite (float3_add a b) = true -> float3_is_finite b = true.
Proof.
  unfold float3_is_finite, float3_add; simpl.
  rewrite !andb_true_iff. intros [[Hx Hy] Hz].
  repeat split; eapply fadd_finite_r; eassumption.
Qed.

(** ** InsertRay *)

(** No ray on the stack has used up the path length. *)
Definition bounded_stack (context : KernelContext) : Prop :=
  Forall (fun r => bounceCount r <> maxPathLength context) (stacked_rays context).

Lemma InsertRay_pushing asserts context ray context' :
  bounceCount ray <> maxPathLength context ->
  InsertRay asserts context ray = Done context' ->
  0 <= rayStackCount context < Z.of_nat (length (rayStack context)) /\
  context' = set_rayStack context
               (<[Z.to_nat (rayStackCount context) := ray]> (rayStack context))
               (uint32_add (rayStackCount context) 1).
Proof.
  intros Hne. unfold InsertRay.
  destruct (Z.eqb_spec (bounceCount ray) (maxPathLength context)); [done |].
  destruct (Assert_ asserts _); simpl; [| discriminate].
  destruct (array_store _ _ _) as [stack|] eqn:Hst; simpl; [| discriminate].
  intros [= <-]. apply array_store_Done in Hst as [Hrange ->]. done.
Qed.

Lemma stacked_rays_push context ray :
  0 <= rayStackCount context < Z.of_nat (length (rayStack context)) ->
  rayStackCount context + 1 < uint32_modulus ->
  stacked_rays (set_rayStack context
                  (<[Z.to_nat (rayStackCount context) := ray]> (rayStack context))
                  (uint32_add (rayStackCount context) 1))
  = stacked_rays context ++ [ray].
Proof.
  intros Hrange Hfit. unfold stacked_rays; simpl.
  rewrite uint32_add_succ by lia.
  replace (Z.to_nat (rayStackCount context + 1))
    with (S (Z.to_nat (rayStackCount context))) by lia.
  assert (Hlt : (Z.to_nat (rayStackCount context) < length (rayStack context))%nat) by lia.
  destruct (lookup_lt_is_Some_2 _ _ Hlt) as [old Hold].
  erewrite take_S_r by (rewrite list_lookup_insert_eq; [done | lia]).
  by rewrite take_insert_ge by lia.
Qed.

(** C1: [InsertRay] with [ray.bounceCount == maxPathLength] returns with the
    context as it was (stack contents and [rayStackCount] unchanged), and a
    stack free of rays at the bound stays so under any [InsertRay]: a ray
    whose bounce count equals the bound never appears on the stack. *)
Theorem InsertRay_path_length_bound (asserts : bool) (context : KernelContext) (ray : Ray) :
  (bounceCount ray = maxPathLength context ->
   InsertRay asserts context ray = Done context) /\
  (forall context',
     bounded_stack context ->
     InsertRay asserts context ray = Done context' ->
     bounded_stack context').
Proof.
  split.
  - intros Heq. unfold InsertRay. by rewrite Heq, Z.eqb_refl.
  - intros context' Hinv Hrun.
    destruct (Z.eq_dec (bounceCount ray) (maxPathLength context)) as [Heq | Hne].
    + unfold InsertRay in Hrun. rewrite Heq, Z.eqb_refl in Hrun.
      by injection Hrun as <-.
    + apply InsertRay_pushing in Hrun as [Hrange ->]; [| done].
      unfold bounded_stack.
      destruct (Z_lt_dec (rayStackCount context + 1) uint32_modulus) as [Hfit | Hwrap].
      * rewrite stacked_rays_push by done. apply Forall_app. split; [done |].
        by apply Forall_singleton.
      * (* the counter wraps: the stack shrinks to a prefix of the old one *)
        unfold stacked_rays; simpl.
        set (n := rayStackCount context) in *.
        assert (Hsmall : 0 <= uint32_add n 1 <= n).
        { unfold uint32_add, uint32_wrap.
          pose proof (Z.mod_pos_bound (n + 1) uint32_modulus ltac:(done)) as Hb.
          pose proof (Z.mod_le (n + 1) uint32_modulus ltac:(lia) ltac:(done)) as Hle.
          pose proof (Z.div_mod (n + 1) uint32_modulus ltac:(done)) as Hdm.
          assert (1 <= (n + 1) / uint32_modulus).
          { apply Z.div_le_lower_bound; [done | lia]. }
          nia. }
        rewrite take_insert_ge by lia.
        replace (Z.to_nat (uint32_add n 1))
          with (Z.to_nat (uint32_add n 1) `min` Z.to_nat n)%nat by lia.
        rewrite <- take_take. by apply Forall_take.
Qed.

(** A ray of pixel [pixel] after [bounces] bounces, carrying [energy] in
    each channel. *)
Definition sample_ray (pixel bounces : Z) (energy : float) : Ray :=
  mkRay float3_zero float3_zero float3_zero float3_zero float3_zero float3_zero
        (mkFloat3 energy energy energy) pixel bounces.

Definition sample_hit (pixel bounces : Z) (energy : float) : HitParameters :=
  mkHit float3_zero float3_zero (mkFloat3 energy energy energy) pixel bounces 0 0
        (mkFloat2 fzero fzero).

(** A context of one pixel with a stack of [capacity] entries, [count] of
    them in use, and paths of at most five bounces. *)
Definition sample_context (capacity : nat) (count : Z) : KernelContext :=
  mkContext [float3_zero] (replicate capacity (sample_ray 0 0 fone)) count
            (Z.of_nat capacity) 5.

Lemma InsertRay_path_length_bound_witness :
  InsertRay true (sample_context 4 1) (sample_ray 0 5 fone)
    = Done (sample_context 4 1) /\
  bounded_stack (sample_context 4 1).
Proof.
  destruct (InsertRay_path_length_bound true (sample_context 4 1) (sample_ray 0 5 fone))
    as [Hnoop Hkeep].
  split.
  - apply Hnoop. reflexivity.
  - apply (Hkeep (sample_context 4 1)).
    + repeat constructor. simpl. lia.
    + apply Hnoop. reflexivity.
Defined.

(** C2, as stated, fails: with the stack full ([rayStackCount =
    rayStackCapacity = 2] on a buffer of two entries) the assertion
    [rayStackCount + 1 != rayStackCapacity] passes and the store goes past
    the end of the buffer; the same happens on a stack of capacity zero. *)
Lemma InsertRay_full_stack_not_caught :
  context_wf (sample_context 2 2) /\
  bounceCount (sample_ray 0 0 fone) <> maxPathLength (sample_context 2 2) /\
  ~ rayStackCount (sample_context 2 2) < rayStackCapacity (sample_context 2 2) /\
  InsertRay true (sample_context 2 2) (sample_ray 0 0 fone) = Crash OutOfBounds /\
  context_wf (sample_context 0 0) /\
  InsertRay true (sample_context 0 0) (sample_ray 0 0 fone) = Crash OutOfBounds.
Proof.
  unfold context_wf, is_uint32, uint32_modulus. simpl.
  repeat split; try lia; try reflexivity.
Qed.

(** C2 (amended): in a context whose buffer has [rayStackCapacity] entries
    and where [rayStackCount < rayStackCapacity] holds, a ray below the
    path-length bound is either refused by the assertion -- exactly when
    [rayStackCount + 1 = rayStackCapacity], with assertions on -- or stored
    at [rayStack[rayStackCount]], inside the buffer; with assertions on,
    [rayStackCount < rayStackCapacity] holds again afterwards. *)
Theorem InsertRay_keeps_capacity_bound (asserts : bool) (context : KernelContext)
    (ray : Ray) :
  context_wf context ->
  rayStackCount context < rayStackCapacity context ->
  bounceCount ray <> maxPathLength context ->
  (asserts = true /\
   rayStackCount context + 1 = rayStackCapacity context /\
   InsertRay asserts context ray = Crash AssertionFailed)
  \/
  (exists context',
     InsertRay asserts context ray = Done context' /\
     rayStack context' !! Z.to_nat (rayStackCount context) = Some ray /\
     rayStackCount context' = rayStackCount context + 1 /\
     rayStackCapacity context' = rayStackCapacity context /\
     context_wf context' /\
     (asserts = true -> rayStackCount context' < rayStackCapacity context')).
Proof.
  intros (Hlen & [Hc0 Hc1] & [Hk0 Hk1]) Hlt Hne.
  assert (Hsucc : uint32_add (rayStackCount context) 1 = rayStackCount context + 1).
  { apply uint32_add_succ; lia. }
  unfold InsertRay.
  destruct (Z.eqb_spec (bounceCount ray) (maxPathLength context)) as [| _]; [done |].
  rewrite Hsucc.
  destruct (Z.eqb_spec (rayStackCount context + 1) (rayStackCapacity context))
    as [Hfull | Hroom]; destruct asserts; simpl.
  1: { left. done. }
  all: right; rewrite array_store_in_range by lia; simpl;
    eexists; split; [reflexivity |]; simpl;
    (split; [apply list_lookup_insert_eq; lia |]);
    (split; [done |]); (split; [done |]);
    (split; [unfold context_wf, is_uint32; simpl; rewrite length_insert; lia |]).
  all: intros; try done; lia.
Qed.

Lemma InsertRay_keeps_capacity_bound_witness :
  exists context',
    InsertRay true (sample_context 4 1) (sample_ray 0 0 fone) = Done context' /\
    rayStackCount context' = 2 /\
    rayStackCount context' < rayStackCapacity context'.
Proof.
  destruct (InsertRay_keeps_capacity_bound true (sample_context 4 1) (sample_ray 0 0 fone))
    as [(_ & Hfull & _) | (context' & Hrun & _ & Hcount & Hcap & _ & Hbound)].
  - unfold context_wf, is_uint32, uint32_modulus. simpl. lia.
  - simpl. lia.
  - simpl. lia.
  - simpl in Hfull. lia.
  - exists context'. split; [exact Hrun |]. split; [exact Hcount |]. by apply Hbound.
Defined.

(** ** AccumulatePixelEnergy *)

Lemma accumulate_in_range context index contribution cell :
  0 <= index ->
  imageData context !! Z.to_nat index = Some cell ->
  accumulate context index contribution
  = Done (set_imageData context
            (<[Z.to_nat index := float3_add cell contribution]> (imageData context))).
Proof.
  intros H0 Hcell. unfold accumulate.
  rewrite (array_load_in_range _ _ cell) by done. simpl.
  apply lookup_lt_Some in Hcell.
  rewrite array_store_in_range by lia. done.
Qed.

(** C3, as stated, fails: a ray carrying infinite throughput makes an
    infinite contribution, and both overloads add it to the pixel all the
    same. *)
Lemma AccumulatePixelEnergy_takes_non_finite :
  float3_is_finite
    (float3_mul (throughput (sample_ray 0 1 finfinity)) (mkFloat3 fone fone fone)) = false /\
  AccumulatePixelEnergy_ray (sample_context 2 0) (sample_ray 0 1 finfinity)
    (mkFloat3 fone fone fone)
  = Done (set_imageData (sample_context 2 0) [mkFloat3 finfinity finfinity finfinity]) /\
  AccumulatePixelEnergy_hit (sample_context 2 0) (sample_hit 0 1 finfinity)
    (mkFloat3 fone fone fone)
  = Done (set_imageData (sample_context 2 0) [mkFloat3 finfinity finfinity finfinity]) /\
  imageData (set_imageData (sample_context 2 0) [mkFloat3 finfinity finfinity finfinity])
  <> imageData (sample_context 2 0).
Proof. repeat split; try reflexivity. discriminate. Qed.

(** C3 (amended): both overloads of [AccumulatePixelEnergy] add
    [throughput * value] to the pixel's cell whatever its value: nothing is
    tested, dropped or counted, the rest of the context stays as it was,
    and after a non-finite contribution the cell is not finite either. *)
Theorem AccumulatePixelEnergy_unconditional (context : KernelContext) (ray : Ray)
    (hit : HitParameters) (value cell hitCell : float3) :
  0 <= pixelIndex ray ->
  imageData context !! Z.to_nat (pixelIndex ray) = Some cell ->
  0 <= hit_pixelIndex hit ->
  imageData context !! Z.to_nat (hit_pixelIndex hit) = Some hitCell ->
  AccumulatePixelEnergy_ray context ray value
  = Done (set_imageData context
            (<[Z.to_nat (pixelIndex ray) :=
                 float3_add cell (float3_mul (throughput ray) value)]>
               (imageData context))) /\
  AccumulatePixelEnergy_hit context hit value
  = Done (set_imageData context
            (<[Z.to_nat (hit_pixelIndex hit) :=
                 float3_add hitCell (float3_mul (hit_throughput hit) value)]>
               (imageData context))) /\
  (float3_is_finite (float3_mul (throughput ray) value) = false ->
   float3_is_finite (float3_add cell (float3_mul (throughput ray) value)) = false) /\
  (float3_is_finite (float3_mul (hit_throughput hit) value) = false ->
   float3_is_finite (float3_add hitCell (float3_mul (hit_throughput hit) value)) = false).
Proof.
  intros Hr0 Hrc Hh0 Hhc.
  unfold AccumulatePixelEnergy_ray, AccumulatePixelEnergy_hit.
  rewrite (accumulate_in_range _ _ _ cell), (accumulate_in_range _ _ _ hitCell) by done.
  repeat split; intros Hbad;
    apply not_true_is_false; intros Hfin;
    apply float3_add_finite_r in Hfin; congruence.
Qed.

Lemma AccumulatePixelEnergy_unconditional_witness :
  AccumulatePixelEnergy_ray (sample_context 2 0) (sample_ray 0 1 finfinity)
    (mkFloat3 fone fone fone)
  = Done (set_imageData (sample_context 2 0) [mkFloat3 finfinity finfinity finfinity]) /\
  float3_is_finite
    (float3_add float3_zero
       (float3_mul (throughput (sample_ray 0 1 finfinity)) (mkFloat3 fone fone fone)))
  = false.
Proof.
  destruct (AccumulatePixelEnergy_unconditional (sample_context 2 0)
              (sample_ray 0 1 finfinity) (sample_hit 0 1 fone)
              (mkFloat3 fone fone fone) float3_zero float3_zero
              ltac:(simpl; lia) eq_refl ltac:(simpl; lia) eq_refl)
    as (Hray & _ & Hbad & _).
  split; [exact Hray | exact (Hbad eq_refl)].
Defined.

(** C7: for a ray and a hit of the same pixel [p] and the same throughput
    [t], the two overloads of [AccumulatePixelEnergy] give the same result:
    the context with [t * value] added to the cell at [p], every other cell
    and every other field as before. *)
Theorem AccumulatePixelEnergy_overloads_agree (context : KernelContext) (ray : Ray)
    (hit : HitParameters) (p : Z) (t value : float3) :
  pixelIndex ray = p -> throughput ray = t ->
  hit_pixelIndex hit = p -> hit_throughput hit = t ->
  AccumulatePixelEnergy_ray context ray value
  = AccumulatePixelEnergy_hit context hit value /\
  forall cell,
    0 <= p ->
    imageData context !! Z.to_nat p = Some cell ->
    exists context',
      AccumulatePixelEnergy_ray context ray value = Done context' /\
      AccumulatePixelEnergy_hit context hit value = Done context' /\
      imageData context' !! Z.to_nat p = Some (float3_add cell (float3_mul t value)) /\
      (forall q, q <> Z.to_nat p -> imageData context' !! q = imageData context !! q) /\
      length (imageData context') = length (imageData context) /\
      rayStack context' = rayStack context /\
      rayStackCount context' = rayStackCount context /\
      rayStackCapacity context' = rayStackCapacity context /\
      maxPathLength context' = maxPathLength context.
Proof.
  intros <- <- Hp Ht.
  unfold AccumulatePixelEnergy_ray, AccumulatePixelEnergy_hit.
  rewrite Hp, Ht. split; [done |].
  intros cell H0 Hcell.
  rewrite (accumulate_in_range _ _ _ cell) by done.
  eexists. split; [reflexivity |]. split; [reflexivity |]. simpl.
  pose proof (lookup_lt_Some _ _ _ Hcell) as Hlt.
  split; [by apply list_lookup_insert_eq |].
  split; [intros q Hq; by apply list_lookup_insert_ne |].
  by rewrite length_insert.
Qed.

Lemma AccumulatePixelEnergy_overloads_agree_witness :
  AccumulatePixelEnergy_ray (sample_context 2 0) (sample_ray 0 1 fone)
    (mkFloat3 fone fone fone)
  = AccumulatePixelEnergy_hit (sample_context 2 0) (sample_hit 0 3 fone)
      (mkFloat3 fone fone fone) /\
  exists context',
    AccumulatePixelEnergy_hit (sample_context 2 0) (sample_hit 0 3 fone)
      (mkFloat3 fone fone fone) = Done context' /\
    imageData context' !! 0%nat = Some (mkFloat3 fone fone fone).
Proof.
  destruct (AccumulatePixelEnergy_overloads_agree (sample_context 2 0)
              (sample_ray 0 1 fone) (sample_hit 0 3 fone) 0
              (mkFloat3 fone fone fone) (mkFloat3 fone fone fone)
              eq_refl eq_refl eq_refl eq_refl) as [Hsame Hcell].
  split; [exact Hsame |].
  destruct (Hcell float3_zero ltac:(lia) eq_refl) as (context' & _ & Hhit & Hp & _).
  exists context'. split; [exact Hhit | exact Hp].
Defined.

(** ** Bounce rays *)

(** The branch both builders take: the flag bit and a differential
    direction with a nonzero [x] or [y]. *)
Definition keeps_differentials (ePreserveRayDifferentials : Z)
    (surface : SurfaceParameters) : bool :=
  negb (Z.land (materialFlags surface) ePreserveRayDifferentials =? 0)
  && (fnez (fx (surf_rxDirection surface)) || fnez (fy (surf_rxDirection surface))).

Lemma ReflectionBounceCall_branch e B surface hit wi reflectance :
  transports_differentials (ReflectionBounceCall e B surface hit wi reflectance)
  = keeps_differentials e surface.
Proof.
  unfold ReflectionBounceCall, keeps_differentials.
  by destruct (negb _ && _).
Qed.

Lemma RefractionBounceCall_branch e B surface hit wi reflectance iorRatio :
  transports_differentials (RefractionBounceCall e B surface hit wi reflectance iorRatio)
  = keeps_differentials e surface.
Proof.
  unfold RefractionBounceCall, keeps_differentials.
  by destruct (negb _ && _).
Qed.

(** A surface with the given flags whose differential direction [rx] points
    along the z axis. *)
Definition surface_rx_along_z (flags : Z) : SurfaceParameters :=
  mkSurface float3_zero (mkFloat3 fzero fzero fone) (mkFloat3 fzero fzero fone)
            (mkFloat3 fzero fzero fone)
            (mkFloat3 fzero fzero fone) (mkFloat3 fzero fone fzero)
            flags
            (mkDifferentials float3_zero float3_zero (mkFloat2 fzero fzero)
               (mkFloat2 fzero fzero)).

(** C6 at the failing input: with the flag set and [rxDirection = (0, 0, 1)],
    which is not zero, both builders take the [MakeRay] branch: the test
    [rayHasDifferentials] looks at [x] and [y] only. *)
Theorem bounce_rays_drop_differentials_along_z (e : Z) (B : RayBuilders)
    (hit : HitParameters) (wi reflectance : float3) (iorRatio : float) :
  e <> 0 ->
  Z.land (materialFlags (surface_rx_along_z e)) e <> 0 /\
  float3_nonzero (surf_rxDirection (surface_rx_along_z e)) = true /\
  transports_differentials
    (ReflectionBounceCall e B (surface_rx_along_z e) hit wi reflectance) = false /\
  transports_differentials
    (RefractionBounceCall e B (surface_rx_along_z e) hit wi reflectance iorRatio) = false.
Proof.
  intros He.
  rewrite ReflectionBounceCall_branch, RefractionBounceCall_branch.
  unfold keeps_differentials. simpl. rewrite Z.land_diag.
  repeat split; try done. all: by rewrite andb_false_r.
Qed.

(** Helpers that keep the arguments in the ray they build. *)
Definition sample_builders : RayBuilders :=
  mkBuilders
    (fun surface wi bias => position surface)
    (fun o d t p b => mkRay o d float3_zero float3_zero float3_zero float3_zero t p b)
    (fun rx ry o n wo wi ds t p b => mkRay o wi o rx o ry t p b)
    (fun rx ry o n wo wi ds ior t p b => mkRay o wi o rx o ry t p b).

Lemma bounce_rays_drop_differentials_along_z_witness :
  transports_differentials
    (ReflectionBounceCall 4 sample_builders (surface_rx_along_z 4)
       (sample_hit 0 1 fone) (mkFloat3 fzero fone fzero) (mkFloat3 fone fone fone))
  = false.
Proof.
  exact (proj1 (proj2 (proj2
    (bounce_rays_drop_differentials_along_z 4 sample_builders (sample_hit 0 1 fone)
       (mkFloat3 fzero fone fzero) (mkFloat3 fone fone fone) fone
       ltac:(discriminate))))).
Defined.

Lemma sample_builders_store_path_state : stores_path_state sample_builders.
Proof. intros []; simpl; done. Qed.

Lemma bounce_call_path_state e B surface hit wi reflectance iorRatio :
  let reflection := ReflectionBounceCall e B surface hit wi reflectance in
  let refraction := RefractionBounceCall e B surface hit wi reflectance iorRatio in
  (call_pixelIndex reflection = hit_pixelIndex hit /\
   call_bounceCount reflection = uint32_add (hit_bounceCount hit) 1 /\
   call_throughput reflection = float3_mul (hit_throughput hit) reflectance) /\
  (call_pixelIndex refraction = hit_pixelIndex hit /\
   call_bounceCount refraction = uint32_add (hit_bounceCount hit) 1 /\
   call_throughput refraction = float3_mul (hit_throughput hit) reflectance).
Proof.
  unfold ReflectionBounceCall, RefractionBounceCall.
  by destruct (negb _ && _).
Qed.

(** C10: whichever branch is taken, the ray built by
    [CreateReflectionBounceRay] and by [CreateRefractionBounceRay] has the
    hit's pixel index, the hit's bounce count plus one (in [uint32]) and the
    componentwise product of the hit's throughput and the reflectance --
    given that the ray helpers store the path state they are handed. *)
Theorem bounce_ray_path_state (e : Z) (B : RayBuilders) (surface : SurfaceParameters)
    (hit : HitParameters) (wi reflectance : float3) (iorRatio : float) :
  stores_path_state B ->
  let reflected := CreateReflectionBounceRay e B surface hit wi reflectance in
  let refracted := CreateRefractionBounceRay e B surface hit wi reflectance iorRatio in
  (pixelIndex reflected = hit_pixelIndex hit /\
   bounceCount reflected = uint32_add (hit_bounceCount hit) 1 /\
   throughput reflected = float3_mul (hit_throughput hit) reflectance) /\
  (pixelIndex refracted = hit_pixelIndex hit /\
   bounceCount refracted = uint32_add (hit_bounceCount hit) 1 /\
   throughput refracted = float3_mul (hit_throughput hit) reflectance) /\
  (0 <= hit_bounceCount hit -> hit_bounceCount hit + 1 < uint32_modulus ->
   bounceCount reflected = hit_bounceCount hit + 1 /\
   bounceCount refracted = hit_bounceCount hit + 1).
Proof.
  intros HB reflected refracted.
  destruct (bounce_call_path_state e B surface hit wi reflectance iorRatio)
    as [(Hp1 & Hb1 & Ht1) (Hp2 & Hb2 & Ht2)].
  destruct (HB (ReflectionBounceCall e B surface hit wi reflectance)) as (Ht & Hp & Hb).
  destruct (HB (RefractionBounceCall e B surface hit wi reflectance iorRatio))
    as (Ht' & Hp' & Hb').
  subst reflected refracted. unfold CreateReflectionBounceRay, CreateRefractionBounceRay.
  rewrite Ht, Hp, Hb, Ht', Hp', Hb', Hp1, Hb1, Ht1, Hp2, Hb2, Ht2.
  repeat split; try done. all: by apply uint32_add_succ.
Qed.

Lemma bounce_ray_path_state_witness :
  pixelIndex
    (CreateRefractionBounceRay 4 sample_builders (surface_rx_along_z 4)
       (sample_hit 7 1 fone) (mkFloat3 fzero fone fzero) (mkFloat3 fone fone fone) fone)
  = 7 /\
  bounceCount
    (CreateReflectionBounceRay 4 sample_builders (surface_rx_along_z 4)
       (sample_hit 7 1 fone) (mkFloat3 fzero fone fzero) (mkFloat3 fone fone fone))
  = 2.
Proof.
  destruct (bounce_ray_path_state 4 sample_builders (surface_rx_along_z 4)
              (sample_hit 7 1 fone) (mkFloat3 fzero fone fzero) (mkFloat3 fone fone fone)
              fone sample_builders_store_path_state)
    as (_ & (Hpixel & _) & Hcount).
  split; [exact Hpixel |].
  exact (proj1 (Hcount ltac:(simpl; lia) ltac:(unfold uint32_modulus; simpl; lia))).
Defined.

(** ** Aligned buffers of the geometry blob *)

Import Baker.

(** [x & ~15] on [uint32] rounds down to a multiple of 16. *)
Lemma land_align_mask x :
  0 <= x < uint32_modulus ->
  Z.land x (uint32_not (uint32_wrap (16 - 1))) = 16 * (x / 16).
Proof.
  intros Hx. unfold uint32_not, uint32_wrap, uint32_modulus in *.
  change ((16 - 1) mod 2 ^ 32) with 15.
  change (2 ^ 32 - 1 - 15) with (Z.shiftl (Z.ones 28) 4).
  replace (16 * (x / 16)) with (Z.shiftl (Z.shiftr x 4) 4).
  2: { rewrite Z.shiftl_mul_pow2, Z.shiftr_div_pow2 by lia. change (2 ^ 4) with 16. lia. }
  apply Z.bits_inj'. intros n Hn.
  rewrite Z.land_spec.
  destruct (Z_lt_dec n 4) as [Hlt | Hge].
  - rewrite !Z.shiftl_spec_low by lia. apply andb_false_r.
  - rewrite !Z.shiftl_spec by lia. rewrite Z.shiftr_spec by lia.
    replace (n - 4 + 4) with n by lia.
    destruct (Z_lt_dec n 32) as [Hlt32 | Hge32].
    + rewrite Z.ones_spec_low by lia. apply andb_true_r.
    + rewrite Z.ones_spec_high by lia. rewrite andb_false_r.
      symmetry. destruct (Z.eq_dec x 0) as [-> | Hnz]; [apply Z.bits_0 |].
      apply Z.bits_above_log2; [lia |].
      apply Z.log2_lt_pow2; [lia |]. apply Z.lt_le_trans with (2 ^ 32); [lia |].
      apply Z.pow_le_mono_r; lia.
Qed.

Lemma alignedSize_16 dataSize :
  0 <= dataSize -> dataSize + 15 < uint32_modulus ->
  alignedSize dataSize 16 = 16 * ((dataSize + 15) / 16).
Proof.
  intros H0 Hfit. unfold alignedSize.
  replace (dataSize + 16 - 1) with (dataSize + 15) by lia.
  rewrite uint32_wrap_small by (unfold is_uint32; lia).
  apply land_align_mask. lia.
Qed.

(** The zero bytes written behind a buffer of [len] bytes. *)
Definition padding (len : Z) : nat := Z.to_nat (16 * ((len + 15) / 16) - len).

Lemma padding_spec len :
  0 <= len -> (len + Z.of_nat (padding len)) mod 16 = 0 /\ (padding len < 16)%nat.
Proof.
  intros H0. unfold padding.
  pose proof (Z.div_mod (len + 15) 16 ltac:(lia)) as Hdm.
  pose proof (Z.mod_pos_bound (len + 15) 16 ltac:(lia)) as Hb.
  split; [| lia].
  rewrite Z2Nat.id by lia.
  replace (len + (16 * ((len + 15) / 16) - len)) with (((len + 15) / 16) * 16) by lia.
  apply Z.mod_mul. lia.
Qed.

(** A buffer with its trailing padding. *)
Definition padded (a : CArray) : list byte :=
  bytes a ++ replicate (padding (Z.of_nat (length (bytes a)))) Byte.x00.

(** The buffer's size plus the alignment slack fits [uint32]. *)
Definition fits (a : CArray) : Prop :=
  Z.of_nat (length (bytes a)) + 15 < uint32_modulus.

Lemma write_padding_spec w n :
  write_padding w n
  = mkWriter (rawData w) (pointerData w ++ replicate n Byte.x00) (pointers w).
Proof.
  unfold write_padding. induction n as [| n IH]; simpl.
  - rewrite app_nil_r. by destruct w.
  - rewrite IH. unfold SerializerWritePointerData; simpl.
    f_equal. rewrite <- app_assoc. f_equal.
    change (Byte.x00 :: replicate n Byte.x00) with (replicate (S n) Byte.x00).
    by rewrite replicate_S_end.
Qed.

Lemma SerializeArrayAligned_spec w a :
  fits a ->
  SerializeArrayAligned w a
  = mkWriter (rawData w ++ replicate 8 Byte.x00)
             (pointerData w ++ padded a)
             (pointers w ++ [mkPointerDesc (Z.of_nat (length (rawData w)))
                                           (Z.of_nat (length (pointerData w)))]).
Proof.
  intros Hfit. unfold fits, uint32_modulus in Hfit.
  unfold SerializeArrayAligned, SerializeBufferAligned, kSceneDataAlignment.
  assert (Hsize : DataSize a = Z.of_nat (length (bytes a))).
  { unfold DataSize. apply uint32_wrap_small. unfold is_uint32, uint32_modulus. lia. }
  rewrite Hsize, alignedSize_16 by (unfold uint32_modulus; lia).
  rewrite write_padding_spec. simpl.
  unfold GetData. rewrite Nat2Z.id, take_ge by lia.
  unfold padded, padding. by rewrite <- app_assoc.
Qed.

(** The buffers of the geometry blob in the order [SerializeGeometry]
    writes them. *)
Definition geometry_buffers (sceneData : BuiltScene) : list CArray :=
  Baker.indices sceneData ++
  [Baker.faceIndexCounts sceneData; Baker.positions sceneData; Baker.normals sceneData;
   Baker.tangents sceneData; Baker.uvs sceneData; Baker.materialIndices sceneData].

Lemma SerializeGeometry_fold w sceneData :
  SerializeGeometry w sceneData = foldl SerializeArrayAligned w (geometry_buffers sceneData).
Proof. unfold SerializeGeometry, geometry_buffers. by rewrite foldl_app. Qed.

(** What a writer looks like while aligned buffers are being embedded:
    the raw part is the pointer table, one 8-byte slot per pointer, and
    every pointee, and the end of the pointee data, is at a multiple
    of 16. *)
Definition aligned_writer (w : BinaryWriter) : Prop :=
  Z.of_nat (length (rawData w)) = 8 * Z.of_nat (length (pointers w)) /\
  Z.of_nat (length (pointerData w)) mod 16 = 0 /\
  Forall (fun d => pointerDataOffset d mod 16 = 0 /\
                   0 <= pointerDataOffset d <= Z.of_nat (length (pointerData w)))
         (pointers w) /\
  (forall i d, pointers w !! i = Some d -> pointerOffset d = 8 * Z.of_nat i).

Lemma SerializeArrayAligned_keeps_aligned w a :
  fits a -> aligned_writer w -> aligned_writer (SerializeArrayAligned w a).
Proof.
  intros Hfit (Hraw & Hend & Hall & Hsites). rewrite SerializeArrayAligned_spec by done.
  unfold aligned_writer; simpl. rewrite !length_app; simpl.
  split; [lia |]. split; [| split].
  - unfold padded. rewrite length_app, length_replicate.
    destruct (padding_spec (Z.of_nat (length (bytes a))) ltac:(lia)) as [Hpad _].
    rewrite !Nat2Z.inj_add.
    rewrite Z.add_mod, Hend, Hpad by lia. done.
  - apply Forall_app. split.
    + eapply Forall_impl; [exact Hall |]. simpl. intros d [Hd1 Hd2]. split; [done | lia].
    + apply Forall_singleton. simpl. split; [done | lia].
  - intros i d Hd. apply lookup_app_Some in Hd as [Hd | [Hi Hd]]; [by apply Hsites |].
    apply list_lookup_singleton_Some in Hd as [Hi' <-]. simpl. lia.
Qed.

Lemma fold_aligned buffers : forall w,
  Forall fits buffers -> aligned_writer w ->
  aligned_writer (foldl SerializeArrayAligned w buffers) /\
  length (pointers (foldl SerializeArrayAligned w buffers))
  = (length (pointers w) + length buffers)%nat /\
  pointerData (foldl SerializeArrayAligned w buffers)
  = pointerData w ++ flat_map padded buffers.
Proof.
  induction buffers as [| a rest IH]; intros w Hfits Hw; simpl.
  - by rewrite app_nil_r, Nat.add_0_r.
  - apply Forall_cons in Hfits as [Ha Hrest].
    destruct (IH (SerializeArrayAligned w a) Hrest
                 (SerializeArrayAligned_keeps_aligned w a Ha Hw)) as (H1 & H2 & H3).
    split; [done |]. rewrite H2, H3, SerializeArrayAligned_spec by done. simpl.
    rewrite length_app; simpl. split; [lia |]. by rewrite <- app_assoc.
Qed.

(** *** The offsets stored in the blob *)

Lemma Z_of_byte_of_Z z : Z_of_byte (byte_of_Z z) = z mod 256.
Proof.
  unfold Z_of_byte, byte_of_Z.
  pose proof (Z.mod_pos_bound z 256 ltac:(lia)) as Hb.
  destruct (Byte.of_N (Z.to_N (z mod 256))) as [b |] eqn:Hof.
  - apply Byte.to_of_N in Hof. rewrite Hof. lia.
  - apply Byte.of_N_None_iff in Hof. lia.
Qed.

Lemma decode_encode_le n : forall z,
  0 <= z < 256 ^ Z.of_nat n -> decode_le (encode_le n z) = z.
Proof.
  induction n as [| n IH]; intros z Hz.
  - simpl in *. lia.
  - cbn [encode_le decode_le]. rewrite Z_of_byte_of_Z, IH.
    + pose proof (Z.div_mod z 256 ltac:(lia)). lia.
    + rewrite Nat2Z.inj_succ, Z.pow_succ_r in Hz by lia.
      split; [apply Z.div_pos; lia |]. apply Z.div_lt_upper_bound; lia.
Qed.

Lemma length_encode_le n z : length (encode_le n z) = n.
Proof. revert z. induction n as [| n IH]; intros; simpl; [done | by rewrite IH]. Qed.

Lemma overwrite_length blob at_ bs :
  (at_ + length bs <= length blob)%nat -> length (overwrite blob at_ bs) = length blob.
Proof.
  intros H. unfold overwrite. rewrite !length_app, length_take, length_drop. lia.
Qed.

Lemma overwrite_read blob at_ bs :
  (at_ + length bs <= length blob)%nat ->
  take (length bs) (drop at_ (overwrite blob at_ bs)) = bs.
Proof.
  intros H. unfold overwrite.
  rewrite drop_app_length' by (rewrite length_take; lia).
  by rewrite take_app_length.
Qed.

Lemma overwrite_read_other blob at_ bs site n :
  (at_ + length bs <= length blob)%nat ->
  (site + n <= at_ \/ at_ + length bs <= site)%nat ->
  take n (drop site (overwrite blob at_ bs)) = take n (drop site blob).
Proof.
  intros H Hdisj. apply list_eq. intros i.
  rewrite !lookup_take. destruct (decide (i < n)%nat) as [Hi | Hi]; [| done].
  rewrite !lookup_drop. unfold overwrite.
  destruct Hdisj as [Hbefore | Hafter].
  - rewrite lookup_app_l by (rewrite length_take; lia).
    rewrite lookup_take. by rewrite decide_True by lia.
  - rewrite lookup_app_r by (rewrite length_take; lia).
    rewrite lookup_app_r by (rewrite length_take; lia).
    rewrite lookup_drop, length_take. f_equal. lia.
Qed.

(** Filling in the relocation sites of a pointer table: each site then
    holds the offset of its pointee. *)
Lemma patched_sites w descs : forall blob,
  (forall i d, descs !! i = Some d -> pointerOffset d = 8 * Z.of_nat i) ->
  (8 * length descs <= length blob)%nat ->
  Forall (fun d => 0 <= pointee_offset w d < 2 ^ 64) descs ->
  length (foldl (patch_pointer w) blob descs) = length blob /\
  forall i d, descs !! i = Some d ->
    read_pointer (foldl (patch_pointer w) blob descs) (pointerOffset d)
    = pointee_offset w d.
Proof.
  induction descs as [| x descs IH] using rev_ind; intros blob Hsites Hlen Hrange.
  - split; [done |]. intros i d Hd. by rewrite lookup_nil in Hd.
  - rewrite length_app in Hlen. simpl in Hlen.
    apply Forall_app in Hrange as [Hrange Hx]. apply Forall_inv in Hx.
    destruct (IH blob) as [IHlen IHread]; [| lia | done |].
    { intros i d Hd. apply Hsites. by apply lookup_app_l_Some. }
    assert (Hxsite : pointerOffset x = 8 * Z.of_nat (length descs)).
    { apply Hsites. rewrite lookup_app_r by lia. by rewrite Nat.sub_diag. }
    rewrite foldl_app. simpl. unfold patch_pointer at 1 3.
    split.
    + rewrite overwrite_length; [done |]. rewrite length_encode_le, IHlen. lia.
    + intros i d Hd. unfold read_pointer.
      apply lookup_app_Some in Hd as [Hd | [Hi Hd]].
      * rewrite overwrite_read_other.
        -- by apply (IHread i).
        -- rewrite length_encode_le, IHlen. lia.
        -- pose proof (lookup_lt_Some _ _ _ Hd) as Hlt.
           rewrite (Hsites i d) by (by apply lookup_app_l_Some).
           rewrite length_encode_le. lia.
      * apply list_lookup_singleton_Some in Hd as [_ <-].
        replace 8%nat with (length (encode_le 8 (pointee_offset w x))) at 1
          by apply length_encode_le.
        rewrite overwrite_read by (rewrite length_encode_le, IHlen; lia).
        apply decode_encode_le. change (256 ^ Z.of_nat 8) with (2 ^ 64). exact Hx.
Qed.

(** The promised pointer of the [i]-th buffer: its slot in the pointer
    table and the padded sizes of the buffers before it. *)
Definition buffer_pointer (w : BinaryWriter) (buffers : list CArray) (i : nat)
    : PointerDesc :=
  mkPointerDesc (Z.of_nat (length (rawData w)) + 8 * Z.of_nat i)
                (Z.of_nat (length (pointerData w))
                 + Z.of_nat (length (flat_map padded (take i buffers)))).

Lemma fold_pointers buffers : forall w,
  Forall fits buffers ->
  pointers (foldl SerializeArrayAligned w buffers)
  = pointers w ++ imap (fun i _ => buffer_pointer w buffers i) buffers.
Proof.
  induction buffers as [| a rest IH]; intros w Hfits; simpl.
  - by rewrite app_nil_r.
  - apply Forall_cons in Hfits as [Ha Hrest].
    rewrite IH by done. rewrite SerializeArrayAligned_spec by done. simpl.
    rewrite <- app_assoc. f_equal. simpl. f_equal.
    + unfold buffer_pointer. simpl. f_equal; lia.
    + apply imap_ext. intros i b Hb. unfold buffer_pointer; simpl.
      rewrite !length_app. simpl. f_equal; lia.
Qed.

Lemma overwrite_tail blob at_ bs n :
  (at_ + length bs <= n)%nat -> (at_ + length bs <= length blob)%nat ->
  drop n (overwrite blob at_ bs) = drop n blob.
Proof.
  intros Hn Hlen. apply list_eq. intros i. rewrite !lookup_drop. unfold overwrite.
  rewrite lookup_app_r by (rewrite length_take; lia).
  rewrite lookup_app_r by (rewrite length_take; lia).
  rewrite lookup_drop, length_take. f_equal. lia.
Qed.

Lemma patched_tail w descs n : forall blob,
  Forall (fun d => 0 <= pointerOffset d /\ pointerOffset d + 8 <= Z.of_nat n) descs ->
  (n <= length blob)%nat ->
  length (foldl (patch_pointer w) blob descs) = length blob /\
  drop n (foldl (patch_pointer w) blob descs) = drop n blob.
Proof.
  induction descs as [| d descs IH]; intros blob Hsites Hlen; simpl; [done |].
  apply Forall_cons in Hsites as [Hd Hrest].
  assert (Hfit : (Z.to_nat (pointerOffset d) + length (encode_le 8 (pointee_offset w d))
                  <= n)%nat) by (rewrite length_encode_le; lia).
  destruct (IH (patch_pointer w blob d)) as [IHlen IHdrop]; [done | |].
  - unfold patch_pointer. rewrite overwrite_length; lia.
  - rewrite IHlen, IHdrop. unfold patch_pointer.
    rewrite overwrite_length by lia. split; [done |]. apply overwrite_tail; lia.
Qed.

Lemma padded_length_ge a : (length (bytes a) <= length (padded a))%nat.
Proof. unfold padded. rewrite length_app. lia. Qed.

Lemma flat_map_padded_ge a buffers :
  a ∈ buffers -> (length (padded a) <= length (flat_map padded buffers))%nat.
Proof.
  induction 1 as [a rest | a b rest _ IH]; simpl; rewrite length_app; lia.
Qed.

(** The size of the geometry blob: the pointer table and the padded
    buffers. *)
Definition geometry_blob_size (sceneData : BuiltScene) : Z :=
  8 * Z.of_nat (length (geometry_buffers sceneData))
  + Z.of_nat (length (flat_map padded (geometry_buffers sceneData))).

Lemma geometry_buffers_fit sceneData :
  geometry_blob_size sceneData < uint32_modulus ->
  Forall fits (geometry_buffers sceneData).
Proof.
  intros Hsize. apply Forall_forall. intros a Ha.
  pose proof (flat_map_padded_ge a _ Ha) as Hle.
  pose proof (padded_length_ge a) as Hle'.
  unfold geometry_blob_size in Hsize.
  assert (6 <= length (geometry_buffers sceneData))%nat.
  { unfold geometry_buffers. rewrite length_app. simpl. lia. }
  unfold fits. lia.
Qed.

Lemma start_aligned a b : aligned_writer (SerializerStart a b).
Proof.
  unfold aligned_writer, SerializerStart; simpl.
  repeat split; try done.
Qed.

(** A scene with [types] empty index buffers and a given position buffer. *)
Definition sample_scene (types : nat) (positionBytes : list byte) : BuiltScene :=
  let none := mkCArray 4 [] in
  mkBuiltScene [] [] [] none none none (replicate types none) none
               (mkCArray 12 positionBytes) none none none none.



(** ** Baked outputs *)

Import Build.

Lemma string_length_append (s t : string) :
  String.length (String.append s t) = (String.length s + String.length t)%nat.
Proof. induction s as [| c s IH]; simpl; [done | by rewrite IH]. Qed.

Lemma temp_path_fresh path : temp_path path <> path.
Proof.
  intros Heq. apply (f_equal String.length) in Heq.
  unfold temp_path in Heq. rewrite string_length_append in Heq. simpl in Heq. lia.
Qed.

(** A write that meets no fault puts the content at [path] and leaves no
    temporary file. *)
Lemma WriteWholeFile_succeeds world path data size :
  next_fault world = NoFault ->
  exists world',
    WriteWholeFile world path data size = (Success_, world') /\
    files world' !! path = Some (take (Z.to_nat size) data) /\
    files world' !! temp_path path = None.
Proof.
  intros Hfault. pose proof (temp_path_fresh path) as Hfresh.
  unfold WriteWholeFile. rewrite Hfault.
  eexists. split; [reflexivity |].
  unfold fs_rename, fs_store. cbn [files]. rewrite lookup_insert_eq. cbn [files].
  split; [by rewrite lookup_insert_eq |].
  rewrite lookup_insert_ne by done. by rewrite lookup_delete_eq.
Qed.

(** A write that meets a fault leaves [path] as it was. *)
Lemma WriteWholeFile_fails world path data size :
  next_fault world <> NoFault ->
  exists message world',
    WriteWholeFile world path data size = (Error_ message, world') /\
    files world' !! path = files world !! path.
Proof.
  intros Hfault. pose proof (temp_path_fresh path) as Hfresh.
  unfold WriteWholeFile.
  destruct (next_fault world) as [| | n |]; [done | | |];
    do 2 eexists; (split; [reflexivity |]); cbn [files fs_remove fs_store consume_fault];
    rewrite ?lookup_delete_ne, ?lookup_insert_ne by done; done.
Qed.

Definition sample_asset_id (type name : string) : AssetId :=
  mkAssetId (Z.of_nat (String.length type)) (Z.of_nat (String.length name)).

Definition sample_asset_path (id : AssetId) (version : Z) : string :=
  if aid_name id =? 0 then "assets/unnamed.bin" else "assets/asset.bin".

Definition sample_build_context : BuildProcessorContext :=
  mkBuildContext (mkContentId "scene" "box") (sample_asset_id "scene" "box") [].

(** An output of 2^32 + 1 bytes. *)
Definition sample_large_output : list byte :=
  Byte.x01 :: replicate (Z.to_nat uint32_modulus) Byte.x02.

(** What [CreateOutput] does with one byte more than [uint32] counts. *)
Lemma CreateOutput_wraps_size (MakeAssetId : string -> string -> AssetId)
    (AssetFilePath : AssetId -> Z -> string) (context : BuildProcessorContext)
    (type : string) (version : Z) (name : string) (n : nat) :
  Z.of_nat n = uint32_modulus ->
  Z.of_nat (length (Byte.x01 :: replicate n Byte.x02)) = uint32_modulus + 1 /\
  exists world',
    CreateOutput MakeAssetId AssetFilePath (mkWorld ∅ []) context type version name
      (Byte.x01 :: replicate n Byte.x02) (uint32_modulus + 1)
    = (Success_, world',
       add_output context
         (mkOutput (mkContentId type name) (MakeAssetId type name) version)) /\
    files world' !! AssetFilePath (MakeAssetId type name) version = Some [Byte.x01] /\
    files world' !! AssetFilePath (MakeAssetId type name) version
    <> Some (Byte.x01 :: replicate n Byte.x02).
Proof.
  intros Hn.
  assert (Hlen : Z.of_nat (length (Byte.x01 :: replicate n Byte.x02))
                 = uint32_modulus + 1).
  { simpl length. rewrite length_replicate. lia. }
  split; [exact Hlen |].
  unfold CreateOutput. cbn [out_id].
  change (uint32_wrap (uint32_modulus + 1)) with 1.
  destruct (WriteWholeFile_succeeds (mkWorld ∅ [])
              (AssetFilePath (MakeAssetId type name) version)
              (Byte.x01 :: replicate n Byte.x02) 1 eq_refl)
    as (world' & -> & Hfile & _).
  exists world'. split; [reflexivity |].
  split; [exact Hfile |].
  intros Hwhole. pose proof (eq_trans (eq_sym Hfile) Hwhole) as Heq.
  destruct n as [| n']; [unfold uint32_modulus in Hn; lia | discriminate Heq].
Qed.

(** C5, as stated, fails: [CreateOutput] hands [(uint32)dataSize] to the
    write, so for an output of 2^32 + 1 bytes a write that meets no fault
    puts the first byte alone at the target path -- not the complete file
    -- and the call still returns success and adds the output record. *)
Lemma CreateOutput_truncates_large_output :
  Z.of_nat (length sample_large_output) = uint32_modulus + 1 /\
  exists world',
    CreateOutput sample_asset_id sample_asset_path (mkWorld ∅ []) sample_build_context
      "SceneResource" 1 "box" sample_large_output (uint32_modulus + 1)
    = (Success_, world',
       add_output sample_build_context
         (mkOutput (mkContentId "SceneResource" "box")
            (sample_asset_id "SceneResource" "box") 1)) /\
    files world' !! "assets/asset.bin" = Some [Byte.x01] /\
    files world' !! "assets/asset.bin" <> Some sample_large_output.
Proof.
  apply (CreateOutput_wraps_size sample_asset_id sample_asset_path sample_build_context
           "SceneResource" 1 "box" (Z.to_nat uint32_modulus)).
  apply Z2Nat.id. unfold uint32_modulus. lia.
Qed.

(** C5 (amended): for an output below 4 GiB, [CreateOutput] is all or
    nothing.  When the write meets no fault the call returns success, the
    complete data is at the target path, no temporary file is left, and
    the output record is added; when the write fails at any step the call
    returns that error, the target path is as it was before the call --
    no partly written file -- and no record is added. *)
Theorem CreateOutput_atomic (MakeAssetId : string -> string -> AssetId)
    (AssetFilePath : AssetId -> Z -> string)
    (world : World) (context : BuildProcessorContext)
    (type : string) (version : Z) (name : string) (data : list byte) (dataSize : Z) :
  0 <= dataSize < uint32_modulus ->
  Z.of_nat (length data) = dataSize ->
  let target := output_path MakeAssetId AssetFilePath type version name in
  let record := mkOutput (mkContentId type name) (MakeAssetId type name) version in
  match next_fault world with
  | NoFault =>
      exists world',
        CreateOutput MakeAssetId AssetFilePath world context type version name data
          dataSize
        = (Success_, world', add_output context record) /\
        files world' !! target = Some data /\
        files world' !! temp_path target = None
  | _ =>
      exists message world',
        CreateOutput MakeAssetId AssetFilePath world context type version name data
          dataSize
        = (Error_ message, world', context) /\
        files world' !! target = files world !! target
  end.
Proof.
  intros Hrange Hlen target record. subst target record.
  unfold output_path, CreateOutput. cbn [out_id].
  rewrite (uint32_wrap_small dataSize) by done.
  destruct (next_fault world) as [| | n |] eqn:Hfault.
  - destruct (WriteWholeFile_succeeds world
                (AssetFilePath (MakeAssetId type name) version) data dataSize Hfault)
      as (world' & -> & Hfile & Htemp).
    exists world'. split; [done |]. split; [| done].
    by rewrite Hfile, take_ge by lia.
  - destruct (WriteWholeFile_fails world
                (AssetFilePath (MakeAssetId type name) version) data dataSize)
      as (message & world' & -> & Hfile); [by rewrite Hfault |].
    by exists message, world'.
  - destruct (WriteWholeFile_fails world
                (AssetFilePath (MakeAssetId type name) version) data dataSize)
      as (message & world' & -> & Hfile); [by rewrite Hfault |].
    by exists message, world'.
  - destruct (WriteWholeFile_fails world
                (AssetFilePath (MakeAssetId type name) version) data dataSize)
      as (message & world' & -> & Hfile); [by rewrite Hfault |].
    by exists message, world'.
Qed.

Lemma CreateOutput_atomic_witness :
  (exists world',
     CreateOutput sample_asset_id sample_asset_path (mkWorld ∅ []) sample_build_context
       "SceneResource" 1 "box" [Byte.x01; Byte.x02] 2
     = (Success_, world',
        add_output sample_build_context
          (mkOutput (mkContentId "SceneResource" "box")
             (sample_asset_id "SceneResource" "box") 1)) /\
     files world' !! "assets/asset.bin" = Some [Byte.x01; Byte.x02] /\
     files world' !! temp_path "assets/asset.bin" = None)
  /\
  (exists message world',
     CreateOutput sample_asset_id sample_asset_path
       (mkWorld {["assets/asset.bin" := [Byte.x07]]} [WriteFailsAfter 1])
       sample_build_context "SceneResource" 1 "box" [Byte.x01; Byte.x02] 2
     = (Error_ message, world', sample_build_context) /\
     files world' !! "assets/asset.bin" = Some [Byte.x07]).
Proof.
  split.
  - exact (CreateOutput_atomic sample_asset_id sample_asset_path (mkWorld ∅ [])
             sample_build_context "SceneResource" 1 "box" [Byte.x01; Byte.x02] 2
             ltac:(unfold uint32_modulus; lia) eq_refl).
  - destruct (CreateOutput_atomic sample_asset_id sample_asset_path
                (mkWorld {["assets/asset.bin" := [Byte.x07]]} [WriteFailsAfter 1])
                sample_build_context "SceneResource" 1 "box" [Byte.x01; Byte.x02] 2
                ltac:(unfold uint32_modulus; lia) eq_refl)
      as (message & world' & Hrun & Hfile).
    exists message, world'. split; [exact Hrun |].
    etrans; [exact Hfile |]. apply lookup_singleton_eq.
Defined.

(** ** Material lookup *)

Import Model.

(** An array sorted by hash. *)
Definition sorted_hashes (hashes : list Z) : Prop :=
  forall (i j : nat) (a b : Z),
    (i <= j)%nat -> hashes !! i = Some a -> hashes !! j = Some b -> a <= b.

Lemma BinarySearch_loop_spec (data : list Z) (value : Z) :
  sorted_hashes data ->
  forall (fuel : nat) (low high : Z),
    0 <= low -> high < Z.of_nat (length data) ->
    high - low + 1 <= Z.of_nat fuel ->
    (BinarySearch_loop fuel data low high value = uint_minus_one /\
     forall i, low <= Z.of_nat i <= high -> data !! i <> Some value)
    \/
    (low <= BinarySearch_loop fuel data low high value <= high /\
     data !! Z.to_nat (BinarySearch_loop fuel data low high value) = Some value).
Proof.
  intros Hsorted. induction fuel as [| fuel IH]; intros low high Hlow Hhigh Hfuel.
  - left. split; [done |]. intros i Hi. lia.
  - cbn [BinarySearch_loop].
    destruct (Z.ltb_spec high low) as [Hempty | Hnonempty].
    { left. split; [done |]. intros i Hi. lia. }
    set (mid := (low + high) / 2).
    assert (Hmid : low <= mid <= high).
    { subst mid. split; [apply Z.div_le_lower_bound; lia | apply Z.div_le_upper_bound; lia]. }
    destruct (lookup_lt_is_Some_2 data (Z.to_nat mid) ltac:(lia)) as [x Hx].
    rewrite Hx.
    destruct (Z.ltb_spec x value) as [Hless | Hnotless].
    + destruct (IH (mid + 1) high ltac:(lia) Hhigh ltac:(lia)) as [[Hr Hnone] | [Hr Hfound]].
      * left. split; [done |]. intros i Hi.
        destruct (Z_le_dec (Z.of_nat i) mid) as [Hle | Hgt]; [| apply Hnone; lia].
        intros Hi'. pose proof (Hsorted i (Z.to_nat mid) value x ltac:(lia) Hi' Hx). lia.
      * right. split; [lia | done].
    + destruct (Z.ltb_spec value x) as [Hmore | Hnotmore].
      * destruct (IH low (mid - 1) Hlow ltac:(lia) ltac:(lia)) as [[Hr Hnone] | [Hr Hfound]].
        -- left. split; [done |]. intros i Hi.
           destruct (Z_le_dec mid (Z.of_nat i)) as [Hge | Hlt]; [| apply Hnone; lia].
           intros Hi'. pose proof (Hsorted (Z.to_nat mid) i x value ltac:(lia) Hx Hi'). lia.
        -- right. split; [lia | done].
      * right. split; [done |]. rewrite Hx. f_equal. lia.
Qed.

Lemma BinarySearch_spec (data : list Z) (value : Z) :
  sorted_hashes data ->
  (BinarySearch data (Z.of_nat (length data)) value = uint_minus_one /\ value ∉ data)
  \/
  (exists i : nat,
     BinarySearch data (Z.of_nat (length data)) value = Z.of_nat i /\
     data !! i = Some value).
Proof.
  intros Hsorted. unfold BinarySearch.
  destruct (BinarySearch_loop_spec data value Hsorted (Z.to_nat (Z.of_nat (length data)))
              0 (Z.of_nat (length data) - 1) ltac:(lia) ltac:(lia) ltac:(lia))
    as [[Hr Hnone] | [Hr Hfound]].
  - left. split; [done |]. intros Hin.
    apply list_elem_of_lookup in Hin as [i Hi].
    pose proof (lookup_lt_Some _ _ _ Hi). apply (Hnone i); [lia | done].
  - right. eexists. split; [| exact Hfound]. lia.
Qed.

(** [0.6f] and [1.5f] as binary32 numbers: [0x3F19999A] and [0x3FC00000]. *)
Definition float_0_6 : float := S754_finite false 10066330 (-24).
Definition float_1_5 : float := S754_finite false 12582912 (-23).

(** C9: in a model set up by [InitializeModelResource], with the material
    array sorted by hash, [FindMeshMaterial] gives a material whose hash is
    the one asked for whenever there is one, and otherwise -- also with no
    materials at all -- the default material: base colour
    (0.6, 0.6, 0.6), shader Disney solid, ior 1.5. *)
Theorem FindMeshMaterial_lookup (Material_new : Material)
    (ReadTextureResource : string -> Error * option TextureResource)
    (model0 model : ModelResource)
    (materialHash : Z) :
  InitializeModelResource Material_new ReadTextureResource model0 = (Success_, model) ->
  sorted_hashes (materialHashes (data model)) ->
  length (materialHashes (data model)) = length (materials (data model)) ->
  Z.of_nat (length (materials (data model))) < uint_minus_one ->
  (materialHash ∈ materialHashes (data model) ->
   exists (i : nat) (material : Material),
     FindMeshMaterial model materialHash = MaterialAt (Z.of_nat i) /\
     materialHashes (data model) !! i = Some materialHash /\
     materials (data model) !! i = Some material /\
     deref model (FindMeshMaterial model materialHash) = Done material) /\
  (materialHash ∉ materialHashes (data model) ->
   FindMeshMaterial model materialHash = DefaultMaterialRef /\
   deref model (FindMeshMaterial model materialHash)
   = Done (CreateDefaultMaterial Material_new)) /\
  baseColor (CreateDefaultMaterial Material_new)
  = mkFloat3 float_0_6 float_0_6 float_0_6 /\
  shader (CreateDefaultMaterial Material_new) = eDisneySolid /\
  scalarAttributeValues (CreateDefaultMaterial Material_new) eIor = float_1_5.
Proof.
  intros Hinit Hsorted Hlen Hfits.
  assert (Hdefault : defaultMaterial model = Some (CreateDefaultMaterial Material_new)
                     /\ data model = data model0).
  { unfold InitializeModelResource in Hinit.
    destruct (read_textures _ _ _ _) as [[| message] slots]; [| discriminate].
    by injection Hinit as <-. }
  destruct Hdefault as [Hdefault _].
  unfold FindMeshMaterial, deref. rewrite Hdefault.
  split; [| split; [| done]].
  - intros Hin.
    destruct (Z.eqb_spec (Z.of_nat (length (materials (data model)))) 0) as [Hzero | _].
    { destruct (materialHashes (data model)); [by apply not_elem_of_nil in Hin |].
      simpl in Hlen. lia. }
    rewrite <- Hlen.
    destruct (BinarySearch_spec _ materialHash Hsorted) as [[_ Hnot] | (i & -> & Hi)];
      [done |].
    pose proof (lookup_lt_Some _ _ _ Hi) as Hlt.
    destruct (lookup_lt_is_Some_2 (materials (data model)) i ltac:(lia)) as [material Hm].
    destruct (Z.eqb_spec (Z.of_nat i) uint_minus_one) as [Hbad | _]; [lia |].
    exists i, material. repeat split; try done.
    by apply array_load_in_range; [lia | rewrite Nat2Z.id].
  - intros Hnot.
    destruct (Z.eqb_spec (Z.of_nat (length (materials (data model)))) 0) as [Hzero | _];
      [done |].
    rewrite <- Hlen.
    destruct (BinarySearch_spec _ materialHash Hsorted) as [[-> _] | (i & _ & Hi)].
    + by rewrite Z.eqb_refl.
    + exfalso. apply Hnot. by apply list_elem_of_lookup_2 in Hi.
Qed.

(** ** Registering meshes with the traversal backend *)

(** The geometry a call to the backend is about. *)
Definition about (c : RtcCall) : Z :=
  match c with
  | rtcNewGeometry _ _ g => g
  | rtcSetSharedGeometryBuffer g _ _ _ _ _ _ _ => g
  | rtcSetGeometryVertexAttributeCount g _ => g
  | rtcSetGeometryDisplacementFunction g _ => g
  | rtcSetGeometryTessellationRate g _ => g
  | rtcSetGeometrySubdivisionMode g _ _ => g
  | rtcSetGeometryIntersectFilterFunction g _ => g
  | rtcSetGeometryUserData g _ => g
  | rtcCommitGeometry g => g
  | rtcAttachGeometryByID _ g _ => g
  | rtcReleaseGeometry g => g
  end.

(** What the backend is told about geometry [g]: the types it is created
    with, the displacement functions and the tessellation rates set on it. *)
Definition type_view (g : Z) (c : RtcCall) : option RTCGeometryType :=
  match c with
  | rtcNewGeometry _ type g' => if g' =? g then Some type else None
  | _ => None
  end.

Definition displacement_view (g : Z) (c : RtcCall) : option Callback :=
  match c with
  | rtcSetGeometryDisplacementFunction g' f => if g' =? g then Some f else None
  | _ => None
  end.

Definition tessellation_view (g : Z) (c : RtcCall) : option float :=
  match c with
  | rtcSetGeometryTessellationRate g' rate => if g' =? g then Some rate else None
  | _ => None
  end.

Definition index_view (g : Z) (c : RtcCall) : option RTCFormat :=
  match c with
  | rtcSetSharedGeometryBuffer g' RTC_BUFFER_TYPE_INDEX _ format _ _ _ _ =>
      if g' =? g then Some format else None
  | _ => None
  end.

(** The calls of [SetMeshVertexAttributes]: vertex buffers only. *)
Definition vertex_setup (g : Z) (c : RtcCall) : Prop :=
  match c with
  | rtcSetSharedGeometryBuffer g' RTC_BUFFER_TYPE_VERTEX _ _ _ _ _ _
  | rtcSetSharedGeometryBuffer g' RTC_BUFFER_TYPE_VERTEX_ATTRIBUTE _ _ _ _ _ _
  | rtcSetGeometryVertexAttributeCount g' _ => g' = g
  | _ => False
  end.

Lemma SetMeshVertexAttributes_calls asserts e g model e' :
  SetMeshVertexAttributes asserts e g model = Done e' ->
  nextGeometry e' = nextGeometry e /\
  exists X, calls e' = calls e ++ X /\ Forall (vertex_setup g) X.
Proof.
  unfold SetMeshVertexAttributes.
  destruct asserts;
    destruct (aligned (positions (geometry model)));
    destruct (aligned (normals (geometry model)));
    destruct (aligned (tangents (geometry model)));
    destruct (aligned (uvs (geometry model)));
    destruct (0 <? normalsSize (geometry model));
    destruct (0 <? tangentsSize (geometry model));
    destruct (0 <? uvsSize (geometry model));
    simpl; intros [= <-]; simpl; (split; [reflexivity |]);
    rewrite <- ?app_assoc; (eexists; split; [reflexivity |]);
    repeat (constructor; simpl; try done).
Qed.

Lemma vertex_setup_about g c : vertex_setup g c -> about c = g.
Proof. destruct c as [| ? [] | | | | | | | | |]; simpl; done. Qed.

Lemma vertex_setup_type_view g g' c : vertex_setup g c -> type_view g' c = None.
Proof. by destruct c. Qed.

Lemma vertex_setup_displacement_view g g' c :
  vertex_setup g c -> displacement_view g' c = None.
Proof. by destruct c. Qed.

Lemma vertex_setup_tessellation_view g g' c :
  vertex_setup g c -> tessellation_view g' c = None.
Proof. by destruct c. Qed.

Lemma vertex_setup_index_view g g' c : vertex_setup g c -> index_view g' c = None.
Proof. by destruct c as [| ? [] | | | | | | | | |]. Qed.

Lemma other_type_view g c : about c <> g -> type_view g c = None.
Proof. destruct c; simpl; try done. intros Hne. by destruct (Z.eqb_spec result g). Qed.

Lemma other_displacement_view g c : about c <> g -> displacement_view g c = None.
Proof. destruct c; simpl; try done. intros Hne. by destruct (Z.eqb_spec geom g). Qed.

Lemma other_tessellation_view g c : about c <> g -> tessellation_view g c = None.
Proof. destruct c; simpl; try done. intros Hne. by destruct (Z.eqb_spec geom g). Qed.

Lemma other_index_view g c : about c <> g -> index_view g c = None.
Proof.
  destruct c as [| ? [] | | | | | | | | |]; simpl; try done.
  intros Hne. by destruct (Z.eqb_spec geom g).
Qed.

Lemma deref_same model model' r :
  data model' = data model -> defaultMaterial model' = defaultMaterial model ->
  deref model' r = deref model r.
Proof. intros Hd Hm. unfold deref. by rewrite Hd, Hm. Qed.

Lemma FindMeshMaterial_same model model' materialHash :
  data model' = data model ->
  FindMeshMaterial model' materialHash = FindMeshMaterial model materialHash.
Proof. intros Hd. unfold FindMeshMaterial. by rewrite Hd. Qed.

Lemma omap_none {A} (f : RtcCall -> option A) (P : RtcCall -> Prop) X :
  (forall c, P c -> f c = None) -> Forall P X -> omap f X = [].
Proof.
  intros HP. induction 1 as [| c X Hc _ IH]; simpl; [done |]. by rewrite (HP c Hc).
Qed.

Section Meshes.

Variable eDisplacementEnabled eAlphaTested HasNormals HasTangents HasUvs : Z.

#[local] Abbreviation hasDisplacement := (Model.hasDisplacement eDisplacementEnabled).
#[local] Abbreviation register_mesh :=
  (Model.register_mesh eDisplacementEnabled eAlphaTested HasNormals HasTangents HasUvs).
#[local] Abbreviation register_meshes :=
  (Model.register_meshes eDisplacementEnabled eAlphaTested HasNormals HasTangents HasUvs).
#[local] Abbreviation InitializeMeshes :=
  (Model.InitializeMeshes eDisplacementEnabled eAlphaTested HasNormals HasTangents HasUvs).

(** The geometry type a mesh is to be registered with. *)
Definition mesh_geometry_type (gate : Z) (material : Material) (meshData : MeshMetaData)
    : RTCGeometryType :=
  if hasDisplacement gate material then RTC_GEOMETRY_TYPE_SUBDIVISION
  else if indicesPerFace meshData =? 3 then RTC_GEOMETRY_TYPE_TRIANGLE
  else RTC_GEOMETRY_TYPE_QUAD.

(** The format of the index buffer a mesh is to be registered with. *)
Definition mesh_index_format (gate : Z) (material : Material) (meshData : MeshMetaData)
    : RTCFormat :=
  if hasDisplacement gate material then RTC_FORMAT_UINT
  else if indicesPerFace meshData =? 3 then RTC_FORMAT_UINT3
  else RTC_FORMAT_UINT4.

(** Geometry [g] is registered for the mesh in the calls [X]: created once,
    with the mesh's geometry type, and with the displacement function and
    the tessellation rate exactly when the mesh is displaced. *)
Definition registered (gate : Z) (material : Material) (meshData : MeshMetaData)
    (g : Z) (X : list RtcCall) : Prop :=
  omap (type_view g) X = [mesh_geometry_type gate material meshData] /\
  omap (displacement_view g) X
  = (if hasDisplacement gate material then [DisplacementFunction] else []) /\
  omap (tessellation_view g) X
  = (if hasDisplacement gate material then [TessellationRate_] else []) /\
  omap (index_view g) X = [mesh_index_format gate material meshData].

Lemma register_mesh_spec asserts gate offset rtcDevice rtcScene model e scan meshData
    model' e' :
  register_mesh asserts gate offset rtcDevice rtcScene (model, e) scan meshData
  = Done (model', e') ->
  exists material X,
    deref model (FindMeshMaterial model (materialHash meshData)) = Done material /\
    calls e' = calls e ++ X /\
    nextGeometry e' = nextGeometry e + 1 /\
    Forall (fun c => about c = nextGeometry e) X /\
    registered gate material meshData (nextGeometry e) X /\
    data model' = data model /\
    defaultMaterial model' = defaultMaterial model /\
    rtcGeometries model' = rtcGeometries model ++ [nextGeometry e].
Proof.
  unfold Model.register_mesh.
  destruct (deref model _) as [material |]; simpl; [| discriminate].
  intros Hrun. exists material.
  unfold registered, mesh_geometry_type, mesh_index_format.
  destruct (hasDisplacement gate material); simpl in Hrun;
    (destruct (SetMeshVertexAttributes _ _ _ _) as [e1 |] eqn:Hsetup; simpl in Hrun;
       [| discriminate]);
    apply SetMeshVertexAttributes_calls in Hsetup as (Hnext & X1 & Hcalls & HX1);
    simpl in Hnext, Hcalls;
    (destruct (udiv _ _) as [faces |]; simpl in Hrun; [| discriminate]);
    injection Hrun as <- <-;
    destruct (negb (Z.land (flags material) eAlphaTested =? 0));
    simpl; rewrite Hcalls, <- ?app_assoc;
    (eexists; split; [reflexivity |]; split; [reflexivity |]);
    (split; [exact Hnext |]);
    (split; [apply Forall_app; split;
               [by repeat constructor
               | apply Forall_app; split;
                   [eapply Forall_impl; [exact HX1 | apply vertex_setup_about]
                   | by repeat constructor]] |]);
    (split; [| done]);
    rewrite !omap_app,
      (omap_none _ _ _ (vertex_setup_type_view (nextGeometry e) (nextGeometry e)) HX1),
      (omap_none _ _ _ (vertex_setup_displacement_view (nextGeometry e) (nextGeometry e)) HX1),
      (omap_none _ _ _ (vertex_setup_tessellation_view (nextGeometry e) (nextGeometry e)) HX1),
      (omap_none _ _ _ (vertex_setup_index_view (nextGeometry e) (nextGeometry e)) HX1);
    simpl; rewrite !Z.eqb_refl; done.
Qed.

Lemma registered_among gate material meshData g before X after :
  Forall (fun c => about c <> g) before ->
  Forall (fun c => about c <> g) after ->
  registered gate material meshData g X ->
  registered gate material meshData g (before ++ X ++ after).
Proof.
  intros Hb Ha (Ht & Hd & Hr & Hi). unfold registered.
  rewrite !omap_app, Ht, Hd, Hr, Hi.
  rewrite (omap_none _ _ _ (other_type_view g) Hb),
    (omap_none _ _ _ (other_type_view g) Ha),
    (omap_none _ _ _ (other_displacement_view g) Hb),
    (omap_none _ _ _ (other_displacement_view g) Ha),
    (omap_none _ _ _ (other_tessellation_view g) Hb),
    (omap_none _ _ _ (other_tessellation_view g) Ha),
    (omap_none _ _ _ (other_index_view g) Hb),
    (omap_none _ _ _ (other_index_view g) Ha).
  by rewrite !app_nil_r.
Qed.

Lemma register_meshes_spec asserts gate offset rtcDevice rtcScene :
  forall todo model e scan model' e',
    register_meshes asserts gate offset rtcDevice rtcScene (model, e) scan todo
    = Done (model', e') ->
    data model' = data model /\
    defaultMaterial model' = defaultMaterial model /\
    nextGeometry e' = nextGeometry e + Z.of_nat (length todo) /\
    exists G X,
      rtcGeometries model' = rtcGeometries model ++ G /\
      calls e' = calls e ++ X /\
      Forall (fun c => nextGeometry e <= about c < nextGeometry e + Z.of_nat (length todo)) X /\
      forall (i : nat) meshData,
        todo !! i = Some meshData ->
        exists material,
          deref model (FindMeshMaterial model (materialHash meshData)) = Done material /\
          G !! i = Some (nextGeometry e + Z.of_nat i) /\
          registered gate material meshData (nextGeometry e + Z.of_nat i) X.
Proof.
  induction todo as [| meshData rest IH]; intros model e scan model' e' Hrun.
  - injection Hrun as <- <-. repeat split; [simpl; lia |].
    exists [], []. rewrite !app_nil_r. repeat split; try done.
  - cbn [Model.register_meshes] in Hrun.
    destruct (register_mesh _ _ _ _ _ _ _ _) as [[model1 e1] |] eqn:Hfirst;
      simpl in Hrun; [| discriminate].
    apply register_mesh_spec in Hfirst
      as (material & X0 & Hderef & Hcalls0 & Hnext0 & Habout0 & Hreg0 & Hdata0 & Hdef0 & Hgeo0).
    apply IH in Hrun as (Hdata & Hdef & Hnext & G & X & Hgeo & Hcalls & Habout & Hrest).
    split; [congruence |]. split; [congruence |].
    split; [simpl length; lia |].
    exists (nextGeometry e :: G), (X0 ++ X).
    split; [rewrite Hgeo, Hgeo0, <- app_assoc; done |].
    split; [rewrite Hcalls, Hcalls0, <- app_assoc; done |].
    split.
    { apply Forall_app. split.
      - eapply Forall_impl; [exact Habout0 |]. simpl. intros c ->. lia.
      - eapply Forall_impl; [exact Habout |]. simpl. intros c Hc. lia. }
    intros [| i] md Hmd; simpl in Hmd.
    + injection Hmd as <-. exists material. split; [done |].
      split; [simpl; f_equal; lia |].
      replace (nextGeometry e + Z.of_nat 0) with (nextGeometry e) by lia.
      rewrite <- (app_nil_l (X0 ++ X)). apply registered_among; [done | | done].
      eapply Forall_impl; [exact Habout |]. simpl. intros c Hc. lia.
    + destruct (Hrest i md Hmd) as (material' & Hderef' & HG & Hreg').
      exists material'.
      rewrite (FindMeshMaterial_same model model1), (deref_same model model1) in Hderef'
        by done.
      split; [done |].
      replace (nextGeometry e + Z.of_nat (S i)) with (nextGeometry e1 + Z.of_nat i) by lia.
      split; [done |].
      replace (X0 ++ X) with (X0 ++ X ++ []) by (by rewrite app_nil_r).
      apply registered_among; [| done | done].
      eapply Forall_impl; [exact Habout0 |]. simpl. intros c ->. lia.
Qed.


(** C8: every mesh that [InitializeMeshes] registers gets one geometry of
    the backend, and that geometry is a subdivision geometry, with the
    displacement function and the tessellation rate set, exactly when the
    mesh's material has the displacement flag and the build-time gate is
    on; otherwise it is a triangle geometry with [uint3] indices when
    [indicesPerFace = 3] and a quad geometry with [uint4] indices when
    [indicesPerFace = 4], with no displacement function and no
    tessellation rate. *)
Theorem InitializeMeshes_geometry_kinds (asserts : bool) (gate : Z)
    (model : ModelResource) (e : Embree) (offset rtcDevice rtcScene : Z)
    (next : Z) (model' : ModelResource) (e' : Embree) :
  Forall (fun c => about c < nextGeometry e) (calls e) ->
  Z.of_nat (length (meshes (data model))) < uint32_modulus ->
  InitializeMeshes asserts gate model e offset rtcDevice rtcScene
  = Done (next, model', e') ->
  forall (i : nat) (meshData : MeshMetaData),
    meshes (data model) !! i = Some meshData ->
    exists (material : Material) (g : Z),
      deref model (FindMeshMaterial model (materialHash meshData)) = Done material /\
      rtcGeometries model' !! (length (rtcGeometries model) + i)%nat = Some g /\
      (hasDisplacement gate material = true <->
       Z.land (flags material) eDisplacementEnabled <> 0 /\ gate <> 0) /\
      (hasDisplacement gate material = true ->
       omap (type_view g) (calls e') = [RTC_GEOMETRY_TYPE_SUBDIVISION] /\
       omap (displacement_view g) (calls e') = [DisplacementFunction] /\
       omap (tessellation_view g) (calls e') = [TessellationRate_]) /\
      (hasDisplacement gate material = false ->
       omap (displacement_view g) (calls e') = [] /\
       omap (tessellation_view g) (calls e') = [] /\
       (indicesPerFace meshData = 3 ->
        omap (type_view g) (calls e') = [RTC_GEOMETRY_TYPE_TRIANGLE] /\
        omap (index_view g) (calls e') = [RTC_FORMAT_UINT3]) /\
       (indicesPerFace meshData = 4 ->
        omap (type_view g) (calls e') = [RTC_GEOMETRY_TYPE_QUAD] /\
        omap (index_view g) (calls e') = [RTC_FORMAT_UINT4])) /\
      hasDisplacement EnableDisplacement_ material = false.
Proof.
  intros Hfresh Hcount Hrun i meshData Hmesh.
  revert Hrun. unfold Model.InitializeMeshes.
  destruct (Assert_ asserts (aligned (Model.indices (geometry model)))); simpl;
    [| discriminate].
  destruct (Assert_ asserts _); simpl; [| discriminate].
  rewrite uint32_wrap_small, Nat2Z.id, firstn_all by (unfold is_uint32; lia).
  destruct (register_meshes _ _ _ _ _ _ _ _) as [[model1 e1] |] eqn:Hloop;
    simpl; [| discriminate].
  intros [= _ -> ->].
  apply register_meshes_spec in Hloop
    as (_ & _ & _ & G & X & Hgeo & Hcalls & _ & Hall).
  destruct (Hall i meshData Hmesh) as (material & Hderef & HG & Hreg).
  exists material, (nextGeometry e + Z.of_nat i).
  split; [done |].
  split; [rewrite Hgeo, lookup_app_r by lia; rewrite <- HG; f_equal; lia |].
  assert (Hview : registered gate material meshData (nextGeometry e + Z.of_nat i)
                    (calls e')).
  { rewrite Hcalls. replace (calls e ++ X) with (calls e ++ X ++ []) by (by rewrite app_nil_r).
    apply registered_among; [| done | done].
    eapply Forall_impl; [exact Hfresh |]. simpl. intros c Hc. lia. }
  destruct Hview as (Htype & Hdisp & Htess & Hindex).
  unfold mesh_geometry_type, mesh_index_format in *.
  split.
  { unfold Model.hasDisplacement. rewrite andb_true_iff, !negb_true_iff, !Z.eqb_neq. done. }
  split; [intros Hyes; rewrite Hyes in *; done |].
  split; [| unfold Model.hasDisplacement, EnableDisplacement_; simpl; apply andb_false_r].
  intros Hno. rewrite Hno in *. split; [done |]. split; [done |].
  split; intros Hipf; rewrite Hipf in *; done.
Qed.

End Meshes.

(** *** When the registration runs to its end *)

Lemma BinarySearch_loop_range (data : list Z) (value : Z) :
  forall (fuel : nat) (low high : Z),
    BinarySearch_loop fuel data low high value = uint_minus_one \/
    low <= BinarySearch_loop fuel data low high value <= high.
Proof.
  induction fuel as [| fuel IH]; intros low high; [by left |].
  cbn [BinarySearch_loop].
  destruct (Z.ltb_spec high low) as [Hempty | Hnonempty]; [by left |].
  assert (Hmid : low <= (low + high) / 2 <= high).
  { split; [apply Z.div_le_lower_bound; lia | apply Z.div_le_upper_bound; lia]. }
  destruct (data !! Z.to_nat ((low + high) / 2)) as [x |]; [| by left].
  destruct (x <? value).
  - destruct (IH ((low + high) / 2 + 1) high) as [-> | Hr]; [by left | right; lia].
  - destruct (value <? x); [| by right].
    destruct (IH low ((low + high) / 2 - 1)) as [-> | Hr]; [by left | right; lia].
Qed.

Lemma deref_FindMeshMaterial model materialHash :
  is_Some (defaultMaterial model) ->
  exists material, deref model (FindMeshMaterial model materialHash) = Done material.
Proof.
  intros [m0 Hdefault]. unfold FindMeshMaterial.
  destruct (Z.of_nat (length (materials (data model))) =? 0).
  { exists m0. simpl. by rewrite Hdefault. }
  destruct (Z.eqb_spec (BinarySearch (materialHashes (data model))
                          (Z.of_nat (length (materials (data model)))) materialHash)
                       uint_minus_one) as [| Hfound].
  { exists m0. simpl. by rewrite Hdefault. }
  unfold BinarySearch in *.
  destruct (BinarySearch_loop_range (materialHashes (data model)) materialHash
              (Z.to_nat (Z.of_nat (length (materials (data model))))) 0
              (Z.of_nat (length (materials (data model))) - 1)) as [| Hrange]; [done |].
  destruct (lookup_lt_is_Some_2 (materials (data model))
              (Z.to_nat (BinarySearch_loop
                           (Z.to_nat (Z.of_nat (length (materials (data model)))))
                           (materialHashes (data model)) 0
                           (Z.of_nat (length (materials (data model))) - 1) materialHash))
              ltac:(lia)) as [material Hm].
  exists material. simpl. apply array_load_in_range; [lia | done].
Qed.

(** The assertions of [SetMeshVertexAttributes] hold (or are compiled
    out). *)
Definition attributes_ok (asserts : bool) (model : ModelResource) : bool :=
  negb asserts
  || (aligned (positions (geometry model)) && aligned (normals (geometry model))
      && aligned (tangents (geometry model)) && aligned (uvs (geometry model))
      && implb (0 <? tangentsSize (geometry model)) (0 <? normalsSize (geometry model))
      && implb (0 <? uvsSize (geometry model))
               ((0 <? normalsSize (geometry model)) && (0 <? tangentsSize (geometry model)))).

Lemma SetMeshVertexAttributes_completes asserts e g model :
  attributes_ok asserts model = true ->
  exists e', SetMeshVertexAttributes asserts e g model = Done e'.
Proof.
  unfold attributes_ok, SetMeshVertexAttributes.
  destruct asserts;
    destruct (aligned (positions (geometry model)));
    destruct (aligned (normals (geometry model)));
    destruct (aligned (tangents (geometry model)));
    destruct (aligned (uvs (geometry model)));
    destruct (0 <? normalsSize (geometry model));
    destruct (0 <? tangentsSize (geometry model));
    destruct (0 <? uvsSize (geometry model));
    simpl; intros Hok; try discriminate; by eexists.
Qed.

Section Completion.

Variable eDisplacementEnabled eAlphaTested HasNormals HasTangents HasUvs : Z.

#[local] Abbreviation register_mesh :=
  (Model.register_mesh eDisplacementEnabled eAlphaTested HasNormals HasTangents HasUvs).
#[local] Abbreviation register_meshes :=
  (Model.register_meshes eDisplacementEnabled eAlphaTested HasNormals HasTangents HasUvs).
#[local] Abbreviation InitializeMeshes :=
  (Model.InitializeMeshes eDisplacementEnabled eAlphaTested HasNormals HasTangents HasUvs).

Lemma register_mesh_completes asserts gate offset rtcDevice rtcScene model e scan meshData :
  is_Some (defaultMaterial model) ->
  attributes_ok asserts model = true ->
  indicesPerFace meshData <> 0 ->
  exists userData e',
    register_mesh asserts gate offset rtcDevice rtcScene (model, e) scan meshData
    = Done (add_geometry model (nextGeometry e) userData, e').
Proof.
  intros Hdefault Hok Hipf. unfold Model.register_mesh.
  destruct (deref_FindMeshMaterial model (materialHash meshData) Hdefault)
    as [material ->]. simpl.
  unfold udiv. destruct (Z.eqb_spec (indicesPerFace meshData) 0) as [| _]; [done |].
  destruct (Model.hasDisplacement _ gate material); simpl.
  - destruct (SetMeshVertexAttributes_completes asserts
                (mkEmbree (nextGeometry e + 1)
                   (calls e ++ [rtcNewGeometry rtcDevice RTC_GEOMETRY_TYPE_SUBDIVISION
                                  (nextGeometry e)]))
                (nextGeometry e) model Hok) as [e1 ->].
    simpl. by do 2 eexists.
  - destruct (SetMeshVertexAttributes_completes asserts
                (mkEmbree (nextGeometry e + 1)
                   (calls e ++ [rtcNewGeometry rtcDevice
                                  (if indicesPerFace meshData =? 3
                                   then RTC_GEOMETRY_TYPE_TRIANGLE
                                   else RTC_GEOMETRY_TYPE_QUAD)
                                  (nextGeometry e)]))
                (nextGeometry e) model Hok) as [e1 ->].
    simpl. by do 2 eexists.
Qed.

Lemma register_meshes_completes asserts gate offset rtcDevice rtcScene :
  forall todo model e scan,
    is_Some (defaultMaterial model) ->
    attributes_ok asserts model = true ->
    Forall (fun meshData => indicesPerFace meshData <> 0) todo ->
    exists st',
      register_meshes asserts gate offset rtcDevice rtcScene (model, e) scan todo
      = Done st'.
Proof.
  induction todo as [| meshData rest IH]; intros model e scan Hdefault Hok Hipf.
  - by eexists.
  - apply Forall_cons in Hipf as [Hfirst Hrest]. cbn [Model.register_meshes].
    destruct (register_mesh_completes asserts gate offset rtcDevice rtcScene model e scan
                meshData Hdefault Hok Hfirst) as (userData & e1 & ->).
    simpl. by apply IH.
Qed.

(** [InitializeMeshes] runs to its end when the default material is set,
    no mesh has zero indices per face and the assertions hold or are
    compiled out. *)
Lemma InitializeMeshes_completes asserts gate model e offset rtcDevice rtcScene :
  is_Some (defaultMaterial model) ->
  attributes_ok asserts model = true ->
  negb asserts
  || (aligned (Model.indices (geometry model))
      && aligned (Model.faceIndexCounts (geometry model))) = true ->
  Forall (fun meshData => indicesPerFace meshData <> 0) (meshes (data model)) ->
  exists model' e',
    InitializeMeshes asserts gate model e offset rtcDevice rtcScene
    = Done (uint32_add offset (uint32_wrap (Z.of_nat (length (meshes (data model))))),
            model', e').
Proof.
  intros Hdefault Hok Haligned Hipf. unfold Model.InitializeMeshes.
  assert (Hasserts :
            Assert_ asserts (aligned (Model.indices (geometry model))) = Done tt /\
            Assert_ asserts (aligned (Model.faceIndexCounts (geometry model))) = Done tt).
  { unfold Assert_. destruct asserts; [| done]. simpl in Haligned.
    apply andb_true_iff in Haligned as [-> ->]. done. }
  destruct Hasserts as [-> ->]. simpl.
  destruct (register_meshes_completes asserts gate offset rtcDevice rtcScene
              (take (Z.to_nat (uint32_wrap (Z.of_nat (length (meshes (data model))))))
                 (meshes (data model)))
              model e 0 Hdefault Hok) as [[model' e'] ->].
  { by apply Forall_take. }
  simpl. by do 2 eexists.
Qed.

End Completion.

(** *** A small model *)

Definition sample_material (flags : Z) : Material :=
  mkMaterial float3_zero eDisneyThin (fun _ => fzero) flags [].

Definition sample_mesh (hash indicesPerFace : Z) : MeshMetaData :=
  mkMeshMeta 12 0 8 0 hash indicesPerFace 0.

(** Two materials, the second with the displacement flag (bit 1), and
    three meshes: triangles with the first material, quads with the second,
    quads with a material that is not in the array. *)
Definition sample_model_data : ModelResourceData :=
  mkModelData 8 0 [] [sample_material 0; sample_material 1] [10; 20]
    [sample_mesh 10 3; sample_mesh 20 4; sample_mesh 99 4].

Definition sample_geometry : ModelGeometryData :=
  mkGeometryData 48 0 96 0 0 0 4096 4160 4176 0 0 0.

Definition sample_model : ModelResource :=
  mkModel sample_model_data sample_geometry None None [] [].

Definition sample_initialized_model : ModelResource :=
  (InitializeModelResource (sample_material 0) (fun _ => (Success_, None))
     sample_model).2.

Lemma sample_hashes_sorted : sorted_hashes (materialHashes (data sample_initialized_model)).
Proof.
  intros i j a b Hij Hi Hj.
  destruct i as [| [| i]], j as [| [| j]]; simpl in Hi, Hj; simplify_eq; lia.
Qed.

Lemma FindMeshMaterial_lookup_witness :
  FindMeshMaterial sample_initialized_model 99 = DefaultMaterialRef /\
  exists i material,
    FindMeshMaterial sample_initialized_model 20 = MaterialAt (Z.of_nat i) /\
    materialHashes (data sample_initialized_model) !! i = Some 20 /\
    materials (data sample_initialized_model) !! i = Some material.
Proof.
  destruct (FindMeshMaterial_lookup (sample_material 0) (fun _ => (Success_, None))
              sample_model sample_initialized_model 99 eq_refl sample_hashes_sorted
              eq_refl eq_refl) as (_ & Hmiss & _).
  destruct (FindMeshMaterial_lookup (sample_material 0) (fun _ => (Success_, None))
              sample_model sample_initialized_model 20 eq_refl sample_hashes_sorted
              eq_refl eq_refl) as (Hhit & _ & _).
  split.
  - apply Hmiss. intros Hin. repeat (apply elem_of_cons in Hin as [Hin | Hin]; [lia |]).
    by apply not_elem_of_nil in Hin.
  - assert (Hin : 20 ∈ materialHashes (data sample_initialized_model)).
    { apply elem_of_cons. right. apply elem_of_cons. by left. }
    destruct (Hhit Hin) as (i & material & Hfind & Hhash & Hmat & _).
    by exists i, material.
Defined.

(** The run of [InitializeMeshes] on the small model, with assertions and
    the displacement gate on. *)
Definition sample_registration : Outcome (Z * ModelResource * Embree) :=
  InitializeMeshes 1 2 1 2 4 true 1 sample_initialized_model (mkEmbree 0 []) 0 7 9.

Lemma InitializeMeshes_geometry_kinds_witness :
  match sample_registration with
  | Done (_, model', e') =>
      exists g,
        rtcGeometries model' !! 1%nat = Some g /\
        omap (type_view g) (calls e') = [RTC_GEOMETRY_TYPE_SUBDIVISION] /\
        omap (tessellation_view g) (calls e') = [TessellationRate_]
  | Crash _ => False
  end.
Proof.
  destruct sample_registration as [[[next model'] e'] | fault] eqn:Hrun;
    [| vm_compute in Hrun; discriminate].
  destruct (InitializeMeshes_geometry_kinds 1 2 1 2 4 true 1 sample_initialized_model
              (mkEmbree 0 []) 0 7 9 next model' e'
              ltac:(constructor) eq_refl Hrun 1%nat (sample_mesh 20 4) eq_refl)
    as (material & g & Hderef & Hg & _ & Hyes & _).
  exists g. split; [exact Hg |].
  injection Hderef as <-.
  destruct (Hyes eq_refl) as (Htype & _ & Htess). by split.
Defined.

(** * Further properties *)

Import BuildDependencies.
Import Curves.

(** ** The ray stack *)

(** One [InsertRay] on a context that has room. *)
Lemma InsertRay_step (asserts : bool) (context : KernelContext) (ray : Ray) :
  context_wf context ->
  rayStackCount context < rayStackCapacity context ->
  bounceCount ray <> maxPathLength context ->
  (asserts = true /\ rayStackCount context + 1 = rayStackCapacity context /\
   InsertRay asserts context ray = Crash AssertionFailed)
  \/
  InsertRay asserts context ray
  = Done (set_rayStack context
            (<[Z.to_nat (rayStackCount context) := ray]> (rayStack context))
            (rayStackCount context + 1)) /\
  (asserts = true -> rayStackCount context + 1 < rayStackCapacity context).
Proof.
  intros (Hlen & [Hc0 Hc1] & [Hk0 Hk1]) Hlt Hne.
  assert (Hsucc : uint32_add (rayStackCount context) 1 = rayStackCount context + 1).
  { apply uint32_add_succ; lia. }
  unfold InsertRay.
  destruct (Z.eqb_spec (bounceCount ray) (maxPathLength context)) as [| _]; [done |].
  rewrite Hsucc.
  destruct (Z.eqb_spec (rayStackCount context + 1) (rayStackCapacity context))
    as [Hfull | Hroom]; destruct asserts; simpl.
  1: by left.
  all: right; rewrite array_store_in_range by lia; simpl; split; [done |].
  all: intros; try done; lia.
Qed.

(** X1: a push that goes through puts the ray on top of the stack: the rays
    on the stack are the old ones followed by the new one, the counter goes
    up by one, and the image, the capacity, the path-length bound and the
    size of the buffer stay as they were. *)
Theorem InsertRay_pushes_on_top (asserts : bool) (context context' : KernelContext)
    (ray : Ray) :
  bounceCount ray <> maxPathLength context ->
  rayStackCount context + 1 < uint32_modulus ->
  InsertRay asserts context ray = Done context' ->
  stacked_rays context' = stacked_rays context ++ [ray] /\
  rayStackCount context' = rayStackCount context + 1 /\
  length (rayStack context') = length (rayStack context) /\
  imageData context' = imageData context /\
  rayStackCapacity context' = rayStackCapacity context /\
  maxPathLength context' = maxPathLength context.
Proof.
  intros Hne Hfit Hrun.
  apply InsertRay_pushing in Hrun as [Hrange ->]; [| done].
  split; [by apply stacked_rays_push |]. simpl.
  split; [apply uint32_add_succ; lia |].
  by rewrite length_insert.
Qed.

Lemma InsertRay_pushes_on_top_witness :
  exists context',
    InsertRay true (sample_context 4 1) (sample_ray 0 2 fone) = Done context' /\
    stacked_rays context' = [sample_ray 0 0 fone; sample_ray 0 2 fone].
Proof.
  eexists. split; [reflexivity |].
  exact (proj1 (InsertRay_pushes_on_top true (sample_context 4 1) _ (sample_ray 0 2 fone)
                  ltac:(simpl; lia) ltac:(unfold uint32_modulus; simpl; lia) eq_refl)).
Defined.

(** Rays inserted one after the other. *)
Fixpoint InsertRays (asserts : bool) (context : KernelContext) (rays : list Ray)
    : Outcome KernelContext :=
  match rays with
  | [] => mret context
  | ray :: rest =>
      context' ← InsertRay asserts context ray;
      InsertRays asserts context' rest
  end.

(** The rays of a list that [InsertRay] does not discard. *)
Definition below_bound (context : KernelContext) (rays : list Ray) : list Ray :=
  filter (fun ray => bounceCount ray <> maxPathLength context) rays.

(** X2: with assertions on, a context that has room never sees a store
    outside the buffer, whatever rays are inserted: the run either stops on
    the assertion or ends with every ray below the bound stacked, in
    order, and with room left. *)
Theorem InsertRays_stay_in_bounds (rays : list Ray) : forall context : KernelContext,
  context_wf context ->
  rayStackCount context < rayStackCapacity context ->
  InsertRays true context rays = Crash AssertionFailed
  \/
  exists context',
    InsertRays true context rays = Done context' /\
    context_wf context' /\
    rayStackCount context' < rayStackCapacity context' /\
    stacked_rays context' = stacked_rays context ++ below_bound context rays /\
    imageData context' = imageData context.
Proof.
  induction rays as [| ray rest IH]; intros context Hwf Hroom.
  - right. exists context. simpl. unfold below_bound. by rewrite app_nil_r.
  - cbn [InsertRays]. unfold below_bound. rewrite filter_cons.
    destruct (decide (bounceCount ray <> maxPathLength context)) as [Hne | Heq].
    + destruct (InsertRay_step true context ray Hwf Hroom Hne)
        as [(_ & _ & ->) | [Hrun Hnext]]; [by left |].
      rewrite Hrun. simpl.
      set (context1 := set_rayStack context _ _).
      assert (Hwf1 : context_wf context1).
      { destruct Hwf as (Hlen & Hc & Hk). unfold context_wf, is_uint32 in *. simpl.
        rewrite length_insert. specialize (Hnext eq_refl). lia. }
      destruct (IH context1 Hwf1 (Hnext eq_refl)) as [-> | (context' & -> & Hwf' & Hroom' & Hstack & Himage)];
        [by left |].
      right. exists context'.
      split; [done |]. split; [done |]. split; [done |]. split; [| done].
      rewrite Hstack. unfold below_bound. simpl.
      destruct Hwf as (Hlen & Hc & Hk). unfold is_uint32 in *.
      assert (Hpush : stacked_rays context1 = stacked_rays context ++ [ray]).
      { subst context1. rewrite <- (uint32_add_succ (rayStackCount context)) by lia.
        apply stacked_rays_push; lia. }
      by rewrite Hpush, <- app_assoc.
    + assert (Heq' : bounceCount ray = maxPathLength context).
      { destruct (Z.eq_dec (bounceCount ray) (maxPathLength context)); [done |]. by destruct Heq. }
      unfold InsertRay. rewrite Heq', Z.eqb_refl. simpl.
      exact (IH context Hwf Hroom).
Qed.

Lemma InsertRays_stay_in_bounds_witness :
  exists context',
    InsertRays true (sample_context 4 1)
      [sample_ray 0 2 fone; sample_ray 0 5 fone; sample_ray 0 3 fone] = Done context' /\
    stacked_rays context'
    = [sample_ray 0 0 fone; sample_ray 0 2 fone; sample_ray 0 3 fone].
Proof.
  destruct (InsertRays_stay_in_bounds
              [sample_ray 0 2 fone; sample_ray 0 5 fone; sample_ray 0 3 fone]
              (sample_context 4 1)) as [Hstop | (context' & Hrun & _ & _ & Hstack & _)].
  - unfold context_wf, is_uint32, uint32_modulus. simpl. lia.
  - simpl. lia.
  - discriminate Hstop.
  - exists context'. split; [exact Hrun | exact Hstack].
Defined.

(** ** Accumulation *)

Lemma accumulate_Done context index contribution context' :
  accumulate context index contribution = Done context' ->
  exists cell,
    0 <= index /\ imageData context !! Z.to_nat index = Some cell /\
    context' = set_imageData context
                 (<[Z.to_nat index := float3_add cell contribution]> (imageData context)).
Proof.
  unfold accumulate. destruct (array_load _ _) as [cell |] eqn:Hload; simpl; [| discriminate].
  apply array_load_Done in Hload as [H0 Hcell].
  pose proof (lookup_lt_Some _ _ _ Hcell).
  rewrite array_store_in_range by lia. intros [= <-]. by exists cell.
Qed.

Lemma accumulate_out_of_range context index contribution :
  (index < 0 \/ Z.of_nat (length (imageData context)) <= index) ->
  accumulate context index contribution = Crash OutOfBounds.
Proof.
  intros Hout. unfold accumulate, array_load.
  destruct (Z.leb_spec 0 index); [| done].
  rewrite lookup_ge_None_2 by lia. done.
Qed.

Lemma accumulate_twice context p q c1 c2 :
  p <> q ->
  (accumulate context p c1 ≫= fun context' => accumulate context' q c2)
  = (accumulate context q c2 ≫= fun context' => accumulate context' p c1).
Proof.
  intros Hpq.
  destruct (decide (0 <= p < Z.of_nat (length (imageData context)))) as [Hp | Hp];
    destruct (decide (0 <= q < Z.of_nat (length (imageData context)))) as [Hq | Hq].
  - destruct (lookup_lt_is_Some_2 (imageData context) (Z.to_nat p) ltac:(lia)) as [a Ha].
    destruct (lookup_lt_is_Some_2 (imageData context) (Z.to_nat q) ltac:(lia)) as [b Hb].
    rewrite (accumulate_in_range context p c1 a), (accumulate_in_range context q c2 b)
      by (done || lia). simpl.
    rewrite (accumulate_in_range _ q c2 b), (accumulate_in_range _ p c1 a);
      try lia; try (simpl; rewrite list_lookup_insert_ne by lia; done).
    unfold set_imageData; simpl. f_equal. f_equal. apply list_insert_insert_ne. lia.
  - rewrite (accumulate_out_of_range context q) by lia. simpl.
    destruct (accumulate context p c1) as [context' |] eqn:Hfirst; simpl.
    + apply accumulate_Done in Hfirst as (cell & _ & _ & ->).
      apply accumulate_out_of_range. simpl. rewrite length_insert. lia.
    + unfold accumulate in Hfirst.
      destruct (lookup_lt_is_Some_2 (imageData context) (Z.to_nat p) ltac:(lia)) as [a Ha].
      rewrite (array_load_in_range _ _ a) in Hfirst by (done || lia). simpl in Hfirst.
      rewrite array_store_in_range in Hfirst by lia. discriminate.
  - rewrite (accumulate_out_of_range context p) by lia. simpl.
    destruct (lookup_lt_is_Some_2 (imageData context) (Z.to_nat q) ltac:(lia)) as [b Hb].
    rewrite (accumulate_in_range context q c2 b) by (done || lia). simpl.
    symmetry. apply accumulate_out_of_range. simpl. rewrite length_insert. lia.
  - rewrite (accumulate_out_of_range context p), (accumulate_out_of_range context q) by lia.
    done.
Qed.

(** X3: energy added to two different pixels can be added in either order:
    the two runs end in the same context, or both in a store outside the
    image. *)
Theorem AccumulatePixelEnergy_pixels_commute (context : KernelContext) (ray : Ray)
    (hit : HitParameters) (value1 value2 : float3) :
  pixelIndex ray <> hit_pixelIndex hit ->
  (AccumulatePixelEnergy_ray context ray value1
     ≫= fun context' => AccumulatePixelEnergy_hit context' hit value2)
  = (AccumulatePixelEnergy_hit context hit value2
       ≫= fun context' => AccumulatePixelEnergy_ray context' ray value1).
Proof. intros Hne. by apply accumulate_twice. Qed.

Definition sample_image_context : KernelContext :=
  mkContext [float3_zero; float3_zero] [] 0 0 5.

Lemma AccumulatePixelEnergy_pixels_commute_witness :
  (AccumulatePixelEnergy_ray sample_image_context (sample_ray 0 1 fone)
     (mkFloat3 fone fone fone)
     ≫= fun context' =>
          AccumulatePixelEnergy_hit context' (sample_hit 1 1 fone) (mkFloat3 fone fone fone))
  = Done (set_imageData sample_image_context
            [mkFloat3 fone fone fone; mkFloat3 fone fone fone]).
Proof.
  rewrite (AccumulatePixelEnergy_pixels_commute sample_image_context (sample_ray 0 1 fone)
             (sample_hit 1 1 fone) (mkFloat3 fone fone fone) (mkFloat3 fone fone fone)
             ltac:(discriminate)).
  reflexivity.
Defined.

(** X4: pushing a ray and accumulating energy do not see each other:
    [InsertRay] leaves the image alone and [AccumulatePixelEnergy] the
    stack, so when both go through the order does not matter. *)
Theorem InsertRay_AccumulatePixelEnergy_independent (asserts : bool)
    (context final : KernelContext) (ray source : Ray) (value : float3) :
  (InsertRay asserts context ray
     ≫= fun context' => AccumulatePixelEnergy_ray context' source value) = Done final
  <->
  (AccumulatePixelEnergy_ray context source value
     ≫= fun context' => InsertRay asserts context' ray) = Done final.
Proof.
  unfold AccumulatePixelEnergy_ray.
  destruct (Z.eq_dec (bounceCount ray) (maxPathLength context)) as [Heq | Hne].
  - unfold InsertRay at 1. rewrite Heq, Z.eqb_refl. simpl.
    destruct (accumulate context _ _) as [context1 |] eqn:Hacc; simpl; [| done].
    apply accumulate_Done in Hacc as (cell & _ & _ & ->).
    unfold InsertRay. simpl. by rewrite Heq, Z.eqb_refl.
  - split.
    + destruct (InsertRay asserts context ray) as [context1 |] eqn:Hpush; simpl;
        [| discriminate].
      intros Hacc. pose proof Hpush as Hpush'.
      apply InsertRay_pushing in Hpush as [Hrange ->]; [| done].
      apply accumulate_Done in Hacc as (cell & H0 & Hcell & ->). simpl in Hcell.
      rewrite (accumulate_in_range context _ _ cell) by done. simpl.
      revert Hpush'. unfold InsertRay. simpl.
      destruct (Z.eqb_spec (bounceCount ray) (maxPathLength context)); [done |].
      destruct (Assert_ asserts _); simpl; [| discriminate].
      rewrite !array_store_in_range by lia. simpl. done.
    + destruct (accumulate context _ _) as [context1 |] eqn:Hacc; simpl; [| discriminate].
      apply accumulate_Done in Hacc as (cell & H0 & Hcell & ->).
      intros Hpush. pose proof Hpush as Hpush'.
      apply InsertRay_pushing in Hpush as [Hrange ->]; [| done]. simpl in Hrange.
      revert Hpush'. unfold InsertRay. simpl.
      destruct (Z.eqb_spec (bounceCount ray) (maxPathLength context)); [done |].
      destruct (Assert_ asserts _); simpl; [| discriminate].
      rewrite !array_store_in_range by lia. simpl. intros _.
      by rewrite (accumulate_in_range _ _ _ cell) by done.
Qed.

Lemma InsertRay_AccumulatePixelEnergy_independent_witness :
  exists final,
    (AccumulatePixelEnergy_ray (sample_context 4 1) (sample_ray 0 1 fone)
       (mkFloat3 fone fone fone)
       ≫= fun context' => InsertRay true context' (sample_ray 0 2 fone)) = Done final.
Proof.
  eexists.
  apply (proj1 (InsertRay_AccumulatePixelEnergy_independent true (sample_context 4 1) _
                  (sample_ray 0 2 fone) (sample_ray 0 1 fone) (mkFloat3 fone fone fone))).
  reflexivity.
Defined.

(** ** Bounce rays and the stack *)

(** X5: a bounce off a hit whose bounce count is one below the path-length
    bound is never stacked: the ray either builder makes has the bound as
    its bounce count and [InsertRay] discards it. *)
Theorem last_bounce_is_discarded (asserts : bool) (e : Z) (B : RayBuilders)
    (context : KernelContext) (surface : SurfaceParameters) (hit : HitParameters)
    (wi reflectance : float3) (iorRatio : float) :
  stores_path_state B ->
  uint32_add (hit_bounceCount hit) 1 = maxPathLength context ->
  InsertRay asserts context (CreateReflectionBounceRay e B surface hit wi reflectance)
  = Done context /\
  InsertRay asserts context
    (CreateRefractionBounceRay e B surface hit wi reflectance iorRatio)
  = Done context.
Proof.
  intros HB Hlast.
  destruct (bounce_call_path_state e B surface hit wi reflectance iorRatio)
    as [(_ & Hb1 & _) (_ & Hb2 & _)].
  destruct (HB (ReflectionBounceCall e B surface hit wi reflectance)) as (_ & _ & Hb).
  destruct (HB (RefractionBounceCall e B surface hit wi reflectance iorRatio))
    as (_ & _ & Hb').
  unfold InsertRay, CreateReflectionBounceRay, CreateRefractionBounceRay.
  by rewrite Hb, Hb', Hb1, Hb2, Hlast, Z.eqb_refl.
Qed.

Lemma last_bounce_is_discarded_witness :
  InsertRay true (sample_context 4 1)
    (CreateReflectionBounceRay 4 sample_builders (surface_rx_along_z 4)
       (sample_hit 0 4 fone) (mkFloat3 fzero fone fzero) (mkFloat3 fone fone fone))
  = Done (sample_context 4 1).
Proof.
  exact (proj1 (last_bounce_is_discarded true 4 sample_builders (sample_context 4 1)
                  (surface_rx_along_z 4) (sample_hit 0 4 fone) (mkFloat3 fzero fone fzero)
                  (mkFloat3 fone fone fone) fone sample_builders_store_path_state eq_refl)).
Defined.

(** X6: without the flag, or with a differential direction whose [x] and
    [y] are zero, reflection and refraction build the same ray: the plain
    ray from the offset origin along [wi], whatever the ratio of the
    indices of refraction. *)
Theorem plain_bounce_rays_agree (e : Z) (B : RayBuilders) (surface : SurfaceParameters)
    (hit : HitParameters) (wi reflectance : float3) (iorRatio : float) :
  Z.land (materialFlags surface) e = 0
  \/ (fnez (fx (surf_rxDirection surface)) = false
      /\ fnez (fy (surf_rxDirection surface)) = false) ->
  CreateRefractionBounceRay e B surface hit wi reflectance iorRatio
  = CreateReflectionBounceRay e B surface hit wi reflectance /\
  CreateReflectionBounceRay e B surface hit wi reflectance
  = MakeRay B (OffsetRayOrigin B surface wi fone) wi
      (float3_mul (hit_throughput hit) reflectance) (hit_pixelIndex hit)
      (uint32_add (hit_bounceCount hit) 1).
Proof.
  intros Hplain.
  unfold CreateRefractionBounceRay, CreateReflectionBounceRay, RefractionBounceCall,
    ReflectionBounceCall.
  destruct Hplain as [-> | [-> ->]]; simpl; [done |].
  by rewrite andb_false_r.
Qed.

Lemma plain_bounce_rays_agree_witness :
  CreateRefractionBounceRay 4 sample_builders (surface_rx_along_z 3)
    (sample_hit 0 1 fone) (mkFloat3 fzero fone fzero) (mkFloat3 fone fone fone) fone
  = CreateReflectionBounceRay 4 sample_builders (surface_rx_along_z 3)
      (sample_hit 0 1 fone) (mkFloat3 fzero fone fzero) (mkFloat3 fone fone fone).
Proof.
  exact (proj1 (plain_bounce_rays_agree 4 sample_builders (surface_rx_along_z 3)
                  (sample_hit 0 1 fone) (mkFloat3 fzero fone fzero)
                  (mkFloat3 fone fone fone) fone (or_introl eq_refl))).
Defined.

(** ** Rounding a size up to the alignment *)

(** [x & ~(2^k - 1)] on [uint32] rounds down to a multiple of [2^k]. *)
Lemma land_pow2_mask (k x : Z) :
  0 <= k < 32 -> 0 <= x < uint32_modulus ->
  Z.land x (uint32_not (uint32_wrap (2 ^ k - 1))) = 2 ^ k * (x / 2 ^ k).
Proof.
  intros Hk Hx. unfold uint32_not, uint32_wrap, uint32_modulus in *.
  assert (Hpow : 0 < 2 ^ k <= 2 ^ 31).
  { split; [apply Z.pow_pos_nonneg; lia | apply Z.pow_le_mono_r; lia]. }
  rewrite (Z.mod_small (2 ^ k - 1)) by lia.
  replace (2 ^ 32 - 1 - (2 ^ k - 1)) with (Z.shiftl (Z.ones (32 - k)) k).
  2: { rewrite Z.shiftl_mul_pow2, Z.ones_equiv by lia.
       replace (2 ^ 32) with (2 ^ (32 - k) * 2 ^ k)
         by (rewrite <- Z.pow_add_r by lia; f_equal; lia).
       lia. }
  replace (2 ^ k * (x / 2 ^ k)) with (Z.shiftl (Z.shiftr x k) k).
  2: { rewrite Z.shiftl_mul_pow2, Z.shiftr_div_pow2 by lia. lia. }
  apply Z.bits_inj'. intros n Hn.
  rewrite Z.land_spec.
  destruct (Z_lt_dec n k) as [Hlt | Hge].
  - rewrite !Z.shiftl_spec_low by lia. apply andb_false_r.
  - rewrite !Z.shiftl_spec by lia. rewrite Z.shiftr_spec by lia.
    replace (n - k + k) with n by lia.
    destruct (Z_lt_dec n 32) as [Hlt32 | Hge32].
    + rewrite Z.ones_spec_low by lia. apply andb_true_r.
    + rewrite Z.ones_spec_high by lia. rewrite andb_false_r.
      symmetry. destruct (Z.eq_dec x 0) as [-> | Hnz]; [apply Z.bits_0 |].
      apply Z.bits_above_log2; [lia |].
      apply Z.log2_lt_pow2; [lia |]. apply Z.lt_le_trans with (2 ^ 32); [lia |].
      apply Z.pow_le_mono_r; lia.
Qed.

(** X7: for every power-of-two alignment [2^k] that [uint32] holds, and
    every size that leaves room for the rounding, [alignedSize] is the
    least multiple of the alignment that is not below the size; so the
    padding loop of [SerializeBufferAligned] writes fewer zero bytes than
    the alignment and ends on a multiple of it. *)
Theorem alignedSize_rounds_up (k dataSize : Z) :
  0 <= k < 32 -> 0 <= dataSize -> dataSize + 2 ^ k - 1 < uint32_modulus ->
  alignedSize dataSize (2 ^ k) mod 2 ^ k = 0 /\
  dataSize <= alignedSize dataSize (2 ^ k) < dataSize + 2 ^ k.
Proof.
  intros Hk H0 Hfit.
  assert (Hpow : 0 < 2 ^ k) by (apply Z.pow_pos_nonneg; lia).
  unfold alignedSize.
  rewrite (uint32_wrap_small (dataSize + 2 ^ k - 1)) by (unfold is_uint32; lia).
  rewrite land_pow2_mask by lia.
  pose proof (Z.div_mod (dataSize + 2 ^ k - 1) (2 ^ k) ltac:(lia)) as Hdm.
  pose proof (Z.mod_pos_bound (dataSize + 2 ^ k - 1) (2 ^ k) ltac:(lia)) as Hb.
  split; [| lia].
  rewrite Z.mul_comm. apply Z.mod_mul. lia.
Qed.

Lemma alignedSize_rounds_up_witness :
  alignedSize 100 (2 ^ 6) mod 2 ^ 6 = 0 /\
  100 <= alignedSize 100 (2 ^ 6) < 100 + 2 ^ 6.
Proof.
  apply (alignedSize_rounds_up 6 100); unfold uint32_modulus; lia.
Defined.

(** X8: a size within 15 bytes of [2^32] wraps in [dataSize + 15]: the
    aligned size comes out as zero, the padding loop does not run, and the
    pointee data ends right behind the buffer, with no padding. *)
Theorem SerializeBufferAligned_no_padding_on_wrap (writer : BinaryWriter)
    (data : list byte) (dataSize : Z) :
  uint32_modulus - 15 <= dataSize < uint32_modulus ->
  alignedSize dataSize 16 = 0 /\
  pointerData (SerializeBufferAligned writer data dataSize 16)
  = pointerData writer ++ take (Z.to_nat dataSize) data.
Proof.
  intros Hsize. unfold uint32_modulus in Hsize.
  assert (Hzero : alignedSize dataSize 16 = 0).
  { unfold alignedSize.
    replace (dataSize + 16 - 1) with ((dataSize + 15 - 2 ^ 32) + 1 * 2 ^ 32) by lia.
    unfold uint32_wrap at 1. unfold uint32_modulus.
    rewrite Z.mod_add, Z.mod_small by lia.
    rewrite land_align_mask by (unfold uint32_modulus; lia).
    rewrite Z.div_small by lia. lia. }
  split; [done |].
  unfold SerializeBufferAligned. rewrite Hzero, write_padding_spec. simpl.
  replace (Z.to_nat (0 - dataSize)) with 0%nat by lia. simpl. by rewrite app_nil_r.
Qed.

Lemma SerializeBufferAligned_no_padding_on_wrap_witness :
  alignedSize (uint32_modulus - 4) 16 = 0.
Proof.
  exact (proj1 (SerializeBufferAligned_no_padding_on_wrap (SerializerStart 0 0) []
                  (uint32_modulus - 4) ltac:(unfold uint32_modulus; lia))).
Defined.

(** ** The slack for alignment in the geometry blob *)

(** The bytes of a list of buffers, without padding. *)
Definition total_size (buffers : list CArray) : Z :=
  foldr (fun a acc => Z.of_nat (length (bytes a)) + acc) 0 buffers.

Lemma padded_total buffers :
  Z.of_nat (length (flat_map padded buffers))
  <= total_size buffers + 15 * Z.of_nat (length buffers).
Proof.
  induction buffers as [| a rest IH]; simpl; [lia |].
  rewrite length_app. unfold padded at 1. rewrite length_app, length_replicate.
  destruct (padding_spec (Z.of_nat (length (bytes a))) ltac:(lia)) as [_ Hpad]. lia.
Qed.



(** ** The meta blob *)

Lemma read_segment {A} (pre bs post : list A) (n : nat) :
  n = length pre -> take (length bs) (drop n (pre ++ bs ++ post)) = bs.
Proof. intros ->. by rewrite drop_app_length, take_app_length. Qed.

Lemma take_encode_le n z : take n (encode_le n z) = encode_le n z.
Proof. apply take_ge. by rewrite length_encode_le. Qed.

(** The raw part of the meta blob in front of the counts: camera, box and
    bounding sphere. *)
Definition meta_header (sceneData : BuiltScene) : list byte :=
  camera sceneData ++ aaBox sceneData ++ boundingSphere sceneData.

(** The per-index-type counts at the end of the raw part. *)
Definition meta_index_counts (sceneData : BuiltScene) : list byte :=
  flat_map (fun a => encode_le 4 (Length a)) (Baker.indices sceneData).

Definition meta_raw_size (sceneData : BuiltScene) : nat :=
  length (meta_header sceneData) + 32 + length (meta_index_counts sceneData).

Lemma meta_writer_spec sceneData :
  Z.of_nat (length (bytes (Baker.textures sceneData))) < uint32_modulus ->
  Z.of_nat (length (bytes (Baker.materials sceneData))) < uint32_modulus ->
  meta_writer sceneData
  = mkWriter
      (meta_header sceneData
       ++ encode_le 4 (Length (Baker.textures sceneData))
       ++ encode_le 4 (Length (Baker.materials sceneData))
       ++ replicate 8 Byte.x00 ++ replicate 8 Byte.x00
       ++ encode_le 4 (Length (Baker.meshes sceneData))
       ++ encode_le 4 (Length (Baker.positions sceneData))
       ++ meta_index_counts sceneData)
      (bytes (Baker.textures sceneData) ++ bytes (Baker.materials sceneData))
      [mkPointerDesc (Z.of_nat (length (meta_header sceneData) + 8)) 0;
       mkPointerDesc (Z.of_nat (length (meta_header sceneData) + 16))
                     (Z.of_nat (length (bytes (Baker.textures sceneData))))].
Proof.
  intros Htex Hmat.
  assert (Htex' : DataSize (Baker.textures sceneData)
                  = Z.of_nat (length (bytes (Baker.textures sceneData)))).
  { apply uint32_wrap_small. unfold is_uint32. lia. }
  assert (Hmat' : DataSize (Baker.materials sceneData)
                  = Z.of_nat (length (bytes (Baker.materials sceneData)))).
  { apply uint32_wrap_small. unfold is_uint32. lia. }
  unfold meta_writer, SerializeMaterials, SerializerWrite, SerializerWritePointerOffsetX64,
    SerializerWritePointerData, SerializerStart, meta_header, meta_index_counts, GetData.
  cbn [rawData pointerData pointers].
  rewrite Htex', Hmat', !Nat2Z.id, !firstn_all.
  change (Z.to_nat 4) with 4%nat.
  rewrite !take_encode_le, !app_nil_l.
  f_equal.
  - rewrite <- !app_assoc. done.
  - rewrite !length_app, !length_encode_le, !length_replicate.
    cbn [length app].
    f_equal; [f_equal; lia | f_equal; f_equal; lia].
Qed.

Definition meta_blob_size (sceneData : BuiltScene) : Z :=
  Z.of_nat (meta_raw_size sceneData)
  + Z.of_nat (length (bytes (Baker.textures sceneData)))
  + Z.of_nat (length (bytes (Baker.materials sceneData))).

(** X10: what [BakeSceneMetaData] writes can be read back from the blob:
    behind the camera, the box and the bounding sphere lie the texture
    count and the material count, then the two pointers, which hold the
    offsets at which the texture names and -- right behind them, with no
    padding -- the materials are found, then the mesh and vertex counts. *)
Theorem meta_blob_reads_back (sceneData : BuiltScene) :
  meta_blob_size sceneData < uint32_modulus ->
  let blob := (SerializerEnd (meta_writer sceneData)).2 in
  let header := length (meta_header sceneData) in
  let names := bytes (Baker.textures sceneData) in
  let mats := bytes (Baker.materials sceneData) in
  decode_le (take 4 (drop header blob)) = Length (Baker.textures sceneData) /\
  decode_le (take 4 (drop (header + 4) blob)) = Length (Baker.materials sceneData) /\
  read_pointer blob (Z.of_nat (header + 8)) = Z.of_nat (meta_raw_size sceneData) /\
  read_pointer blob (Z.of_nat (header + 16))
  = Z.of_nat (meta_raw_size sceneData + length names) /\
  take (length names) (drop (meta_raw_size sceneData) blob) = names /\
  take (length mats) (drop (meta_raw_size sceneData + length names) blob) = mats /\
  decode_le (take 4 (drop (header + 24) blob)) = Length (Baker.meshes sceneData) /\
  decode_le (take 4 (drop (header + 28) blob)) = Length (Baker.positions sceneData).
Proof.
  intros Hsize. cbv zeta.
  unfold meta_blob_size, meta_raw_size, uint32_modulus in Hsize.
  unfold meta_raw_size. rewrite meta_writer_spec by (unfold uint32_modulus; lia).
  unfold SerializerEnd. cbn [snd rawData pointerData pointers foldl].
  unfold patch_pointer, pointee_offset. cbn [rawData pointerOffset pointerDataOffset].
  set (header := length (meta_header sceneData)) in *.
  set (names := bytes (Baker.textures sceneData)) in *.
  set (mats := bytes (Baker.materials sceneData)) in *.
  set (tc := encode_le 4 (Length (Baker.textures sceneData))).
  set (mc := encode_le 4 (Length (Baker.materials sceneData))).
  set (nm := encode_le 4 (Length (Baker.meshes sceneData))).
  set (nv := encode_le 4 (Length (Baker.positions sceneData))).
  set (counts := meta_index_counts sceneData) in *.
  set (slot := replicate 8 Byte.x00).
  set (raw := meta_header sceneData ++ tc ++ mc ++ slot ++ slot ++ nm ++ nv ++ counts).
  assert (Hraw : length raw = (header + 32 + length counts)%nat).
  { subst raw tc mc nm nv slot header.
    rewrite !length_app, !length_encode_le, !length_replicate. lia. }
  rewrite Hraw.
  set (blob0 := raw ++ names ++ mats).
  assert (Hblob0 : length blob0 = (header + 32 + length counts + length names + length mats)%nat).
  { subst blob0. rewrite !length_app, Hraw. lia. }
  set (p1 := encode_le 8 (Z.of_nat (header + 32 + length counts) + 0)).
  set (p2 := encode_le 8 (Z.of_nat (header + 32 + length counts) + Z.of_nat (length names))).
  rewrite !Nat2Z.id.
  assert (Hp1 : length p1 = 8%nat) by apply length_encode_le.
  assert (Hp2 : length p2 = 8%nat) by apply length_encode_le.
  set (blob1 := overwrite blob0 (header + 8) p1).
  assert (Hblob1 : length blob1 = length blob0).
  { subst blob1. apply overwrite_length. lia. }
  assert (Hother : forall site n,
             (site + n <= header + 8 \/ header + 24 <= site)%nat ->
             take n (drop site (overwrite blob1 (header + 16) p2))
             = take n (drop site blob0)).
  { intros site n Hsite. rewrite overwrite_read_other by lia.
    subst blob1. apply overwrite_read_other; lia. }
  assert (Hlen4 : forall z, length (encode_le 4 z) = 4%nat) by (intros; apply length_encode_le).
  assert (Hdec : forall a, decode_le (encode_le 4 (Length a)) = Length a).
  { intros a. apply decode_encode_le. pose proof (uint32_wrap_range
      (Z.of_nat (length (bytes a)) `div` elementSize a)) as Hr.
    unfold is_uint32, uint32_modulus in Hr. unfold Length. simpl. lia. }
  repeat split.
  - rewrite Hother by lia. subst blob0 raw.
    rewrite <- (Hlen4 (Length (Baker.textures sceneData))) at 1. fold tc.
    rewrite <- !app_assoc, read_segment by done. apply Hdec.
  - rewrite Hother by lia. subst blob0 raw.
    rewrite <- (Hlen4 (Length (Baker.materials sceneData))) at 1. fold mc.
    rewrite <- !app_assoc.
    rewrite (app_assoc (meta_header sceneData) tc), read_segment
      by (rewrite length_app; subst tc; rewrite Hlen4; done).
    apply Hdec.
  - unfold read_pointer. rewrite Nat2Z.id.
    rewrite overwrite_read_other by lia.
    subst blob1. rewrite <- Hp1 at 1. rewrite overwrite_read by lia.
    subst p1. rewrite decode_encode_le; [lia |]. change (256 ^ Z.of_nat 8) with (2 ^ 64). lia.
  - unfold read_pointer. rewrite Nat2Z.id.
    rewrite <- Hp2 at 1. rewrite overwrite_read by lia.
    subst p2. rewrite decode_encode_le; [lia |]. change (256 ^ Z.of_nat 8) with (2 ^ 64). lia.
  - rewrite Hother by lia. subst blob0. apply read_segment. done.
  - rewrite Hother by lia. subst blob0.
    replace (raw ++ names ++ mats) with ((raw ++ names) ++ mats ++ [])
      by (by rewrite app_nil_r, app_assoc).
    apply read_segment. rewrite length_app. lia.
  - rewrite Hother by lia. subst blob0 raw.
    rewrite <- (Hlen4 (Length (Baker.meshes sceneData))) at 1. fold nm.
    rewrite <- !app_assoc.
    rewrite !(app_assoc _ _ (nm ++ _)), <- !app_assoc.
    rewrite (app_assoc (meta_header sceneData) tc),
      (app_assoc (meta_header sceneData ++ tc) mc),
      (app_assoc ((meta_header sceneData ++ tc) ++ mc) slot),
      (app_assoc (((meta_header sceneData ++ tc) ++ mc) ++ slot) slot).
    rewrite read_segment; [apply Hdec |].
    subst tc mc slot. rewrite !length_app, !Hlen4, !length_replicate. lia.
  - rewrite Hother by lia. subst blob0 raw.
    rewrite <- (Hlen4 (Length (Baker.positions sceneData))) at 1. fold nv.
    rewrite <- !app_assoc.
    rewrite (app_assoc (meta_header sceneData) tc),
      (app_assoc (meta_header sceneData ++ tc) mc),
      (app_assoc ((meta_header sceneData ++ tc) ++ mc) slot),
      (app_assoc (((meta_header sceneData ++ tc) ++ mc) ++ slot) slot),
      (app_assoc ((((meta_header sceneData ++ tc) ++ mc) ++ slot) ++ slot) nm).
    rewrite read_segment; [apply Hdec |].
    subst tc mc nm slot. rewrite !length_app, !Hlen4, !length_replicate. lia.
Qed.

Definition sample_meta_scene : BuiltScene :=
  mkBuiltScene [Byte.x01; Byte.x02] [Byte.x03] [Byte.x04]
    (mkCArray 4 [Byte.x10; Byte.x11; Byte.x12; Byte.x13;
                 Byte.x14; Byte.x15; Byte.x16; Byte.x17])
    (mkCArray 2 [Byte.x20; Byte.x21; Byte.x22; Byte.x23])
    (mkCArray 4 []) [mkCArray 4 []] (mkCArray 4 [])
    (mkCArray 12 []) (mkCArray 4 []) (mkCArray 4 []) (mkCArray 4 []) (mkCArray 4 []).

Lemma meta_blob_reads_back_witness :
  let blob := (SerializerEnd (meta_writer sample_meta_scene)).2 in
  decode_le (take 4 (drop 4 blob)) = 2 /\
  decode_le (take 4 (drop 8 blob)) = 2 /\
  read_pointer blob 20 = 48.
Proof.
  destruct (meta_blob_reads_back sample_meta_scene eq_refl)
    as (Htex & Hmat & _ & Hptr & _).
  split; [exact Htex |]. split; [exact Hmat |]. exact Hptr.
Defined.

(** ** Baking a scene *)

Section BakeSceneFacts.

Variable MakeAssetId : string -> string -> AssetId.
Variable AssetFilePath : AssetId -> Z -> string.
Variable kDataType kGeometryDataType : string.
Variable kDataVersion : Z.

(** The record [CreateOutput] makes for an output of the given type, named
    after the source of the context. *)
Definition output_record (context : BuildProcessorContext) (type : string)
    : ProcessorOutput :=
  mkOutput (mkContentId type (cid_name (source context)))
           (MakeAssetId type (cid_name (source context))) kDataVersion.

Lemma CreateOutput_cases world context type version name data dataSize :
  (next_fault world = NoFault /\
   exists world',
     CreateOutput MakeAssetId AssetFilePath world context type version name data dataSize
     = (Success_, world',
        add_output context (mkOutput (mkContentId type name) (MakeAssetId type name) version))
     /\ faults world' = tail (faults world))
  \/
  (next_fault world <> NoFault /\
   exists message world',
     CreateOutput MakeAssetId AssetFilePath world context type version name data dataSize
     = (Error_ message, world', context)
     /\ faults world' = tail (faults world)).
Proof.
  unfold CreateOutput, WriteWholeFile. simpl.
  destruct (next_fault world) eqn:Hfault.
  - left. split; [done |]. eexists. split; [reflexivity |].
    unfold fs_rename, fs_store. simpl. by rewrite lookup_insert_eq.
  - right. split; [done |]. by do 2 eexists.
  - right. split; [done |]. by do 2 eexists.
  - right. split; [done |]. by do 2 eexists.
Qed.

(** X11: [BakeScene] writes the meta output first and the geometry output
    only after it: when the first write fails nothing is recorded and the
    second write is not attempted; when the second fails the meta output
    stays recorded; when both go through the two records are added in
    this order, both named after the source. *)
Theorem BakeScene_outputs (world : World) (context : BuildProcessorContext)
    (sceneData : BuiltScene) :
  let run := BakeScene MakeAssetId AssetFilePath kDataType kGeometryDataType
               kDataVersion world context sceneData in
  let meta := output_record context kDataType in
  let geometry := output_record context kGeometryDataType in
  (next_fault world <> NoFault /\
   exists message world',
     run = (Error_ message, world', context) /\
     faults world' = tail (faults world))
  \/
  (next_fault world = NoFault /\
   next_fault (consume_fault world) <> NoFault /\
   exists message world',
     run = (Error_ message, world', add_output context meta) /\
     faults world' = tail (tail (faults world)))
  \/
  (next_fault world = NoFault /\
   next_fault (consume_fault world) = NoFault /\
   exists world',
     run = (Success_, world', add_output (add_output context meta) geometry) /\
     faults world' = tail (tail (faults world))).
Proof.
  cbv zeta. unfold BakeScene, BakeSceneMetaData, BakeSceneGeometryData, SerializerEnd.
  cbn [fst snd].
  match goal with
  | |- context [CreateOutput _ _ world context ?t ?v ?n ?d ?s] =>
      destruct (CreateOutput_cases world context t v n d s)
        as [(Hf1 & world1 & -> & Hw1) | (Hf1 & message & world1 & -> & Hw1)]
  end.
  - right.
    assert (Hnext : next_fault world1 = next_fault (consume_fault world)).
    { unfold next_fault, consume_fault. simpl. by rewrite Hw1. }
    match goal with
    | |- context [CreateOutput _ _ world1 ?c ?t ?v ?n ?d ?s] =>
        destruct (CreateOutput_cases world1 c t v n d s)
          as [(Hf2 & world2 & -> & Hw2) | (Hf2 & message & world2 & -> & Hw2)]
    end.
    + right. split; [done |]. split; [congruence |].
      exists world2. split; [done |]. by rewrite Hw2, Hw1.
    + left. split; [done |]. split; [congruence |].
      exists message, world2. split; [done |]. by rewrite Hw2, Hw1.
  - left. split; [done |]. by exists message, world1.
Qed.

(** X12: a context set up by [Initialize] with assertions on and then
    baked into holds exactly the two outputs of the scene, named after the
    source it was initialized with. *)
Theorem Initialize_then_BakeScene (world world' : World)
    (context context1 context2 : BuildProcessorContext) (deps : Dependencies)
    (source_ : ContentId) (id_ : AssetId) (sceneData : BuiltScene) :
  Initialize true context deps source_ id_ = Done context1 ->
  BakeScene MakeAssetId AssetFilePath kDataType kGeometryDataType kDataVersion
    world context1 sceneData = (Success_, world', context2) ->
  source context2 = source_ /\ id context2 = id_ /\
  outputs context2
  = [mkOutput (mkContentId kDataType (cid_name source_))
       (MakeAssetId kDataType (cid_name source_)) kDataVersion;
     mkOutput (mkContentId kGeometryDataType (cid_name source_))
       (MakeAssetId kGeometryDataType (cid_name source_)) kDataVersion].
Proof.
  intros Hinit Hbake.
  assert (Hcontext1 : context1 = mkBuildContext source_ id_ []).
  { revert Hinit. unfold Initialize, Assert_. simpl.
    destruct (contentDependencies deps); [| discriminate].
    destruct (processDependencies deps); [| discriminate].
    destruct (outputs context); [| discriminate].
    simpl. by intros [= <-]. }
  subst context1. revert Hbake.
  unfold BakeScene, BakeSceneMetaData, BakeSceneGeometryData, SerializerEnd.
  cbn [fst snd source cid_name].
  match goal with
  | |- context [CreateOutput _ _ world ?c ?t ?v ?n ?d ?s] =>
      destruct (CreateOutput_cases world c t v n d s)
        as [(_ & world1 & -> & _) | (_ & message & world1 & -> & _)]
  end; [| discriminate].
  cbn [source cid_name add_output].
  match goal with
  | |- context [CreateOutput _ _ world1 ?c ?t ?v ?n ?d ?s] =>
      destruct (CreateOutput_cases world1 c t v n d s)
        as [(_ & world2 & -> & _) | (_ & message & world2 & -> & _)]
  end; [| discriminate].
  by intros [= _ <-].
Qed.

End BakeSceneFacts.

Definition sample_path (id : AssetId) (version : Z) : string :=
  if aid_type id =? 5 then "assets/scene.bin" else "assets/geometry.bin".

Lemma Initialize_then_BakeScene_witness :
  exists world' context2,
    BakeScene sample_asset_id sample_path "Scene" "SceneGeometry" 7 (mkWorld ∅ [])
      (mkBuildContext (mkContentId "scene" "box") (mkAssetId 0 0) []) sample_meta_scene
    = (Success_, world', context2) /\
    length (outputs context2) = 2%nat.
Proof.
  destruct (BakeScene sample_asset_id sample_path "Scene" "SceneGeometry" 7 (mkWorld ∅ [])
              (mkBuildContext (mkContentId "scene" "box") (mkAssetId 0 0) [])
              sample_meta_scene) as [[error world'] context2] eqn:Hbake.
  assert (Herror : error = Success_).
  { revert Hbake. unfold BakeScene, BakeSceneMetaData, BakeSceneGeometryData, SerializerEnd,
      CreateOutput, WriteWholeFile. cbn [fst snd next_fault faults head default].
    by intros [= <- _ _]. }
  subst error. exists world', context2. split; [reflexivity |].
  destruct (Initialize_then_BakeScene sample_asset_id sample_path "Scene" "SceneGeometry" 7
              (mkWorld ∅ []) world' sample_build_context
              (mkBuildContext (mkContentId "scene" "box") (mkAssetId 0 0) []) context2
              (mkDependencies [] []) (mkContentId "scene" "box") (mkAssetId 0 0)
              sample_meta_scene eq_refl Hbake) as (_ & _ & ->).
  reflexivity.
Defined.

(** ** Dependencies and the life of a context *)

Section DependencyFacts.

Variable SanitizeContentPath : string -> string.
Variable FileTime : string -> option Z.
Variable MakeAssetId : string -> string -> AssetId.
Variable AssetFilePath : AssetId -> Z -> string.

Lemma Initialize_used asserts context deps source_ id_ :
  contentDependencies deps <> [] \/ processDependencies deps <> []
  \/ outputs context <> [] ->
  Initialize asserts context deps source_ id_
  = if asserts then Crash AssertionFailed
    else Done (mkBuildContext source_ id_ (outputs context)).
Proof.
  unfold Initialize, Assert_. simpl.
  destruct asserts; simpl; [| done].
  destruct (contentDependencies deps), (processDependencies deps), (outputs context);
    simpl; try done.
  intros [H | [H | H]]; done.
Qed.

(** X13: [Initialize] takes a context only once: after an output has been
    created, a process dependency added or a file dependency added (for a
    file that is found), the assertions of [Initialize] stop the program;
    with assertions compiled out it goes through and the new source
    inherits the outputs recorded for the old one. *)
Theorem Initialize_rejects_used_context (asserts : bool) (world world' : World)
    (context context' : BuildProcessorContext) (deps : Dependencies)
    (type name : string) (version : Z) (data : list byte) (dataSize : Z)
    (dependency source_ : ContentId) (file : string) (time : Z) (id_ : AssetId) :
  CreateOutput MakeAssetId AssetFilePath world context type version name data dataSize
  = (Success_, world', context') ->
  FileTime file = Some time ->
  Initialize asserts context' deps source_ id_
  = (if asserts then Crash AssertionFailed
     else Done (mkBuildContext source_ id_
                  (outputs context
                   ++ [mkOutput (mkContentId type name) (MakeAssetId type name) version])))
  /\
  Initialize asserts context
    (AddProcessDependency MakeAssetId deps dependency).2 source_ id_
  = (if asserts then Crash AssertionFailed
     else Done (mkBuildContext source_ id_ (outputs context)))
  /\
  Initialize asserts context
    (AddFileDependency SanitizeContentPath FileTime deps file).2 source_ id_
  = (if asserts then Crash AssertionFailed
     else Done (mkBuildContext source_ id_ (outputs context))).
Proof.
  intros Hcreate Htime.
  assert (Hout : outputs context'
                 = outputs context
                   ++ [mkOutput (mkContentId type name) (MakeAssetId type name) version]).
  { revert Hcreate. unfold CreateOutput.
    destruct (WriteWholeFile _ _ _ _) as [[|] ?]; [| discriminate].
    by intros [= _ <-]. }
  split; [| split].
  - rewrite Initialize_used.
    + by rewrite Hout.
    + right. right. rewrite Hout. by destruct (outputs context).
  - apply Initialize_used. right. left. simpl. by destruct (processDependencies deps).
  - apply Initialize_used. left.
    unfold AddFileDependency. rewrite Htime. simpl. by destruct (contentDependencies deps).
Qed.

(** X14: a process dependency on a type and name and the output created
    for the same type and name carry the same content id and the same
    asset id, so that a dependency can be matched with the output it
    waits for; the overload taking a [ContentId] agrees with the one
    taking the type and the name. *)
Theorem process_dependency_matches_output (world world' : World)
    (context context' : BuildProcessorContext) (deps : Dependencies)
    (type name : string) (version : Z) (data : list byte) (dataSize : Z) :
  CreateOutput MakeAssetId AssetFilePath world context type version name data dataSize
  = (Success_, world', context') ->
  AddProcessDependency_name MakeAssetId deps type name
  = AddProcessDependency MakeAssetId deps (mkContentId type name) /\
  exists dependency output,
    last (processDependencies (AddProcessDependency_name MakeAssetId deps type name).2)
    = Some dependency /\
    last (outputs context') = Some output /\
    dep_source dependency = out_source output /\
    dep_id dependency = out_id output /\
    contentDependencies (AddProcessDependency_name MakeAssetId deps type name).2
    = contentDependencies deps.
Proof.
  intros Hcreate. split; [done |].
  revert Hcreate. unfold CreateOutput.
  destruct (WriteWholeFile _ _ _ _) as [[|] ?]; [| discriminate].
  intros [= _ <-]. simpl.
  do 2 eexists. rewrite !last_snoc. done.
Qed.

End DependencyFacts.

Lemma Initialize_rejects_used_context_witness :
  Initialize true (add_output sample_build_context
                     (mkOutput (mkContentId "SceneResource" "box")
                        (sample_asset_id "SceneResource" "box") 1))
    (mkDependencies [] []) (mkContentId "scene" "other") (mkAssetId 0 0)
  = Crash AssertionFailed.
Proof.
  exact (proj1 (Initialize_rejects_used_context (fun s => s) (fun _ => Some 5)
                  sample_asset_id sample_asset_path true (mkWorld ∅ []) _
                  sample_build_context _ (mkDependencies [] [])
                  "SceneResource" "box" 1 [Byte.x01; Byte.x02] 2
                  (mkContentId "a" "b") (mkContentId "scene" "other") "file" 5
                  (mkAssetId 0 0) eq_refl eq_refl)).
Defined.

Lemma process_dependency_matches_output_witness :
  exists dependency,
    last (processDependencies
            (AddProcessDependency_name sample_asset_id (mkDependencies [] [])
               "SceneResource" "box").2) = Some dependency /\
    dep_id dependency = sample_asset_id "SceneResource" "box".
Proof.
  destruct (process_dependency_matches_output sample_asset_id sample_asset_path
              (mkWorld ∅ []) _ sample_build_context _ (mkDependencies [] [])
              "SceneResource" "box" 1 [Byte.x01; Byte.x02] 2 eq_refl)
    as (_ & dependency & output & Hdep & Hout & _ & Hid & _).
  exists dependency. split; [exact Hdep |].
  rewrite Hid. by injection Hout as <-.
Defined.

(** ** The calls made for one geometry *)

Section GeometryCalls.

Variable eDisplacementEnabled eAlphaTested HasNormals HasTangents HasUvs : Z.

#[local] Abbreviation displaced := (Model.hasDisplacement eDisplacementEnabled).
#[local] Abbreviation geometry_type := (mesh_geometry_type eDisplacementEnabled).
#[local] Abbreviation index_format := (mesh_index_format eDisplacementEnabled).
#[local] Abbreviation mesh_step :=
  (Model.register_mesh eDisplacementEnabled eAlphaTested HasNormals HasTangents HasUvs).
#[local] Abbreviation curve_step := (Curves.register_curve HasNormals HasTangents HasUvs).

(** The flags of a geometry's user data. *)
Definition attribute_flags (geometry : ModelGeometryData) : Z :=
  Z.lor (Z.lor (if 0 <? normalsSize geometry then HasNormals else 0)
               (if 0 <? tangentsSize geometry then HasTangents else 0))
        (if 0 <? uvsSize geometry then HasUvs else 0).

(** The user data recorded for a geometry. *)
Definition user_data (geometry : ModelGeometryData) (material : MaterialRef)
    (rtcScene g : Z) : GeometryUserData :=
  mkUserData (attribute_flags geometry) material RTC_INVALID_GEOMETRY_ID rtcScene g
             MatrixIdentity InvalidBox.

(** The calls that end the registration of a geometry. *)
Definition closing_calls (userDataIndex rtcScene g geomID : Z) : list RtcCall :=
  [rtcSetGeometryUserData g userDataIndex;
   rtcCommitGeometry g;
   rtcAttachGeometryByID rtcScene g geomID;
   rtcReleaseGeometry g].

(** The calls that give a mesh its indices and, when it is displaced,
    its faces and the displacement. *)
Definition shape_calls (gate : Z) (geometry : ModelGeometryData) (material : Material)
    (meshData : MeshMetaData) (g : Z) : list RtcCall :=
  if displaced gate material then
    [rtcSetSharedGeometryBuffer g RTC_BUFFER_TYPE_INDEX 0 RTC_FORMAT_UINT
       (Model.indices geometry) (uint32_wrap (indexOffset meshData * 4)) 4
       (indexCount meshData);
     rtcSetSharedGeometryBuffer g RTC_BUFFER_TYPE_FACE 0 RTC_FORMAT_UINT
       (Model.faceIndexCounts geometry) 0 4
       (indexCount meshData / indicesPerFace meshData);
     rtcSetGeometryDisplacementFunction g DisplacementFunction;
     rtcSetGeometryTessellationRate g TessellationRate_;
     rtcSetGeometrySubdivisionMode g 0 RTC_SUBDIVISION_MODE_PIN_BOUNDARY]
  else
    [rtcSetSharedGeometryBuffer g RTC_BUFFER_TYPE_INDEX 0
       (index_format gate material meshData)
       (Model.indices geometry) (uint32_wrap (indexOffset meshData * 4))
       (indicesPerFace meshData * 4) (indexCount meshData / indicesPerFace meshData)].

Definition filter_calls (material : Material) (g : Z) : list RtcCall :=
  if negb (Z.land (flags material) eAlphaTested =? 0)
  then [rtcSetGeometryIntersectFilterFunction g IntersectionFilter]
  else [].

(** All the calls made for one mesh. *)
Definition mesh_calls (gate : Z) (geometry : ModelGeometryData) (material : Material)
    (meshData : MeshMetaData) (vertexCalls : list RtcCall)
    (userDataIndex rtcDevice rtcScene g geomID : Z) : list RtcCall :=
  [rtcNewGeometry rtcDevice (geometry_type gate material meshData) g]
  ++ vertexCalls
  ++ shape_calls gate geometry material meshData g
  ++ filter_calls material g
  ++ closing_calls userDataIndex rtcScene g geomID.

(** All the calls made for one curve. *)
Definition curve_calls (curveData : CurveData) (curve : CurveMetaData)
    (curveVertexCount userDataIndex rtcDevice rtcScene g geomID : Z) : list RtcCall :=
  [rtcNewGeometry rtcDevice RTC_GEOMETRY_TYPE_ROUND_BSPLINE_CURVE g;
   rtcSetSharedGeometryBuffer g RTC_BUFFER_TYPE_INDEX 0 RTC_FORMAT_UINT
     (curveIndices curveData) (uint32_wrap (curve_indexOffset curve * 4)) 4
     (curve_indexCount curve);
   rtcSetSharedGeometryBuffer g RTC_BUFFER_TYPE_VERTEX 0 RTC_FORMAT_FLOAT4
     (curveVertices curveData) 0 16 curveVertexCount]
  ++ closing_calls userDataIndex rtcScene g geomID.

Lemma register_mesh_trace asserts gate offset rtcDevice rtcScene model e scan meshData
    model' e' :
  mesh_step asserts gate offset rtcDevice rtcScene (model, e) scan meshData
  = Done (model', e') ->
  exists material vertexCalls,
    deref model (FindMeshMaterial model (materialHash meshData)) = Done material /\
    indicesPerFace meshData <> 0 /\
    Forall (vertex_setup (nextGeometry e)) vertexCalls /\
    SetMeshVertexAttributes asserts
      (mkEmbree (nextGeometry e + 1)
         (calls e ++ [rtcNewGeometry rtcDevice (geometry_type gate material meshData)
                        (nextGeometry e)]))
      (nextGeometry e) model
    = Done (mkEmbree (nextGeometry e + 1)
              ((calls e ++ [rtcNewGeometry rtcDevice (geometry_type gate material meshData)
                              (nextGeometry e)]) ++ vertexCalls)) /\
    calls e'
    = calls e
      ++ mesh_calls gate (geometry model) material meshData vertexCalls
           (Z.of_nat (length (userDatas model))) rtcDevice rtcScene (nextGeometry e)
           (uint32_add offset scan) /\
    nextGeometry e' = nextGeometry e + 1 /\
    model' = add_geometry model (nextGeometry e)
               (user_data (geometry model) (FindMeshMaterial model (materialHash meshData))
                  rtcScene (nextGeometry e)).
Proof.
  unfold Model.register_mesh.
  destruct (deref model _) as [material |]; simpl; [| discriminate].
  intros Hrun. exists material.
  unfold mesh_calls, mesh_geometry_type, shape_calls, filter_calls, closing_calls,
    mesh_index_format, user_data, attribute_flags, udiv in *.
  destruct (Z.eqb_spec (indicesPerFace meshData) 0) as [Hzero | Hipf].
  { destruct (displaced gate material); simpl in Hrun;
      destruct (SetMeshVertexAttributes _ _ _ _); simpl in Hrun; discriminate. }
  destruct (displaced gate material); simpl in Hrun;
    (destruct (SetMeshVertexAttributes _ _ _ _) as [e1 |] eqn:Hsetup; simpl in Hrun;
       [| discriminate]);
    pose proof Hsetup as Hsetup';
    apply SetMeshVertexAttributes_calls in Hsetup as (Hnext & X1 & Hcalls & HX1);
    simpl in Hnext, Hcalls;
    injection Hrun as <- <-;
    exists X1;
    (split; [done |]); (split; [done |]); (split; [done |]);
    (split; [cbv beta iota; destruct e1; simpl in *; congruence |]);
    destruct (negb (Z.land (flags material) eAlphaTested =? 0));
    simpl; rewrite Hcalls, <- ?app_assoc; simpl; done.
Qed.

Lemma register_curve_trace curveData offset rtcDevice rtcScene model e scan curve :
  curve_step curveData offset rtcDevice rtcScene (model, e) scan curve
  = Done (add_geometry model (nextGeometry e)
            (user_data (geometry model) (FindMeshMaterial model (curve_nameHash curve))
               rtcScene (nextGeometry e)),
          mkEmbree (nextGeometry e + 1)
            (calls e
             ++ curve_calls curveData curve (totalCurveVertexCount (data model))
                  (Z.of_nat (length (userDatas model))) rtcDevice rtcScene (nextGeometry e)
                  (uint32_add offset scan))).
Proof.
  unfold Curves.register_curve, curve_calls, closing_calls, user_data, attribute_flags, call.
  simpl. by rewrite <- !app_assoc.
Qed.

End GeometryCalls.

(** ** The registration loops *)

(** A loop body that registers one geometry. *)
Definition Step (T : Type) : Type :=
  ModelResource * Embree -> Z -> T -> Outcome (ModelResource * Embree).

(** The loop [for (scan = ...; ...; ++scan)] over the items still to do. *)
Fixpoint loop_over {T : Type} (body : Step T) (st : ModelResource * Embree)
    (scan : Z) (todo : list T) : Outcome (ModelResource * Embree) :=
  match todo with
  | [] => mret st
  | item :: rest => st ← body st scan item; loop_over body st (scan + 1) rest
  end.

(** A body adds one geometry, under the next handle of the backend, and
    makes calls about that geometry only. *)
Definition step_adds {T : Type} (body : Step T) : Prop :=
  forall model e scan item model1 e1,
    body (model, e) scan item = Done (model1, e1) ->
    exists userData X,
      model1 = add_geometry model (nextGeometry e) userData /\
      calls e1 = calls e ++ X /\
      nextGeometry e1 = nextGeometry e + 1 /\
      Forall (fun c => about c = nextGeometry e) X.

Lemma omap_elsewhere {A} (f : RtcCall -> option A) (g : Z) (X : list RtcCall) :
  (forall c, about c <> g -> f c = None) ->
  Forall (fun c => about c <> g) X -> omap f X = [].
Proof. intros Hf. by apply omap_none. Qed.

Lemma loop_over_runs {T : Type} (body : Step T) :
  step_adds body ->
  forall todo model e scan model' e',
    loop_over body (model, e) scan todo = Done (model', e') ->
    data model' = data model /\
    geometry model' = geometry model /\
    defaultMaterial model' = defaultMaterial model /\
    nextGeometry e' = nextGeometry e + Z.of_nat (length todo) /\
    exists G U X,
      rtcGeometries model' = rtcGeometries model ++ G /\
      userDatas model' = userDatas model ++ U /\
      length G = length todo /\ length U = length todo /\
      calls e' = calls e ++ X /\
      Forall (fun c => nextGeometry e <= about c < nextGeometry e + Z.of_nat (length todo)) X /\
      forall (i : nat) (item : T),
        todo !! i = Some item ->
        exists model_i e_i userData e_i' X_i,
          data model_i = data model /\
          geometry model_i = geometry model /\
          defaultMaterial model_i = defaultMaterial model /\
          length (userDatas model_i) = (length (userDatas model) + i)%nat /\
          length (rtcGeometries model_i) = (length (rtcGeometries model) + i)%nat /\
          nextGeometry e_i = nextGeometry e + Z.of_nat i /\
          body (model_i, e_i) (scan + Z.of_nat i) item
          = Done (add_geometry model_i (nextGeometry e_i) userData, e_i') /\
          calls e_i' = calls e_i ++ X_i /\
          G !! i = Some (nextGeometry e + Z.of_nat i) /\
          U !! i = Some userData /\
          forall (A : Type) (f : RtcCall -> option A),
            (forall c, about c <> nextGeometry e + Z.of_nat i -> f c = None) ->
            omap f X = omap f X_i.
Proof.
  intros Hbody.
  induction todo as [| item rest IH]; intros model e scan model' e' Hrun.
  - injection Hrun as <- <-. repeat split; [simpl; lia |].
    exists [], [], []. rewrite !app_nil_r. repeat split; try done.
  - cbn [loop_over] in Hrun.
    destruct (body (model, e) scan item) as [[model1 e1] |] eqn:Hfirst;
      simpl in Hrun; [| discriminate].
    destruct (Hbody _ _ _ _ _ _ Hfirst) as (ud0 & X0 & -> & Hcalls0 & Hnext0 & Habout0).
    apply IH in Hrun
      as (Hdata & Hgeom & Hdef & Hnext & G & U & X & HG & HU & HlenG & HlenU & Hcalls
          & Habout & Hitems).
    simpl in Hdata, Hgeom, Hdef, HG, HU.
    split; [done |]. split; [done |]. split; [done |].
    split; [simpl length; lia |].
    exists (nextGeometry e :: G), (ud0 :: U), (X0 ++ X).
    split; [by rewrite HG, <- app_assoc |].
    split; [by rewrite HU, <- app_assoc |].
    split; [simpl; lia |]. split; [simpl; lia |].
    split; [by rewrite Hcalls, Hcalls0, <- app_assoc |].
    split.
    { apply Forall_app. split.
      - eapply Forall_impl; [exact Habout0 |]. simpl. intros c ->. lia.
      - eapply Forall_impl; [exact Habout |]. simpl. intros c Hc. lia. }
    intros [| i] it Hit; simpl in Hit.
    + injection Hit as <-.
      exists model, e, ud0, e1, X0.
      rewrite !Nat.add_0_r, !Z.add_0_r.
      repeat split; try done.
      intros A f Hf. rewrite omap_app, (omap_elsewhere f (nextGeometry e) X), app_nil_r;
        [done | done |].
      eapply Forall_impl; [exact Habout |]. simpl. intros c Hc. lia.
    + destruct (Hitems i it Hit)
        as (model_i & e_i & ud & e_i' & X_i & Hd & Hg & Hm & Hlu & Hlg & Hn & Hstep & Hc
            & HGi & HUi & Hview).
      exists model_i, e_i, ud, e_i', X_i.
      simpl in Hd, Hg, Hm, Hlu, Hlg. rewrite length_app in Hlu, Hlg. simpl in Hlu, Hlg.
      split; [done |]. split; [done |]. split; [done |].
      split; [lia |]. split; [lia |]. split; [lia |].
      split; [by replace (scan + Z.of_nat (S i)) with (scan + 1 + Z.of_nat i) by lia |].
      split; [done |].
      split; [simpl; rewrite HGi; f_equal; lia |].
      split; [done |].
      intros A f Hf.
      rewrite omap_app, (omap_elsewhere f (nextGeometry e + Z.of_nat (S i)) X0), app_nil_l.
      * apply Hview. intros c Hc'. apply Hf. lia.
      * done.
      * eapply Forall_impl; [exact Habout0 |]. simpl. intros c ->. lia.
Qed.

Section Loops.

Variable eDisplacementEnabled eAlphaTested HasNormals HasTangents HasUvs : Z.

#[local] Abbreviation mesh_body :=
  (Model.register_mesh eDisplacementEnabled eAlphaTested HasNormals HasTangents HasUvs).
#[local] Abbreviation curve_body := (Curves.register_curve HasNormals HasTangents HasUvs).

Lemma register_meshes_loop asserts gate offset rtcDevice rtcScene todo : forall st scan,
  Model.register_meshes eDisplacementEnabled eAlphaTested HasNormals HasTangents HasUvs
    asserts gate offset rtcDevice rtcScene st scan todo
  = loop_over (mesh_body asserts gate offset rtcDevice rtcScene) st scan todo.
Proof.
  induction todo as [| item rest IH]; intros st scan; [done |].
  cbn [Model.register_meshes loop_over].
  destruct (mesh_body _ _ _ _ _ st scan item); simpl; [apply IH | done].
Qed.

Lemma register_curves_loop curveData offset rtcDevice rtcScene todo : forall st scan,
  Curves.register_curves HasNormals HasTangents HasUvs curveData offset rtcDevice rtcScene
    st scan todo
  = loop_over (curve_body curveData offset rtcDevice rtcScene) st scan todo.
Proof.
  induction todo as [| item rest IH]; intros st scan; [done |].
  cbn [Curves.register_curves loop_over].
  destruct (curve_body _ _ _ _ st scan item); simpl; [apply IH | done].
Qed.

Lemma mesh_body_adds asserts gate offset rtcDevice rtcScene :
  step_adds (mesh_body asserts gate offset rtcDevice rtcScene).
Proof.
  intros model e scan item model1 e1 Hrun.
  apply register_mesh_trace in Hrun
    as (material & X1 & _ & _ & HX1 & _ & Hcalls & Hnext & ->).
  do 2 eexists. split; [reflexivity |]. split; [exact Hcalls |]. split; [done |].
  unfold mesh_calls, shape_calls, filter_calls, closing_calls.
  repeat (apply Forall_app; split).
  - by repeat constructor.
  - eapply Forall_impl; [exact HX1 | apply vertex_setup_about].
  - destruct (Model.hasDisplacement _ _ _); by repeat constructor.
  - destruct (negb _); by repeat constructor.
  - by repeat constructor.
Qed.

Lemma curve_body_adds curveData offset rtcDevice rtcScene :
  step_adds (curve_body curveData offset rtcDevice rtcScene).
Proof.
  intros model e scan item model1 e1 Hrun.
  rewrite register_curve_trace in Hrun. injection Hrun as <- <-.
  do 2 eexists. split; [reflexivity |]. split; [reflexivity |]. split; [done |].
  unfold curve_calls, closing_calls. by repeat constructor.
Qed.

End Loops.

(** ** What the backend is told about one geometry *)

(** The intersection filters set on geometry [g]. *)
Definition filter_view (g : Z) (c : RtcCall) : option Callback :=
  match c with
  | rtcSetGeometryIntersectFilterFunction g' f => if g' =? g then Some f else None
  | _ => None
  end.

(** The calls that create geometry [g], give it its user data, commit it,
    attach it to a scene and release it. *)
Definition lifecycle_view (g : Z) (c : RtcCall) : option RtcCall :=
  match c with
  | rtcNewGeometry _ _ g'
  | rtcSetGeometryUserData g' _
  | rtcCommitGeometry g'
  | rtcAttachGeometryByID _ g' _
  | rtcReleaseGeometry g' => if g' =? g then Some c else None
  | _ => None
  end.

(** The index buffers bound to geometry [g]: format, address, byte offset,
    byte stride and item count. *)
Definition index_buffer_view (g : Z) (c : RtcCall)
    : option (RTCFormat * Z * Z * Z * Z) :=
  match c with
  | rtcSetSharedGeometryBuffer g' RTC_BUFFER_TYPE_INDEX _ format ptr byteOffset byteStride
      itemCount =>
      if g' =? g then Some (format, ptr, byteOffset, byteStride, itemCount) else None
  | _ => None
  end.

(** The geometries attached to a scene, with the scene and the ID they
    are attached under. *)
Definition attach_view (c : RtcCall) : option (Z * Z * Z) :=
  match c with
  | rtcAttachGeometryByID scene g geomID => Some (scene, g, geomID)
  | _ => None
  end.

Lemma other_filter_view g c : about c <> g -> filter_view g c = None.
Proof. destruct c; simpl; try done. intros Hne. by destruct (Z.eqb_spec geom g). Qed.

Lemma other_lifecycle_view g c : about c <> g -> lifecycle_view g c = None.
Proof.
  destruct c; simpl; try done; intros Hne;
    match goal with |- context [?a =? g] => by destruct (Z.eqb_spec a g) end.
Qed.

Lemma other_index_buffer_view g c : about c <> g -> index_buffer_view g c = None.
Proof.
  destruct c as [| ? [] | | | | | | | | |]; simpl; try done.
  intros Hne. by destruct (Z.eqb_spec geom g).
Qed.

Lemma vertex_setup_filter_view g g' c : vertex_setup g c -> filter_view g' c = None.
Proof. by destruct c. Qed.

Lemma vertex_setup_lifecycle_view g g' c : vertex_setup g c -> lifecycle_view g' c = None.
Proof. by destruct c. Qed.

Lemma vertex_setup_index_buffer_view g g' c :
  vertex_setup g c -> index_buffer_view g' c = None.
Proof. by destruct c as [| ? [] | | | | | | | | |]. Qed.

Lemma vertex_setup_attach_view g c : vertex_setup g c -> attach_view c = None.
Proof. by destruct c. Qed.

Section Registrations.

Variable eDisplacementEnabled eAlphaTested HasNormals HasTangents HasUvs : Z.

#[local] Abbreviation hasDisplacement := (Model.hasDisplacement eDisplacementEnabled).
#[local] Abbreviation InitializeMeshes :=
  (Model.InitializeMeshes eDisplacementEnabled eAlphaTested HasNormals HasTangents HasUvs).
#[local] Abbreviation InitializeCurves :=
  (Curves.InitializeCurves HasNormals HasTangents HasUvs).
#[local] Abbreviation PopulateEmbreeScene :=
  (Curves.PopulateEmbreeScene eDisplacementEnabled eAlphaTested HasNormals HasTangents
     HasUvs).
#[local] Abbreviation mesh_body :=
  (Model.register_mesh eDisplacementEnabled eAlphaTested HasNormals HasTangents HasUvs).
#[local] Abbreviation curve_body := (Curves.register_curve HasNormals HasTangents HasUvs).
#[local] Abbreviation mesh_calls := (mesh_calls eDisplacementEnabled eAlphaTested).
#[local] Abbreviation user_data := (user_data HasNormals HasTangents HasUvs).

Lemma InitializeMeshes_loop asserts gate model e offset rtcDevice rtcScene next model' e' :
  Z.of_nat (length (meshes (data model))) < uint32_modulus ->
  InitializeMeshes asserts gate model e offset rtcDevice rtcScene
  = Done (next, model', e') ->
  next = uint32_add offset (Z.of_nat (length (meshes (data model)))) /\
  loop_over (mesh_body asserts gate offset rtcDevice rtcScene) (model, e) 0
    (meshes (data model))
  = Done (model', e').
Proof.
  intros Hcount. unfold Model.InitializeMeshes.
  destruct (Assert_ asserts (aligned (Model.indices (geometry model)))); simpl;
    [| discriminate].
  destruct (Assert_ asserts _); simpl; [| discriminate].
  rewrite uint32_wrap_small, Nat2Z.id, firstn_all by (unfold is_uint32; lia).
  rewrite register_meshes_loop.
  destruct (loop_over _ _ _ _) as [[model1 e1] |]; simpl; [| discriminate].
  by intros [= <- <- <-].
Qed.

Lemma InitializeCurves_loop asserts model curveData e offset rtcDevice rtcScene next
    model' e' :
  Z.of_nat (length (curves curveData)) < uint32_modulus ->
  InitializeCurves asserts model curveData e offset rtcDevice rtcScene
  = Done (next, model', e') ->
  next = uint32_add offset (Z.of_nat (length (curves curveData))) /\
  loop_over (curve_body curveData offset rtcDevice rtcScene) (model, e) 0
    (curves curveData)
  = Done (model', e').
Proof.
  intros Hcount. unfold Curves.InitializeCurves.
  destruct (Assert_ asserts (aligned (curveIndices curveData))); simpl; [| discriminate].
  destruct (Assert_ asserts _); simpl; [| discriminate].
  rewrite uint32_wrap_small, Nat2Z.id, firstn_all by (unfold is_uint32; lia).
  rewrite register_curves_loop.
  destruct (loop_over _ _ _ _) as [[model1 e1] |]; simpl; [| discriminate].
  by intros [= <- <- <-].
Qed.

Lemma add_geometry_inj model g userData1 userData2 :
  add_geometry model g userData1 = add_geometry model g userData2 ->
  userData1 = userData2.
Proof.
  unfold add_geometry. intros [= Heq]. apply app_inv_head in Heq. by injection Heq.
Qed.

(** The calls about the geometry of mesh [i], and what the model records
    for it, after [InitializeMeshes]. *)
Lemma mesh_registration asserts gate model e offset rtcDevice rtcScene next model' e'
    (i : nat) meshData :
  Forall (fun c => about c < nextGeometry e) (calls e) ->
  Z.of_nat (length (meshes (data model))) < uint32_modulus ->
  InitializeMeshes asserts gate model e offset rtcDevice rtcScene
  = Done (next, model', e') ->
  meshes (data model) !! i = Some meshData ->
  exists material vertexCalls,
    deref model (FindMeshMaterial model (materialHash meshData)) = Done material /\
    indicesPerFace meshData <> 0 /\
    Forall (vertex_setup (nextGeometry e + Z.of_nat i)) vertexCalls /\
    rtcGeometries model' !! (length (rtcGeometries model) + i)%nat
    = Some (nextGeometry e + Z.of_nat i) /\
    userDatas model' !! (length (userDatas model) + i)%nat
    = Some (user_data (geometry model) (FindMeshMaterial model (materialHash meshData))
              rtcScene (nextGeometry e + Z.of_nat i)) /\
    forall (A : Type) (f : RtcCall -> option A),
      (forall c, about c <> nextGeometry e + Z.of_nat i -> f c = None) ->
      omap f (calls e')
      = omap f (mesh_calls gate (geometry model) material meshData vertexCalls
                  (Z.of_nat (length (userDatas model) + i)) rtcDevice rtcScene
                  (nextGeometry e + Z.of_nat i) (uint32_add offset (Z.of_nat i))).
Proof.
  intros Hfresh Hcount Hrun Hmesh.
  apply InitializeMeshes_loop in Hrun as [_ Hloop]; [| done].
  apply (loop_over_runs _ (mesh_body_adds _ _ _ _ _ _ _ _ _ _)) in Hloop
    as (_ & _ & _ & _ & G & U & X & HG & HU & _ & _ & Hcalls & _ & Hitems).
  destruct (Hitems i meshData Hmesh)
    as (model_i & e_i & ud & e_i' & X_i & Hd & Hg & Hm & Hlu & _ & Hn & Hstep & Hc
        & HGi & HUi & Hview).
  pose proof Hstep as Htrace.
  apply register_mesh_trace in Htrace
    as (material & vertexCalls & Hderef & Hipf & Hvertex & _ & Hcalls_i & _ & Hmodel).
  apply add_geometry_inj in Hmodel. subst ud.
  rewrite Hc in Hcalls_i. apply app_inv_head in Hcalls_i. subst X_i.
  rewrite (FindMeshMaterial_same model model_i), (deref_same model model_i) in Hderef
    by done.
  rewrite (FindMeshMaterial_same model model_i), Hg, Hn in HUi by done.
  exists material, vertexCalls.
  split; [done |]. split; [done |]. split; [by rewrite <- Hn |].
  split; [by rewrite HG, lookup_app_r, Nat.add_comm, Nat.add_sub by lia |].
  split; [by rewrite HU, lookup_app_r, Nat.add_comm, Nat.add_sub by lia |].
  intros A f Hf.
  rewrite Hcalls, omap_app, (omap_elsewhere f (nextGeometry e + Z.of_nat i) (calls e)),
    app_nil_l, (Hview A f Hf), Hg, Hlu, Hn, Z.add_0_l; [done | done |].
  eapply Forall_impl; [exact Hfresh |]. simpl. intros c Hc'. lia.
Qed.

(** The same for curve [i] and [InitializeCurves]. *)
Lemma curve_registration asserts model curveData e offset rtcDevice rtcScene next model' e'
    (i : nat) curve :
  Forall (fun c => about c < nextGeometry e) (calls e) ->
  Z.of_nat (length (curves curveData)) < uint32_modulus ->
  InitializeCurves asserts model curveData e offset rtcDevice rtcScene
  = Done (next, model', e') ->
  curves curveData !! i = Some curve ->
  rtcGeometries model' !! (length (rtcGeometries model) + i)%nat
  = Some (nextGeometry e + Z.of_nat i) /\
  userDatas model' !! (length (userDatas model) + i)%nat
  = Some (user_data (geometry model) (FindMeshMaterial model (curve_nameHash curve))
            rtcScene (nextGeometry e + Z.of_nat i)) /\
  forall (A : Type) (f : RtcCall -> option A),
    (forall c, about c <> nextGeometry e + Z.of_nat i -> f c = None) ->
    omap f (calls e')
    = omap f (curve_calls curveData curve (totalCurveVertexCount (data model))
                (Z.of_nat (length (userDatas model) + i)) rtcDevice rtcScene
                (nextGeometry e + Z.of_nat i) (uint32_add offset (Z.of_nat i))).
Proof.
  intros Hfresh Hcount Hrun Hcurve.
  apply InitializeCurves_loop in Hrun as [_ Hloop]; [| done].
  apply (loop_over_runs _ (curve_body_adds _ _ _ _ _ _ _)) in Hloop
    as (_ & _ & _ & _ & G & U & X & HG & HU & _ & _ & Hcalls & _ & Hitems).
  destruct (Hitems i curve Hcurve)
    as (model_i & e_i & ud & e_i' & X_i & Hd & Hg & Hm & Hlu & _ & Hn & Hstep & Hc
        & HGi & HUi & Hview).
  rewrite register_curve_trace in Hstep. injection Hstep as Hmodel He.
  apply app_inv_head in Hmodel. injection Hmodel as <-. subst e_i'. simpl in Hc.
  apply app_inv_head in Hc. subst X_i.
  rewrite (FindMeshMaterial_same model model_i), Hg, Hn in HUi by done.
  split; [by rewrite HG, lookup_app_r, Nat.add_comm, Nat.add_sub by lia |].
  split; [by rewrite HU, lookup_app_r, Nat.add_comm, Nat.add_sub by lia |].
  intros A f Hf.
  rewrite Hcalls, omap_app, (omap_elsewhere f (nextGeometry e + Z.of_nat i) (calls e)),
    app_nil_l, (Hview A f Hf), Hd, Hlu, Hn, Z.add_0_l; [done | done |].
  eapply Forall_impl; [exact Hfresh |]. simpl. intros c Hc'. lia.
Qed.

End Registrations.

(** ** Meshes: filter, life cycle and index buffer of each geometry *)

Section MeshFacts.

Variable eDisplacementEnabled eAlphaTested HasNormals HasTangents HasUvs : Z.

#[local] Abbreviation hasDisplacement := (Model.hasDisplacement eDisplacementEnabled).
#[local] Abbreviation InitializeMeshes :=
  (Model.InitializeMeshes eDisplacementEnabled eAlphaTested HasNormals HasTangents HasUvs).
#[local] Abbreviation geometry_type := (mesh_geometry_type eDisplacementEnabled).
#[local] Abbreviation user_data := (user_data HasNormals HasTangents HasUvs).

(** X15: [InitializeMeshes] installs the intersection filter on the
    geometry of a mesh exactly when the mesh's material has the
    alpha-tested flag: the geometry of mesh [i] gets the one callback
    [IntersectionFilter] when the flag is set and no filter at all
    otherwise, whatever the displacement flag and the gate are. *)
Theorem InitializeMeshes_alpha_filter (asserts : bool) (gate : Z)
    (model : ModelResource) (e : Embree) (offset rtcDevice rtcScene : Z)
    (next : Z) (model' : ModelResource) (e' : Embree)
    (i : nat) (meshData : MeshMetaData) :
  Forall (fun c => about c < nextGeometry e) (calls e) ->
  Z.of_nat (length (meshes (data model))) < uint32_modulus ->
  InitializeMeshes asserts gate model e offset rtcDevice rtcScene
  = Done (next, model', e') ->
  meshes (data model) !! i = Some meshData ->
  exists material : Material,
    deref model (FindMeshMaterial model (materialHash meshData)) = Done material /\
    omap (filter_view (nextGeometry e + Z.of_nat i)) (calls e')
    = if Z.land (flags material) eAlphaTested =? 0 then [] else [IntersectionFilter].
Proof.
  intros Hfresh Hcount Hrun Hmesh.
  destruct (mesh_registration _ _ _ _ _ _ _ _ _ _ _ _ _ _ _ _ _ Hfresh Hcount Hrun Hmesh)
    as (material & vertexCalls & Hderef & _ & Hvertex & _ & _ & Hview).
  exists material. split; [done |].
  rewrite (Hview _ _ (other_filter_view _)).
  unfold mesh_calls, shape_calls, filter_calls, closing_calls.
  rewrite !omap_app,
    (omap_none _ _ _ (vertex_setup_filter_view _ (nextGeometry e + Z.of_nat i)) Hvertex).
  destruct (hasDisplacement gate material);
    destruct (Z.land (flags material) eAlphaTested =? 0);
    simpl; rewrite ?Z.eqb_refl; done.
Qed.

(** X16: every mesh gets a geometry of its own that goes through one life
    cycle: it is created once (with the mesh's geometry type), given as
    user data the entry that [InitializeMeshes] appends for it to
    [userDatas], committed, attached to the scene under the ID
    [offset + i] (in [uint32] arithmetic) and released, in this order and
    each once.  The appended entry names the same geometry and scene, the
    material [FindMeshMaterial] gave, and no instance. *)
Theorem InitializeMeshes_geometry_lifecycle (asserts : bool) (gate : Z)
    (model : ModelResource) (e : Embree) (offset rtcDevice rtcScene : Z)
    (next : Z) (model' : ModelResource) (e' : Embree)
    (i : nat) (meshData : MeshMetaData) :
  Forall (fun c => about c < nextGeometry e) (calls e) ->
  Z.of_nat (length (meshes (data model))) < uint32_modulus ->
  InitializeMeshes asserts gate model e offset rtcDevice rtcScene
  = Done (next, model', e') ->
  meshes (data model) !! i = Some meshData ->
  exists (material : Material) (userData : GeometryUserData),
    deref model (FindMeshMaterial model (materialHash meshData)) = Done material /\
    rtcGeometries model' !! (length (rtcGeometries model) + i)%nat
    = Some (nextGeometry e + Z.of_nat i) /\
    userDatas model' !! (length (userDatas model) + i)%nat = Some userData /\
    ud_rtcGeometry userData = nextGeometry e + Z.of_nat i /\
    ud_rtcScene userData = rtcScene /\
    ud_material userData = FindMeshMaterial model (materialHash meshData) /\
    ud_instanceID userData = RTC_INVALID_GEOMETRY_ID /\
    omap (lifecycle_view (nextGeometry e + Z.of_nat i)) (calls e')
    = [rtcNewGeometry rtcDevice (geometry_type gate material meshData)
         (nextGeometry e + Z.of_nat i);
       rtcSetGeometryUserData (nextGeometry e + Z.of_nat i)
         (Z.of_nat (length (userDatas model) + i));
       rtcCommitGeometry (nextGeometry e + Z.of_nat i);
       rtcAttachGeometryByID rtcScene (nextGeometry e + Z.of_nat i)
         (uint32_add offset (Z.of_nat i));
       rtcReleaseGeometry (nextGeometry e + Z.of_nat i)].
Proof.
  intros Hfresh Hcount Hrun Hmesh.
  destruct (mesh_registration _ _ _ _ _ _ _ _ _ _ _ _ _ _ _ _ _ Hfresh Hcount Hrun Hmesh)
    as (material & vertexCalls & Hderef & _ & Hvertex & Hgeo & Huser & Hview).
  exists material,
    (user_data (geometry model) (FindMeshMaterial model (materialHash meshData)) rtcScene
       (nextGeometry e + Z.of_nat i)).
  split; [done |]. split; [done |]. split; [done |].
  split; [done |]. split; [done |]. split; [done |]. split; [done |].
  rewrite (Hview _ _ (other_lifecycle_view _)).
  unfold mesh_calls, shape_calls, filter_calls, closing_calls.
  rewrite !omap_app,
    (omap_none _ _ _ (vertex_setup_lifecycle_view _ (nextGeometry e + Z.of_nat i)) Hvertex).
  destruct (hasDisplacement gate material);
    destruct (negb (Z.land (flags material) eAlphaTested =? 0));
    simpl; rewrite ?Z.eqb_refl; done.
Qed.

(** X17: the index buffer bound to the geometry of a mesh starts at the
    mesh's first index and stays inside the mesh's own indices: for a mesh
    with [indexOffset < 2^30] the one index buffer of its geometry is the
    model's index array at byte offset [4 * indexOffset], and stride times
    item count is at most [4 * indexCount] -- faces are counted by the
    rounded-down quotient [indexCount / indicesPerFace]. *)
Theorem InitializeMeshes_index_buffer (asserts : bool) (gate : Z)
    (model : ModelResource) (e : Embree) (offset rtcDevice rtcScene : Z)
    (next : Z) (model' : ModelResource) (e' : Embree)
    (i : nat) (meshData : MeshMetaData) :
  Forall (fun c => about c < nextGeometry e) (calls e) ->
  Z.of_nat (length (meshes (data model))) < uint32_modulus ->
  InitializeMeshes asserts gate model e offset rtcDevice rtcScene
  = Done (next, model', e') ->
  meshes (data model) !! i = Some meshData ->
  0 <= indexOffset meshData < 2 ^ 30 ->
  0 <= indexCount meshData ->
  0 <= indicesPerFace meshData ->
  exists (format : RTCFormat) (byteStride itemCount : Z),
    omap (index_buffer_view (nextGeometry e + Z.of_nat i)) (calls e')
    = [(format, Model.indices (geometry model), 4 * indexOffset meshData, byteStride,
        itemCount)] /\
    0 <= byteStride * itemCount <= 4 * indexCount meshData /\
    4 * indexCount meshData - byteStride * itemCount < 4 * indicesPerFace meshData.
Proof.
  intros Hfresh Hcount Hrun Hmesh Hoffset Hindices Hipf.
  destruct (mesh_registration _ _ _ _ _ _ _ _ _ _ _ _ _ _ _ _ _ Hfresh Hcount Hrun Hmesh)
    as (material & vertexCalls & _ & Hnonzero & Hvertex & _ & _ & Hview).
  rewrite (Hview _ _ (other_index_buffer_view _)).
  unfold mesh_calls, shape_calls, filter_calls, closing_calls.
  rewrite !omap_app,
    (omap_none _ _ _ (vertex_setup_index_buffer_view _ (nextGeometry e + Z.of_nat i))
       Hvertex).
  assert (Hbyte : uint32_wrap (indexOffset meshData * 4) = 4 * indexOffset meshData).
  { rewrite uint32_wrap_small; [lia |]. unfold is_uint32, uint32_modulus. lia. }
  pose proof (Z.mul_div_le (indexCount meshData) (indicesPerFace meshData) ltac:(lia)).
  pose proof (Z.div_pos (indexCount meshData) (indicesPerFace meshData) Hindices
                ltac:(lia)).
  pose proof (Z.mod_pos_bound (indexCount meshData) (indicesPerFace meshData) ltac:(lia)).
  pose proof (Z.div_mod (indexCount meshData) (indicesPerFace meshData) Hnonzero).
  destruct (hasDisplacement gate material);
    destruct (negb (Z.land (flags material) eAlphaTested =? 0));
    simpl; rewrite ?Z.eqb_refl, Hbyte; do 3 eexists; (split; [reflexivity |]); nia.
Qed.

End MeshFacts.

(** The run of [InitializeMeshes] on the small model as the file is built
    (the displacement gate off), with the alpha-tested flag on bit 0. *)
Definition sample_filtered_registration : Outcome (Z * ModelResource * Embree) :=
  InitializeMeshes 4 1 8 16 32 true EnableDisplacement_ sample_initialized_model
    (mkEmbree 0 []) 0 7 9.

Lemma InitializeMeshes_alpha_filter_witness :
  match sample_filtered_registration with
  | Done (_, model', e') =>
      omap (filter_view 0) (calls e') = [] /\
      omap (filter_view 1) (calls e') = [IntersectionFilter]
  | Crash _ => False
  end.
Proof.
  destruct sample_filtered_registration as [[[next model'] e'] | fault] eqn:Hrun;
    [| vm_compute in Hrun; discriminate].
  destruct (InitializeMeshes_alpha_filter 4 1 8 16 32 true EnableDisplacement_
              sample_initialized_model (mkEmbree 0 []) 0 7 9 next model' e'
              0%nat (sample_mesh 10 3) ltac:(constructor) eq_refl Hrun eq_refl)
    as (material0 & Hderef0 & Hfilter0).
  destruct (InitializeMeshes_alpha_filter 4 1 8 16 32 true EnableDisplacement_
              sample_initialized_model (mkEmbree 0 []) 0 7 9 next model' e'
              1%nat (sample_mesh 20 4) ltac:(constructor) eq_refl Hrun eq_refl)
    as (material1 & Hderef1 & Hfilter1).
  injection Hderef0 as <-. injection Hderef1 as <-. by split.
Defined.

Lemma InitializeMeshes_geometry_lifecycle_witness :
  match sample_filtered_registration with
  | Done (_, model', e') =>
      omap (lifecycle_view 2) (calls e')
      = [rtcNewGeometry 7 RTC_GEOMETRY_TYPE_QUAD 2; rtcSetGeometryUserData 2 2;
         rtcCommitGeometry 2; rtcAttachGeometryByID 9 2 2; rtcReleaseGeometry 2]
  | Crash _ => False
  end.
Proof.
  destruct sample_filtered_registration as [[[next model'] e'] | fault] eqn:Hrun;
    [| vm_compute in Hrun; discriminate].
  destruct (InitializeMeshes_geometry_lifecycle 4 1 8 16 32 true EnableDisplacement_
              sample_initialized_model (mkEmbree 0 []) 0 7 9 next model' e'
              2%nat (sample_mesh 99 4) ltac:(constructor) eq_refl Hrun eq_refl)
    as (material & userData & Hderef & _ & _ & _ & _ & _ & _ & Hcycle).
  injection Hderef as <-. exact Hcycle.
Defined.

Lemma InitializeMeshes_index_buffer_witness :
  match sample_filtered_registration with
  | Done (_, model', e') =>
      exists format byteStride itemCount,
        omap (index_buffer_view 0) (calls e')
        = [(format, 4096, 0, byteStride, itemCount)] /\
        0 <= byteStride * itemCount <= 48
  | Crash _ => False
  end.
Proof.
  destruct sample_filtered_registration as [[[next model'] e'] | fault] eqn:Hrun;
    [| vm_compute in Hrun; discriminate].
  destruct (InitializeMeshes_index_buffer 4 1 8 16 32 true EnableDisplacement_
              sample_initialized_model (mkEmbree 0 []) 0 7 9 next model' e'
              0%nat (sample_mesh 10 3) ltac:(constructor) eq_refl Hrun eq_refl
              ltac:(simpl; lia) ltac:(simpl; lia) ltac:(simpl; lia))
    as (format & byteStride & itemCount & Hview & Hrange & _).
  by exists format, byteStride, itemCount.
Defined.

(** ** Curves and the whole scene *)

Lemma loop_over_total {T : Type} (body : Step T) :
  (forall st scan item, exists st', body st scan item = Done st') ->
  forall todo st scan, exists st', loop_over body st scan todo = Done st'.
Proof.
  intros Hbody. induction todo as [| item rest IH]; intros st scan; [by eexists |].
  cbn [loop_over]. destruct (Hbody st scan item) as [st1 ->]. simpl. apply IH.
Qed.

(** A view of the calls to which every turn of a loop adds one entry. *)
Lemma loop_over_view {T A : Type} (body : Step T) (f : RtcCall -> option A)
    (v : Z -> Z -> A) :
  (forall model e scan item model1 e1,
     body (model, e) scan item = Done (model1, e1) ->
     nextGeometry e1 = nextGeometry e + 1 /\
     omap f (calls e1) = omap f (calls e) ++ [v (nextGeometry e) scan]) ->
  forall todo model e scan model' e',
    loop_over body (model, e) scan todo = Done (model', e') ->
    omap f (calls e')
    = omap f (calls e)
      ++ ((fun k : nat => v (nextGeometry e + Z.of_nat k) (scan + Z.of_nat k))
            <$> seq 0 (length todo)).
Proof.
  intros Hbody.
  induction todo as [| item rest IH]; intros model e scan model' e' Hrun.
  - injection Hrun as <- <-. simpl. by rewrite app_nil_r.
  - cbn [loop_over] in Hrun.
    destruct (body (model, e) scan item) as [[model1 e1] |] eqn:Hfirst;
      simpl in Hrun; [| discriminate].
    destruct (Hbody _ _ _ _ _ _ Hfirst) as [Hnext Hview].
    rewrite (IH _ _ _ _ _ Hrun), Hview, <- app_assoc. f_equal.
    cbn [length seq fmap list_fmap app]. rewrite !Z.add_0_r. f_equal.
    rewrite <- fmap_S_seq, <- list_fmap_compose.
    apply list_fmap_ext. intros _ k _. simpl. f_equal; lia.
Qed.

Lemma handles_in_turn (G : list Z) (first : Z) (n : nat) :
  length G = n ->
  (forall i : nat, (i < n)%nat -> G !! i = Some (first + Z.of_nat i)) ->
  G = (fun k : nat => first + Z.of_nat k) <$> seq 0 n.
Proof.
  intros Hlen HG. apply list_eq. intros i.
  destruct (decide (i < n)%nat) as [Hlt | Hge].
  - rewrite (HG i Hlt), list_lookup_fmap, lookup_seq_lt by done. done.
  - rewrite !lookup_ge_None_2; [done | |]; rewrite ?length_fmap, ?length_seq; lia.
Qed.

Section SceneFacts.

Variable eDisplacementEnabled eAlphaTested HasNormals HasTangents HasUvs : Z.

#[local] Abbreviation InitializeMeshes :=
  (Model.InitializeMeshes eDisplacementEnabled eAlphaTested HasNormals HasTangents HasUvs).
#[local] Abbreviation InitializeCurves :=
  (Curves.InitializeCurves HasNormals HasTangents HasUvs).
#[local] Abbreviation PopulateEmbreeScene :=
  (Curves.PopulateEmbreeScene eDisplacementEnabled eAlphaTested HasNormals HasTangents
     HasUvs).
#[local] Abbreviation mesh_body :=
  (Model.register_mesh eDisplacementEnabled eAlphaTested HasNormals HasTangents HasUvs).
#[local] Abbreviation curve_body := (Curves.register_curve HasNormals HasTangents HasUvs).
#[local] Abbreviation user_data := (user_data HasNormals HasTangents HasUvs).

(** X18: every curve is registered as a round B-spline curve whatever its
    material says: the geometry of curve [i] is created once with that
    type, gets one index buffer of single [uint] indices at byte offset
    [uint32 (4 * indexOffset)], no intersection filter and no displacement
    function, and is attached under the ID [offset + i]; its user data
    holds the material that [FindMeshMaterial] gives for the curve's name
    hash. *)
Theorem InitializeCurves_geometry (asserts : bool) (model : ModelResource)
    (curveData : CurveData) (e : Embree) (offset rtcDevice rtcScene : Z)
    (next : Z) (model' : ModelResource) (e' : Embree)
    (i : nat) (curve : CurveMetaData) :
  Forall (fun c => about c < nextGeometry e) (calls e) ->
  Z.of_nat (length (curves curveData)) < uint32_modulus ->
  InitializeCurves asserts model curveData e offset rtcDevice rtcScene
  = Done (next, model', e') ->
  curves curveData !! i = Some curve ->
  rtcGeometries model' !! (length (rtcGeometries model) + i)%nat
  = Some (nextGeometry e + Z.of_nat i) /\
  userDatas model' !! (length (userDatas model) + i)%nat
  = Some (user_data (geometry model) (FindMeshMaterial model (curve_nameHash curve))
            rtcScene (nextGeometry e + Z.of_nat i)) /\
  omap (lifecycle_view (nextGeometry e + Z.of_nat i)) (calls e')
  = [rtcNewGeometry rtcDevice RTC_GEOMETRY_TYPE_ROUND_BSPLINE_CURVE
       (nextGeometry e + Z.of_nat i);
     rtcSetGeometryUserData (nextGeometry e + Z.of_nat i)
       (Z.of_nat (length (userDatas model) + i));
     rtcCommitGeometry (nextGeometry e + Z.of_nat i);
     rtcAttachGeometryByID rtcScene (nextGeometry e + Z.of_nat i)
       (uint32_add offset (Z.of_nat i));
     rtcReleaseGeometry (nextGeometry e + Z.of_nat i)] /\
  omap (index_buffer_view (nextGeometry e + Z.of_nat i)) (calls e')
  = [(RTC_FORMAT_UINT, curveIndices curveData, uint32_wrap (curve_indexOffset curve * 4),
      4, curve_indexCount curve)] /\
  omap (filter_view (nextGeometry e + Z.of_nat i)) (calls e') = [] /\
  omap (displacement_view (nextGeometry e + Z.of_nat i)) (calls e') = [].
Proof.
  intros Hfresh Hcount Hrun Hcurve.
  destruct (curve_registration _ _ _ _ _ _ _ _ _ _ _ _ _ _ _ Hfresh Hcount Hrun Hcurve)
    as (Hgeo & Huser & Hview).
  split; [done |]. split; [done |].
  rewrite (Hview _ _ (other_lifecycle_view _)), (Hview _ _ (other_index_buffer_view _)),
    (Hview _ _ (other_filter_view _)), (Hview _ _ (other_displacement_view _)).
  unfold curve_calls, closing_calls. simpl. rewrite !Z.eqb_refl. done.
Qed.

(** X19: [InitializeCurves] fails in one way only, on its two alignment
    assertions: when assertions are compiled out, or both curve buffers
    are 16-byte aligned, it runs to its end -- also in a model without a
    default material, as no material is read -- adds one geometry and one
    user data per curve and returns [offset] plus the curve count in
    [uint32] arithmetic; otherwise it stops on the assertion. *)
Theorem InitializeCurves_outcome (asserts : bool) (model : ModelResource)
    (curveData : CurveData) (e : Embree) (offset rtcDevice rtcScene : Z) :
  if negb asserts
     || (aligned (curveIndices curveData) && aligned (curveVertices curveData))
  then
    exists (model' : ModelResource) (e' : Embree),
      InitializeCurves asserts model curveData e offset rtcDevice rtcScene
      = Done (uint32_add offset (uint32_wrap (Z.of_nat (length (curves curveData)))),
              model', e') /\
      data model' = data model /\
      defaultMaterial model' = defaultMaterial model /\
      length (rtcGeometries model')
      = (length (rtcGeometries model)
         + Z.to_nat (uint32_wrap (Z.of_nat (length (curves curveData)))))%nat /\
      length (userDatas model')
      = (length (userDatas model)
         + Z.to_nat (uint32_wrap (Z.of_nat (length (curves curveData)))))%nat
  else
    InitializeCurves asserts model curveData e offset rtcDevice rtcScene
    = Crash AssertionFailed.
Proof.
  unfold Curves.InitializeCurves, Assert_.
  destruct asserts, (aligned (curveIndices curveData)),
    (aligned (curveVertices curveData)); simpl; try done;
    rewrite register_curves_loop;
    set (count := uint32_wrap (Z.of_nat (length (curves curveData))));
    (assert (Hcount : 0 <= count <= Z.of_nat (length (curves curveData)));
     [subst count; unfold uint32_wrap, uint32_modulus; split;
        [apply Z.mod_pos_bound; lia | apply Z.mod_le; lia] |]);
    (destruct (loop_over_total (curve_body curveData offset rtcDevice rtcScene)
                 ltac:(intros [m0 e0] scan0 item0; rewrite register_curve_trace;
                       by eexists)
                 (take (Z.to_nat count) (curves curveData)) (model, e) 0)
       as [[model' e'] Hloop]);
    rewrite Hloop; simpl; exists model', e'; (split; [done |]);
    apply (loop_over_runs _ (curve_body_adds _ _ _ _ _ _ _)) in Hloop
      as (Hdata & _ & Hdef & _ & G & U & X & -> & -> & HG & HU & _);
    rewrite !length_app, HG, HU, length_take; (split; [done |]); (split; [done |]); lia.
Qed.


End SceneFacts.

(** Two curves beside the three meshes of the small model. *)
Definition sample_curves : CurveData :=
  mkCurveData [mkCurveMeta 0 16 20; mkCurveMeta 16 8 99] 96 256 8192 8288.

Definition sample_curve_registration : Outcome (Z * ModelResource * Embree) :=
  InitializeCurves 8 16 32 true sample_model sample_curves (mkEmbree 0 []) 3 7 9.

Lemma InitializeCurves_geometry_witness :
  match sample_curve_registration with
  | Done (_, model', e') =>
      omap (lifecycle_view 1) (calls e')
      = [rtcNewGeometry 7 RTC_GEOMETRY_TYPE_ROUND_BSPLINE_CURVE 1;
         rtcSetGeometryUserData 1 1; rtcCommitGeometry 1;
         rtcAttachGeometryByID 9 1 4; rtcReleaseGeometry 1] /\
      omap (filter_view 1) (calls e') = []
  | Crash _ => False
  end.
Proof.
  destruct sample_curve_registration as [[[next model'] e'] | fault] eqn:Hrun;
    [| vm_compute in Hrun; discriminate].
  destruct (InitializeCurves_geometry 8 16 32 true sample_model sample_curves
              (mkEmbree 0 []) 3 7 9 next model' e' 1%nat (mkCurveMeta 16 8 99)
              ltac:(constructor) eq_refl Hrun eq_refl)
    as (_ & _ & Hcycle & _ & Hfilter & _).
  by split.
Defined.

Definition sample_scene_population : Outcome (ModelResource * SceneBackend) :=
  PopulateEmbreeScene 4 1 8 16 32 true EnableDisplacement_ sample_initialized_model
    sample_curves (mkEmbree 0 []) 7 9.


(** ** Vertex attributes *)

(** The attribute count declared for geometry [g]. *)
Definition attribute_count_view (g : Z) (c : RtcCall) : option Z :=
  match c with
  | rtcSetGeometryVertexAttributeCount g' count => if g' =? g then Some count else None
  | _ => None
  end.

(** The vertex-attribute buffers bound to geometry [g]: slot, format and
    address. *)
Definition attribute_view (g : Z) (c : RtcCall) : option (Z * RTCFormat * Z) :=
  match c with
  | rtcSetSharedGeometryBuffer g' RTC_BUFFER_TYPE_VERTEX_ATTRIBUTE slot format ptr _ _ _ =>
      if g' =? g then Some (slot, format, ptr) else None
  | _ => None
  end.

(** X21: [SetMeshVertexAttributes] stops on an assertion unless
    assertions are compiled out or the four vertex buffers are 16-byte
    aligned, tangents come with normals, and uvs come with normals and
    tangents; in that case it completes, takes no new handle from the
    backend and only adds calls about the geometry it is given. *)
Theorem SetMeshVertexAttributes_outcome (asserts : bool) (e : Embree) (g : Z)
    (model : ModelResource) :
  if attributes_ok asserts model
  then
    exists X : list RtcCall,
      SetMeshVertexAttributes asserts e g model
      = Done (mkEmbree (nextGeometry e) (calls e ++ X)) /\
      Forall (fun c => about c = g) X
  else SetMeshVertexAttributes asserts e g model = Crash AssertionFailed.
Proof.
  unfold attributes_ok, SetMeshVertexAttributes.
  destruct asserts;
    destruct (aligned (positions (geometry model)));
    destruct (aligned (normals (geometry model)));
    destruct (aligned (tangents (geometry model)));
    destruct (aligned (uvs (geometry model)));
    destruct (0 <? normalsSize (geometry model));
    destruct (0 <? tangentsSize (geometry model));
    destruct (0 <? uvsSize (geometry model));
    simpl; try done;
    unfold call; simpl; rewrite <- ?app_assoc; (eexists; split; [reflexivity |]);
    by repeat constructor.
Qed.

(** X22: in a build with assertions, a completed
    [SetMeshVertexAttributes] leaves no gap in the attribute slots: the
    attribute count it declares is the number of attribute kinds present,
    and the buffers it binds are the first that many of normals (slot 0,
    [float3]), tangents (slot 1, [float4]) and uvs (slot 2, [float2]), in
    this order; with no attribute kind present it declares no count and
    binds no attribute buffer. *)
Theorem SetMeshVertexAttributes_attribute_slots (e : Embree) (g : Z)
    (model : ModelResource) (e' : Embree) :
  SetMeshVertexAttributes true e g model = Done e' ->
  let count :=
    Z.b2z (0 <? normalsSize (geometry model)) + Z.b2z (0 <? uvsSize (geometry model))
    + Z.b2z (0 <? tangentsSize (geometry model)) in
  omap (attribute_count_view g) (calls e')
  = omap (attribute_count_view g) (calls e) ++ (if 0 <? count then [count] else []) /\
  omap (attribute_view g) (calls e')
  = omap (attribute_view g) (calls e)
    ++ take (Z.to_nat count)
         [(0, RTC_FORMAT_FLOAT3, normals (geometry model));
          (1, RTC_FORMAT_FLOAT4, tangents (geometry model));
          (2, RTC_FORMAT_FLOAT2, uvs (geometry model))].
Proof.
  unfold SetMeshVertexAttributes.
  destruct (aligned (positions (geometry model)));
    destruct (aligned (normals (geometry model)));
    destruct (aligned (tangents (geometry model)));
    destruct (aligned (uvs (geometry model)));
    destruct (0 <? normalsSize (geometry model));
    destruct (0 <? tangentsSize (geometry model));
    destruct (0 <? uvsSize (geometry model));
    simpl; intros [= <-]; simpl; rewrite ?omap_app; simpl; rewrite ?Z.eqb_refl;
    rewrite ?app_nil_r, <- ?app_assoc; done.
Qed.

(** Normals and tangents, no uvs, all buffers aligned. *)
Definition sample_attribute_geometry : ModelGeometryData :=
  mkGeometryData 48 0 96 96 128 0 4096 4160 4176 4272 4368 0.

Lemma SetMeshVertexAttributes_attribute_slots_witness :
  exists e',
    SetMeshVertexAttributes true (mkEmbree 1 []) 0
      (mkModel sample_model_data sample_attribute_geometry None None [] [])
    = Done e' /\
    omap (attribute_count_view 0) (calls e') = [2] /\
    omap (attribute_view 0) (calls e')
    = [(0, RTC_FORMAT_FLOAT3, 4272); (1, RTC_FORMAT_FLOAT4, 4368)].
Proof.
  eexists. split; [reflexivity |].
  exact (SetMeshVertexAttributes_attribute_slots (mkEmbree 1 []) 0
           (mkModel sample_model_data sample_attribute_geometry None None [] []) _ eq_refl).
Defined.

(** ** Setting up a model *)

Lemma read_textures_first_error (ReadTextureResource : string -> Error * option TextureResource)
    (name : string) (rest : list string) (message : string) :
  (ReadTextureResource name).1 = Error_ message ->
  forall (loaded : list string) (before : list (option TextureResource)),
    Forall (fun loadedName => (ReadTextureResource loadedName).1 = Success_) loaded ->
    read_textures ReadTextureResource (loaded ++ name :: rest) (length before)
      (before ++ replicate (length (loaded ++ name :: rest)) None)
    = (Error_ message,
       before ++ ((fun textureName => (ReadTextureResource textureName).2)
                    <$> (loaded ++ [name]))
       ++ replicate (length rest) None).
Proof.
  intros Hfails. induction loaded as [| first others IH]; intros before Hloaded.
  - cbn [app read_textures length replicate].
    destruct (ReadTextureResource name) as [error slot] eqn:Hread.
    simpl in Hfails. subst error.
    rewrite insert_app_r_alt, Nat.sub_diag by lia. simpl. by rewrite Hread.
  - apply Forall_cons in Hloaded as [Hfirst Hothers].
    cbn [app read_textures length replicate].
    destruct (ReadTextureResource first) as [error slot] eqn:Hread.
    simpl in Hfirst. subst error.
    rewrite insert_app_r_alt, Nat.sub_diag by lia. cbn [insert list_insert].
    replace (S (length before)) with (length (before ++ [slot]))
      by (rewrite length_app; simpl; lia).
    replace (before ++ slot :: replicate (length (others ++ name :: rest)) None)
      with ((before ++ [slot]) ++ replicate (length (others ++ name :: rest)) None)
      by (by rewrite <- app_assoc).
    rewrite (IH (before ++ [slot]) Hothers), <- app_assoc. simpl. by rewrite Hread.
Qed.

(** X23: [InitializeModelResource] reads the textures in the order of
    their names and returns the error of the first one that fails: the
    texture array then holds what the reads up to and including the
    failing one left in their slots and is as allocated behind them, the
    default material is not created, and nothing else of the model is
    touched. *)
Theorem InitializeModelResource_first_error (Material_new : Material)
    (ReadTextureResource : string -> Error * option TextureResource)
    (model : ModelResource)
    (loaded : list string) (name : string) (rest : list string) (message : string) :
  textureResourceNames (data model) = loaded ++ name :: rest ->
  Forall (fun loadedName => (ReadTextureResource loadedName).1 = Success_) loaded ->
  (ReadTextureResource name).1 = Error_ message ->
  exists model' : ModelResource,
    InitializeModelResource Material_new ReadTextureResource model
    = (Error_ message, model') /\
    textures model'
    = Some (((fun textureName => (ReadTextureResource textureName).2)
               <$> (loaded ++ [name]))
            ++ replicate (length rest) None) /\
    defaultMaterial model' = defaultMaterial model /\
    data model' = data model /\
    geometry model' = geometry model /\
    rtcGeometries model' = rtcGeometries model /\
    userDatas model' = userDatas model.
Proof.
  intros Hnames Hloaded Hfails. unfold InitializeModelResource. rewrite Hnames.
  pose proof (read_textures_first_error ReadTextureResource name rest message Hfails
                loaded [] Hloaded) as Hread.
  simpl in Hread. rewrite Hread.
  eexists. split; [reflexivity |]. done.
Qed.

Definition sample_texture_reader (name : string) : Error * option TextureResource :=
  if String.eqb name "missing" then (Error_ "not found", None)
  else if String.eqb name "broken" then (Error_ "bad header", None)
  else (Success_, Some (mkTextureResource [Byte.x01])).

Lemma InitializeModelResource_first_error_witness :
  exists model',
    InitializeModelResource (sample_material 0) sample_texture_reader
      (mkModel (mkModelData 0 0 ["wood"; "missing"; "broken"] [] [] []) sample_geometry
         None None [] [])
    = (Error_ "not found", model') /\
    textures model' = Some [Some (mkTextureResource [Byte.x01]); None; None] /\
    defaultMaterial model' = None.
Proof.
  destruct (InitializeModelResource_first_error (sample_material 0) sample_texture_reader
              (mkModel (mkModelData 0 0 ["wood"; "missing"; "broken"] [] [] [])
                 sample_geometry None None [] [])
              ["wood"] "missing" ["broken"] "not found"
              eq_refl ltac:(by repeat constructor) eq_refl)
    as (model' & Hrun & Htextures & Hdefault & _).
  exists model'. split; [exact Hrun |]. split; [exact Htextures | exact Hdefault].
Defined.

Section MissingMaterial.

Variable eDisplacementEnabled eAlphaTested HasNormals HasTangents HasUvs : Z.

#[local] Abbreviation InitializeMeshes :=
  (Model.InitializeMeshes eDisplacementEnabled eAlphaTested HasNormals HasTangents HasUvs).

(** X24: [InitializeMeshes] reads the material of every mesh, so in a
    model without a default material -- before [InitializeModelResource],
    or after it failed -- it cannot run to its end when the material hash
    of some mesh is not found: the run ends in a fault; and when that
    mesh is the first one and the two alignment assertions pass or are
    compiled out, the fault is the read through the null pointer. *)
Theorem InitializeMeshes_without_default_material (asserts : bool) (gate : Z)
    (model : ModelResource) (e : Embree) (offset rtcDevice rtcScene : Z)
    (i : nat) (meshData : MeshMetaData) :
  defaultMaterial model = None ->
  Z.of_nat (length (meshes (data model))) < uint32_modulus ->
  meshes (data model) !! i = Some meshData ->
  FindMeshMaterial model (materialHash meshData) = DefaultMaterialRef ->
  (exists fault : Fault,
     InitializeMeshes asserts gate model e offset rtcDevice rtcScene = Crash fault) /\
  (i = 0%nat ->
   negb asserts
   || (aligned (Model.indices (geometry model))
       && aligned (faceIndexCounts (geometry model))) = true ->
   InitializeMeshes asserts gate model e offset rtcDevice rtcScene
   = Crash NullDereference).
Proof.
  intros Hdefault Hcount Hmesh Hfind. split.
  - destruct (InitializeMeshes asserts gate model e offset rtcDevice rtcScene)
      as [[[next model'] e'] | fault] eqn:Hrun; [| by exists fault].
    exfalso.
    apply InitializeMeshes_loop in Hrun as [_ Hloop]; [| done].
    apply (loop_over_runs _ (mesh_body_adds _ _ _ _ _ _ _ _ _ _)) in Hloop
      as (_ & _ & _ & _ & G & U & X & _ & _ & _ & _ & _ & _ & Hitems).
    destruct (Hitems i meshData Hmesh)
      as (model_i & e_i & ud & e_i' & X_i & Hd & _ & Hm & _ & _ & _ & Hstep & _).
    apply register_mesh_trace in Hstep as (material & _ & Hderef & _).
    rewrite (FindMeshMaterial_same model model_i), (deref_same model model_i), Hfind
      in Hderef by done.
    unfold deref in Hderef. by rewrite Hdefault in Hderef.
  - intros -> Hasserts.
    destruct (meshes (data model)) as [| first rest] eqn:Hmeshes; [done |].
    injection Hmesh as ->.
    unfold Model.InitializeMeshes, Assert_.
    rewrite Hmeshes, uint32_wrap_small, Nat2Z.id, firstn_all
      by (unfold is_uint32; simpl in *; lia).
    cbn [Model.register_meshes]. unfold Model.register_mesh.
    rewrite Hfind. unfold deref. rewrite Hdefault.
    destruct asserts, (aligned (Model.indices (geometry model))),
      (aligned (faceIndexCounts (geometry model))); simpl in *; done.
Qed.

End MissingMaterial.

(** One mesh, no material and no default material. *)
Definition sample_bare_model : ModelResource :=
  mkModel (mkModelData 8 0 [] [] [] [sample_mesh 10 3]) sample_geometry None None [] [].

Lemma InitializeMeshes_without_default_material_witness :
  InitializeMeshes 4 1 8 16 32 true EnableDisplacement_ sample_bare_model
    (mkEmbree 0 []) 0 7 9
  = Crash NullDereference.
Proof.
  apply (proj2 (InitializeMeshes_without_default_material 4 1 8 16 32 true
                  EnableDisplacement_ sample_bare_model (mkEmbree 0 []) 0 7 9 0%nat
                  (sample_mesh 10 3) eq_refl eq_refl eq_refl eq_refl));
    reflexivity.
Defined.

(** ** The intersection filter *)

Section FilterFacts.

Variable CalculatePassesAlphaTest : GeometryUserData -> Z -> Z -> float * float -> Z.

#[local] Abbreviation filter_lanes := (Filter.filter_lanes CalculatePassesAlphaTest).

(** The value the filter leaves in a lane. *)
Definition filtered (geomData : GeometryUserData) (v : Z) (hit : Filter.RTCHit) : Z :=
  if v =? -1
  then CalculatePassesAlphaTest geomData (Filter.geomID hit) (Filter.primID hit)
         (Filter.hit_u hit, Filter.hit_v hit)
  else v.

Lemma filter_lanes_spec geomData hits : forall (todo : nat) (valid : list Z) (scan : nat),
  (scan + todo <= length valid)%nat ->
  (scan + todo <= length hits)%nat ->
  exists valid',
    filter_lanes geomData hits valid (Z.of_nat scan) todo = Done valid' /\
    length valid' = length valid /\
    (forall (i : nat) (v : Z) (hit : Filter.RTCHit),
       (scan <= i < scan + todo)%nat ->
       valid !! i = Some v -> hits !! i = Some hit ->
       valid' !! i = Some (filtered geomData v hit)) /\
    (forall i : nat, ~ (scan <= i < scan + todo)%nat -> valid' !! i = valid !! i).
Proof.
  induction todo as [| todo IH]; intros valid scan Hvalid Hhits.
  - exists valid. split; [done |]. split; [done |]. split; [| done].
    intros i v hit Hi. lia.
  - cbn [Filter.filter_lanes]. unfold Filter.filter_lane.
    destruct (lookup_lt_is_Some_2 valid scan ltac:(lia)) as [v0 Hv0].
    destruct (lookup_lt_is_Some_2 hits scan ltac:(lia)) as [hit0 Hhit0].
    rewrite (array_load_in_range valid (Z.of_nat scan) v0)
      by (rewrite ?Nat2Z.id; done || lia).
    simpl.
    replace (Z.of_nat scan + 1) with (Z.of_nat (S scan)) by lia.
    destruct (Z.eqb_spec v0 (-1)) as [-> | Hother]; simpl.
    + rewrite (array_load_in_range hits (Z.of_nat scan) hit0)
        by (rewrite ?Nat2Z.id; done || lia).
      simpl. rewrite array_store_in_range by lia. simpl. rewrite Nat2Z.id.
      set (c := CalculatePassesAlphaTest geomData (Filter.geomID hit0)
                  (Filter.primID hit0) (Filter.hit_u hit0, Filter.hit_v hit0)).
      destruct (IH (<[scan := c]> valid) (S scan))
        as (valid' & -> & Hlen & Hin & Hout); [rewrite length_insert; lia | lia |].
      exists valid'. split; [done |]. split; [by rewrite Hlen, length_insert |]. split.
      * intros i v hit Hi Hv Hhit.
        destruct (decide (i = scan)) as [-> | Hne].
        -- rewrite Hout, list_lookup_insert_eq by lia.
           assert (v = -1) as -> by congruence. assert (hit = hit0) as -> by congruence.
           done.
        -- apply Hin; [lia | by rewrite list_lookup_insert_ne | done].
      * intros i Hi. rewrite Hout, list_lookup_insert_ne by lia. done.
    + destruct (IH valid (S scan)) as (valid' & -> & Hlen & Hin & Hout); [lia | lia |].
      exists valid'. split; [done |]. split; [done |]. split.
      * intros i v hit Hi Hv Hhit.
        destruct (decide (i = scan)) as [-> | Hne].
        -- rewrite Hout, Hv by lia. assert (v = v0) as -> by congruence.
           unfold filtered. by destruct (Z.eqb_spec v0 (-1)).
        -- apply Hin; [lia | done | done].
      * intros i Hi. apply Hout. lia.
Qed.

(** X25: the intersection filter decides the active lanes only: called on
    [N] lanes it completes, and a lane whose [valid] entry is [-1] gets
    the result of the alpha test of that lane's hit; every other entry --
    a lane that is not active, or an entry beyond the [N] lanes -- is left
    as it was; no entry is added or removed. *)
Theorem IntersectionFilter_active_lanes (valid : list Z) (geomData : GeometryUserData)
    (N : Z) (hits : list Filter.RTCHit) :
  0 <= N <= Z.of_nat (length valid) ->
  Z.of_nat (length hits) = N ->
  exists valid' : list Z,
    Filter.IntersectionFilter CalculatePassesAlphaTest valid geomData N hits = Done valid' /\
    length valid' = length valid /\
    (forall (i : nat) (v : Z) (hit : Filter.RTCHit),
       valid !! i = Some v -> hits !! i = Some hit ->
       valid' !! i = Some (filtered geomData v hit)) /\
    (forall i : nat, (length hits <= i)%nat -> valid' !! i = valid !! i).
Proof.
  intros HN Hhits. unfold Filter.IntersectionFilter.
  destruct (filter_lanes_spec geomData hits (Z.to_nat N) valid 0 ltac:(lia) ltac:(lia))
    as (valid' & Hrun & Hlen & Hin & Hout).
  exists valid'. split; [exact Hrun |]. split; [done |]. split.
  - intros i v hit Hv Hhit. pose proof (lookup_lt_Some _ _ _ Hhit).
    apply Hin; [lia | done | done].
  - intros i Hi. apply Hout. lia.
Qed.

End FilterFacts.

(** An alpha test that lets only primitive 5 through. *)
Definition sample_alpha_test (geomData : GeometryUserData) (geomID primID : Z)
    (uv : float * float) : Z :=
  if primID =? 5 then -1 else 0.

Lemma IntersectionFilter_active_lanes_witness :
  exists valid',
    Filter.IntersectionFilter sample_alpha_test [-1; 0; -1; -1]
      (mkUserData 0 DefaultMaterialRef RTC_INVALID_GEOMETRY_ID 9 0 MatrixIdentity InvalidBox)
      3 [Filter.mkRTCHit 0 5 fzero fzero; Filter.mkRTCHit 0 5 fzero fzero;
         Filter.mkRTCHit 0 6 fzero fzero]
    = Done valid' /\
    valid' !! 2%nat = Some 0 /\
    valid' !! 3%nat = Some (-1).
Proof.
  destruct (IntersectionFilter_active_lanes sample_alpha_test [-1; 0; -1; -1]
              (mkUserData 0 DefaultMaterialRef RTC_INVALID_GEOMETRY_ID 9 0 MatrixIdentity
                 InvalidBox)
              3 [Filter.mkRTCHit 0 5 fzero fzero; Filter.mkRTCHit 0 5 fzero fzero;
                 Filter.mkRTCHit 0 6 fzero fzero]
              ltac:(simpl; lia) eq_refl)
    as (valid' & Hrun & _ & Hin & Hout).
  exists valid'. split; [exact Hrun |]. split.
  - exact (Hin 2%nat (-1) (Filter.mkRTCHit 0 6 fzero fzero) eq_refl eq_refl).
  - exact (Hout 3%nat ltac:(simpl; lia)).
Defined.
